(** * gnuplot.cpp: the plot session controller, embedded and verified

    A shallow embedding of [src/gnuplot.cpp] (the C++ interface to gnuplot
    derived from N. Devillard's gnuplot_i): the executable locator, the
    session controller with its temporary-file registry, the plot-request
    builders and the histogram aggregator.

    Conventions of the embedding.
    - A call returns an [outcome]: [Done] with its result, or [Fault] where
      the C++ program has undefined behaviour (null or dangling pointer
      dereference, array access out of bounds, signed overflow, a null
      pointer or a missing argument handed to printf, use of a stream after
      pclose).
    - [double] is IEEE-754 binary64, as [spec_float] with [prec = 53] and
      [emax = 1024]; comparisons and [++] are the IEEE ones.
    - [char *] arguments that may be null are [option string]; a [string]
      stands for the C string with that text (no NUL inside).
    - [unsigned int] and [int] values are in [Z], with the conversion
      between them and the overflow of [++] written out.
    - The command and title buffers ([local_cmd], [cmd] and [line] of
      [GP_CMD_SIZE] bytes, [stitle] and [title_str] of [GP_TITLE_SIZE]
      bytes) are modelled with their capacity: a text that does not fit
      with its NUL is a fault.  An array that only receives text whose
      length the program and the C library fix is modelled by the string
      itself: [name] (the macro [P_tmpdir] and eighteen characters),
      [plot_str] (a verb), [pstyle] (a name of the enumeration), [line]
      while it holds the [%g] rendering of one or two numbers, an entry of
      [to_delete] (a copy of [name]).  The locator's [static char buf] is
      modelled byte for byte, capacity included, because its contents
      survive from one call to the next.  The array [to_delete] is indexed
      without a bound; that the index stays below [GP_MAX_TMP_FILES] is the
      invariant proved for C3.
    - What the operating system and the C library decide (the name
      [mkstemp] picks, how many bytes [write] accepts, what [access],
      [getenv], [popen] and [pclose] answer, how [%g] renders a double) is
      an explicit argument of the call that asks. *)

From Stdlib Require Import ZArith String Ascii.
From Stdlib Require Import Floats.SpecFloat.
From stdpp Require Import base tactics option list list_numbers gmap strings pretty.

Open Scope Z_scope.

(* ================================================================== *)
(** * Outcomes *)

Inductive fault :=
  | NullDeref        (* dereference of a null pointer *)
  | UseAfterFree     (* dereference of a pointer passed to free *)
  | NullString       (* null pointer handed to a %s conversion *)
  | BadFormat        (* conversion specification without its argument *)
  | OutOfBounds      (* array access outside the array *)
  | SignedOverflow   (* int incremented past INT_MAX *)
  | ClosedStream.    (* use of a FILE after pclose *)

Inductive outcome (A : Type) :=
  | Done (a : A)
  | Fault (f : fault).
Arguments Done {A} a.
Arguments Fault {A} f.

#[global] Instance outcome_ret : MRet outcome := @Done.
#[global] Instance outcome_bind : MBind outcome := λ A B k m,
  match m with Done a => k a | Fault f => Fault f end.
#[global] Instance outcome_fmap : FMap outcome := λ A B g m,
  match m with Done a => Done (g a) | Fault f => Fault f end.

(** [*p] for a pointer that may be null. *)
Definition deref {A} (p : option A) : outcome A :=
  match p with Some a => Done a | None => Fault NullDeref end.

(** The argument of a [%s] conversion. *)
Definition percent_s (p : option string) : outcome string :=
  match p with Some s => Done s | None => Fault NullString end.

(** [a[i]] for an array of [length a] elements. *)
Definition rd {A} (a : list A) (i : nat) : outcome A :=
  match a !! i with Some v => Done v | None => Fault OutOfBounds end.

Definition INT_MAX : Z := 2147483647.
Definition UINT_MOD : Z := 4294967296.

(** The macros of lines 36 and 39: the size of a command buffer and of a
    title buffer. *)
Definition GP_CMD_SIZE : nat := 2048.
Definition GP_TITLE_SIZE : nat := 80.

(** [sprintf(dst, ...)] where the conversions yield [text], [strcpy(dst, s)]
    and [strcat(dst, s)], for a [char dst[cap]]: the text and its NUL have
    to fit, a write past the array is a fault. *)
Definition sprintf (cap : nat) (text : string) : outcome string :=
  if (String.length text <? cap)%nat then Done text else Fault OutOfBounds.

Definition strcpy (cap : nat) (s : string) : outcome string := sprintf cap s.

Definition strcat (cap : nat) (dst s : string) : outcome string :=
  sprintf cap (dst +:+ s).

(** [v++] on an [int]. *)
Definition incr_int (v : Z) : outcome Z :=
  if v <? INT_MAX then Done (v + 1) else Fault SignedOverflow.

(** Conversion of an [unsigned int] to [int] (two's complement). *)
Definition int_of_uint (u : Z) : Z :=
  if u <=? INT_MAX then u else u - UINT_MOD.

(* ================================================================== *)
(** * Doubles *)

Definition double := spec_float.

Definition d_zero : double := S754_zero false.
Definition d_one : double := SFone 53 1024.

(** The double nearest to [m * 2^e]. *)
Definition d_dyadic (m e : Z) : double := binary_normalize 53 1024 m e false.
Definition d_of_Z (z : Z) : double := d_dyadic z 0.

(** [a <= b], [a < b], [a >= b] and [a != 0]: false whenever a NaN is
    compared, hence a NaN counts as non-zero. *)
Definition d_le (a b : double) : bool := SFleb a b.
Definition d_lt (a b : double) : bool := SFltb a b.
Definition d_ge (a b : double) : bool :=
  match SFcompare a b with Some (Gt | Eq) => true | _ => false end.
Definition d_nonzero (a : double) : bool := negb (SFeqb a d_zero).

(** [a++] on a double. *)
Definition d_incr (a : double) : double := SFadd 53 1024 a d_one.

(* ================================================================== *)
(** * Histogram aggregator (gnuplot_plot_histogram, lines 727-755) *)

(** [bin[i]++] *)
Definition bump (bin : list double) (i : nat) : outcome (list double) :=
  v ← rd bin i; Done (<[i := d_incr v]> bin).

(** Body of the inner [for]: bin index [i], sample [x = rawdata[j]]. *)
Definition bin_body (overflow : Z) (ordinate : option (list double))
    (nbins : nat) (x : double) (i : nat) (bin : list double)
    : outcome (list double) :=
  ord ← deref ordinate;
  if negb (overflow =? 0) then
    o0 ← rd ord 0%nat;
    if d_le x o0 then bump bin 0%nat
    else
      oN ← rd ord (nbins - 1)%nat;
      if d_ge x oN then bump bin (nbins - 1)%nat
      else
        oi ← rd ord i;
        if d_ge x oi then
          oi1 ← rd ord (i + 1)%nat;
          if d_lt x oi1 then bump bin i else Done bin
        else Done bin
  else
    oi ← rd ord i;
    if d_ge x oi then
      oi1 ← rd ord (i + 1)%nat;
      if d_lt x oi1 then bump bin i else Done bin
    else Done bin.

(** [for (i = ...; i < nbins-1; i++)] with [k] iterations left. *)
Fixpoint bin_scan (overflow : Z) (ordinate : option (list double))
    (nbins : nat) (x : double) (k i : nat) (bin : list double)
    : outcome (list double) :=
  match k with
  | O => Done bin
  | S k' =>
      bin' ← bin_body overflow ordinate nbins x i bin;
      bin_scan overflow ordinate nbins x k' (S i) bin'
  end.

(** One pass of the outer [while] body for the sample [x]. *)
Definition bin_sample (overflow : Z) (ordinate : option (list double))
    (nbins : nat) (x : double) (bin : list double) : outcome (list double) :=
  bin_scan overflow ordinate nbins x (nbins - 1)%nat 0%nat bin.

(** [while (j < nbins && rawdata[j]) { ...; j++ }] with [k = nbins - j]
    iterations left at most. *)
Fixpoint sample_loop (overflow : Z) (ordinate : option (list double))
    (rawdata : list double) (nbins : nat) (k j : nat) (bin : list double)
    : outcome (list double) :=
  match k with
  | O => Done bin
  | S k' =>
      x ← rd rawdata j;
      if d_nonzero x then
        bin' ← bin_sample overflow ordinate nbins x bin;
        sample_loop overflow ordinate rawdata nbins k' (S j) bin'
      else Done bin
  end.

(** The counters as they stand when the plot is issued: [None] when
    [rawdata] is null and the function has returned before counting. *)
Definition histogram_bins (ordinate rawdata : option (list double))
    (nbins : Z) (overflow : Z) : outcome (option (list double)) :=
  let n := Z.to_nat (nbins mod UINT_MOD) in
  let bin := replicate n d_zero in
  match rawdata with
  | None => Done None
  | Some raw => Some <$> sample_loop overflow ordinate raw n n 0%nat bin
  end.

(* ================================================================== *)
(** * Session data (struct gnuplot_ctrl, class GnuPlot) and the process *)

(** [FILE *gnucmd]: the pipe to gnuplot's standard input, with every
    string written to it so far. *)
Record pipe := Pipe { p_open : bool; p_sent : list string }.

(** [gnuplot_ctrl]: the fields the code uses.  [to_delete] is the array of
    temporary-file names, indexed from 0; its first [ntmp] entries are the
    registry. *)
Record gnuplot_ctrl := Ctrl {
  gnucmd : pipe;
  nplots : Z;
  pstyle : string;
  to_delete : Z → string;
  ntmp : Z
}.

(** The pointer [this->plot_ctrl]. *)
Inductive handle :=
  | Null
  | Live (c : gnuplot_ctrl)
  | Freed.

(** What a call can read and change: the session handle, the files of the
    temporary directory (name to contents), the two output streams of the
    process and the locator's [static char buf]. *)
Record world := World {
  plot_ctrl : handle;
  fs : gmap string string;
  stderr : list string;
  stdout : list string;
  path_buf : list ascii
}.

(** The answers of the environment to one call. *)
Record environ := Environ {
  env_PATH : option string;        (* getenv("PATH") *)
  env_DISPLAY : option string;     (* getenv("DISPLAY") *)
  access_X : string → bool;        (* access(name, X_OK) == 0 *)
  popen_ok : bool;                 (* popen("gnuplot", "w") != NULL *)
  malloc_pstyle : string;          (* what malloc's block held *)
  malloc_names : Z → string
}.

(** The answers of the file system to one staging call: the suffix
    [mkstemp] substitutes for XXXXXX ([None]: it returns -1), and the
    return value of the [i]-th [write] of [line]. *)
Record staging := Staging {
  mkstemp_pick : option string;
  write_ret : nat → string → Z
}.

Definition with_ctrl (w : world) (h : handle) : world :=
  World h (fs w) (stderr w) (stdout w) (path_buf w).
Definition with_fs (w : world) (f : gmap string string) : world :=
  World (plot_ctrl w) f (stderr w) (stdout w) (path_buf w).
Definition with_buf (w : world) (b : list ascii) : world :=
  World (plot_ctrl w) (fs w) (stderr w) (stdout w) b.
Definition fprintf_stderr (msg : string) (w : world) : world :=
  World (plot_ctrl w) (fs w) (stderr w ++ [msg]) (stdout w) (path_buf w).
Definition printf_stdout (msg : string) (w : world) : world :=
  World (plot_ctrl w) (fs w) (stderr w) (stdout w ++ [msg]) (path_buf w).

Definition set_gnucmd (c : gnuplot_ctrl) (p : pipe) : gnuplot_ctrl :=
  Ctrl p (nplots c) (pstyle c) (to_delete c) (ntmp c).
Definition set_nplots (c : gnuplot_ctrl) (n : Z) : gnuplot_ctrl :=
  Ctrl (gnucmd c) n (pstyle c) (to_delete c) (ntmp c).
Definition set_pstyle (c : gnuplot_ctrl) (s : string) : gnuplot_ctrl :=
  Ctrl (gnucmd c) (nplots c) s (to_delete c) (ntmp c).
Definition set_ntmp (c : gnuplot_ctrl) (n : Z) : gnuplot_ctrl :=
  Ctrl (gnucmd c) (nplots c) (pstyle c) (to_delete c) n.
(** [strcpy(to_delete[i], name)] *)
Definition set_to_delete (c : gnuplot_ctrl) (i : Z) (name : string)
    : gnuplot_ctrl :=
  Ctrl (gnucmd c) (nplots c) (pstyle c)
       (λ k, if decide (k = i) then name else to_delete c k) (ntmp c).

(** [*this->plot_ctrl] *)
Definition this_ctrl (w : world) : outcome gnuplot_ctrl :=
  match plot_ctrl w with
  | Live c => Done c
  | Null => Fault NullDeref
  | Freed => Fault UseAfterFree
  end.

(** The staged-file registry: [to_delete[0 .. ntmp-1]]. *)
Definition registry (c : gnuplot_ctrl) : list string :=
  to_delete c <$> seqZ 0 (ntmp c).

(* ================================================================== *)
(** * Executable locator (gnuplot_get_program_path, lines 86-129) *)

Definition PATH_MAXNAMESZ : nat := 4096.
Definition nul : ascii := "000"%char.

(** The line feed and the double quote, as one-character strings. *)
Definition LF : string := String "010"%char EmptyString.
Definition DQ : string := String "034"%char EmptyString.

Definition chars (s : string) : list ascii := list_ascii_of_string s.
Definition text (l : list ascii) : string := string_of_list_ascii l.

(** [buf[i] = c] and [buf[i]] on a [char] array. *)
Definition store (buf : list ascii) (i : nat) (c : ascii)
    : outcome (list ascii) :=
  if decide (i < length buf)%nat then Done (<[i := c]> buf)
  else Fault OutOfBounds.

Definition load (buf : list ascii) (i : nat) : outcome ascii := rd buf i.

(** Consecutive stores from offset [i] on. *)
Fixpoint store_bytes (buf : list ascii) (i : nat) (bs : list ascii)
    : outcome (list ascii) :=
  match bs with
  | [] => Done buf
  | b :: bs' => buf' ← store buf i b; store_bytes buf' (S i) bs'
  end.

(** [strcpy(buf + off, s)]: the characters of [s], then the terminator. *)
Definition strcpy_at (buf : list ascii) (off : nat) (s : string)
    : outcome (list ascii) :=
  store_bytes buf off (chars s ++ [nul]).

(** The C string that starts at [buf]: the bytes before the first NUL. *)
Fixpoint cstring (buf : list ascii) : outcome (list ascii) :=
  match buf with
  | [] => Fault OutOfBounds
  | c :: rest => if decide (c = nul) then Done [] else (c ::.) <$> cstring rest
  end.

(** The directory segments the loops over [i] and [j] visit, in order:
    [cur] collects [path[i..j)].  A segment ends at ':' or at the end of the
    string; the scan resumes after the ':'; an empty remainder ends the
    outer loop. *)
Fixpoint path_segments (cur : string) (path : string) : list string :=
  match path with
  | EmptyString => match cur with EmptyString => [] | _ => [cur] end
  | String c rest =>
      if Ascii.eqb c ":" then cur :: path_segments EmptyString rest
      else path_segments (cur +:+ String c EmptyString) rest
  end.

(** The pointer returned: null, or the address of the static buffer. *)
Inductive retval := NULL | BUF.

(** One iteration of the outer [for] per directory segment.  The buffer is
    returned as the loop leaves it: holding the hit after [break], or with
    [buf[0] = 0]. *)
Fixpoint try_dirs (env : environ) (pname : string) (segs : list string)
    (buf : list ascii) : outcome (list ascii) :=
  match segs with
  | [] => Done buf
  | seg :: rest =>
      let lg := String.length seg in
      buf ← store_bytes buf 0 (chars seg);
      '(buf, lg) ← (if decide (lg = 0)%nat
                     then buf ← store buf 0 "."%char; Done (buf, 1%nat)
                     else Done (buf, lg));
      buf ← store buf lg "/"%char;
      buf ← strcpy_at buf (S lg) pname;
      name ← cstring buf;
      if access_X env (text name) then Done buf
      else buf ← store buf 0 nul; try_dirs env pname rest buf
  end.

(** [while (buf[lg] != '/') { buf[lg] = 0; lg--; } buf[lg] = 0;] *)
Fixpoint strip_name (buf : list ascii) (lg : nat) : outcome (list ascii) :=
  c ← load buf lg;
  if decide (c = "/"%char) then store buf lg nul
  else
    buf ← store buf lg nul;
    match lg with
    | O => Fault OutOfBounds
    | S lg' => strip_name buf lg'
    end.

Definition gnuplot_get_program_path (env : environ) (pname : string)
    (w : world) : outcome (retval * world) :=
  buf ← strcpy_at (path_buf w) 0 ("./" +:+ pname);
  name ← cstring buf;
  if access_X env (text name) then
    buf ← strcpy_at buf 0 ".";
    Done (BUF, with_buf w buf)
  else
    buf ← store buf 0 nul;
    '(buf, w) ← match env_PATH env with
                 | Some path =>
                     buf ← try_dirs env pname (path_segments EmptyString path) buf;
                     Done (buf, w)
                 | None =>
                     Done (buf, fprintf_stderr ("PATH variable not set" +:+ LF) w)
                 end;
    c ← load buf 0;
    if decide (c = nul) then Done (NULL, with_buf w buf)
    else
      s ← cstring buf;                    (* not empty: buf[0] is not NUL *)
      buf ← strip_name buf (length s - 1);
      Done (BUF, with_buf w buf).

(** The text seen through a returned pointer. *)
Definition pointee (r : retval) (w : world) : outcome (option string) :=
  match r with
  | NULL => Done None
  | BUF => s ← cstring (path_buf w); Done (Some (text s))
  end.

(* ================================================================== *)
(** * Session controller and plot-request builders *)

(** The text a format yields in a call without variadic arguments, which
    is how every caller in the file uses [gnuplot_cmd]: ordinary characters
    are copied, [%%] yields [%], any other conversion reads an argument
    that is not there ([None]). *)
Fixpoint vsprintf0 (fmt : string) : option string :=
  match fmt with
  | EmptyString => Some EmptyString
  | String c rest =>
      if Ascii.eqb c "%" then
        match rest with
        | String c' rest' =>
            if Ascii.eqb c' "%" then String c' <$> vsprintf0 rest' else None
        | EmptyString => None
        end
      else String c <$> vsprintf0 rest
  end.

(** [fputs(s, f); fflush(f)] *)
Definition fputs (s : string) (f : pipe) : outcome pipe :=
  if p_open f then Done (Pipe true (p_sent f ++ [s])) else Fault ClosedStream.

(** [vsprintf(dst, fmt, ap)] without variadic arguments, into an array with
    [room] bytes left: the format is read from left to right, each
    character produced takes one byte and the final NUL one more; what
    goes wrong first is the fault. *)
Fixpoint vsprintf (room : nat) (fmt : string) {struct fmt}
    : outcome string :=
  match fmt with
  | EmptyString =>
      match room with O => Fault OutOfBounds | S _ => Done EmptyString end
  | String c rest =>
      if Ascii.eqb c "%" then
        match rest with
        | String c' rest' =>
            if Ascii.eqb c' "%" then
              match room with
              | O => Fault OutOfBounds
              | S room' => String c' <$> vsprintf room' rest'
              end
            else Fault BadFormat
        | EmptyString => Fault BadFormat
        end
      else
        match room with
        | O => Fault OutOfBounds
        | S room' => String c <$> vsprintf room' rest
        end
  end.

(** gnuplot_cmd, lines 244-257: the command is formatted into
    [local_cmd[GP_CMD_SIZE]], a line feed is appended there, and the
    result goes down the pipe. *)
Definition gnuplot_cmd (cmd : string) (w : world) : outcome world :=
  local_cmd ← vsprintf GP_CMD_SIZE cmd;
  local_cmd ← strcat GP_CMD_SIZE local_cmd LF;
  c ← this_ctrl w;
  f ← fputs local_cmd (gnucmd c);
  Done (with_ctrl w (Live (set_gnucmd c f))).

(** [strcmp(a, b) != 0] *)
Definition strcmp (a b : string) : bool := negb (String.eqb a b).

(** gnuplot_setstyle, lines 281-299. *)
Definition gnuplot_setstyle (plot_style : option string) (w : world)
    : outcome world :=
  s ← deref plot_style;
  if strcmp s "lines" && strcmp s "points" && strcmp s "linespoints" &&
     strcmp s "impulses" && strcmp s "dots" && strcmp s "steps" &&
     strcmp s "histogram" && strcmp s "errorbars" && strcmp s "boxes" &&
     strcmp s "boxerrorbars"
  then
    let w := fprintf_stderr
               ("warning: unknown requested style: using points" +:+ LF) w in
    c ← this_ctrl w;
    Done (with_ctrl w (Live (set_pstyle c "points")))
  else
    c ← this_ctrl w;
    Done (with_ctrl w (Live (set_pstyle c s))).

(** gnuplot_set_title, gnuplot_set_xlabel, gnuplot_set_ylabel,
    lines 310-355: each formats its command into [cmd[GP_CMD_SIZE]]. *)
Definition gnuplot_set_title (title : option string) (w : world)
    : outcome world :=
  t ← percent_s title;
  cmd ← sprintf GP_CMD_SIZE ("set title '" +:+ t +:+ "'");
  gnuplot_cmd cmd w.

Definition gnuplot_set_xlabel (label : option string) (w : world)
    : outcome world :=
  l ← percent_s label;
  cmd ← sprintf GP_CMD_SIZE ("set xlabel " +:+ DQ +:+ l +:+ DQ);
  gnuplot_cmd cmd w.

Definition gnuplot_set_ylabel (label : option string) (w : world)
    : outcome world :=
  l ← percent_s label;
  cmd ← sprintf GP_CMD_SIZE ("set ylabel " +:+ DQ +:+ l +:+ DQ);
  gnuplot_cmd cmd w.

(** [remove(name)] for each name in turn. *)
Definition remove_all (names : list string) (f : gmap string string)
    : gmap string string :=
  foldl (λ f name, delete name f) f names.

(** gnuplot_resetplot, lines 368-378. *)
Definition gnuplot_resetplot (w : world) : outcome world :=
  c ← this_ctrl w;
  let w := with_fs w (remove_all (registry c) (fs w)) in
  Done (with_ctrl w (Live (set_nplots (set_ntmp c 0) 0))).

(** gnuplot_close, lines 202-216.  [pclose_ret] is what [pclose] returns;
    the stream is gone after the call whatever it returns. *)
Definition gnuplot_close (pclose_ret : Z) (w : world) : outcome world :=
  c ← this_ctrl w;
  if p_open (gnucmd c) then
    let c := set_gnucmd c (Pipe false (p_sent (gnucmd c))) in
    let w := with_ctrl w (Live c) in
    if pclose_ret =? -1 then
      Done (fprintf_stderr
              ("problem closing communication to gnuplot" +:+ LF) w)
    else
      let w := with_fs w (remove_all (registry c) (fs w)) in
      Done (with_ctrl w Freed)
  else Fault ClosedStream.

(** The verb chosen from the overlay counter. *)
Definition plot_verb (c : gnuplot_ctrl) : string :=
  if 0 <? nplots c then "replot" else "plot".

(** gnuplot_plot_equation, lines 685-706: the title is copied into
    [title_str[GP_TITLE_SIZE]] before the handle is read, and the command
    is formatted into [cmd[GP_CMD_SIZE]]. *)
Definition gnuplot_plot_equation (equation title : option string)
    (w : world) : outcome world :=
  title_str ← strcpy GP_TITLE_SIZE
                 (match title with None => "no title" | Some t => t end);
  c ← this_ctrl w;
  let plot_str := plot_verb c in
  eq ← percent_s equation;
  cmd ← sprintf GP_CMD_SIZE
          (plot_str +:+ " " +:+ eq +:+ " title " +:+ DQ +:+ title_str
           +:+ DQ +:+ " with " +:+ pstyle c);
  w ← gnuplot_cmd cmd w;
  c ← this_ctrl w;
  n ← incr_int (nplots c);
  Done (with_ctrl w (Live (set_nplots c n))).

Section Program.

(** [%g] as the C library renders it, the macro [P_tmpdir] of <stdio.h>
    (or "."), and the macro [GP_MAX_TMP_FILES] of gnuplot.h. *)
Variable fmt_g : double → string.
Variable P_tmpdir : string.
Variable GP_MAX_TMP_FILES : Z.

(** gnuplot_plot_slope, lines 637-657.  [stitle[GP_TITLE_SIZE]] receives
    the title or the default one, before the handle is read; the two
    [sprintf] calls, into [cmd[GP_CMD_SIZE]], format [title]. *)
Definition gnuplot_plot_slope (a b : double) (title : option string)
    (w : world) : outcome world :=
  stitle ← strcpy GP_TITLE_SIZE
              (match title with None => "no title" | Some t => t end);
  c ← this_ctrl w;
  t ← percent_s title;
  cmd ← sprintf GP_CMD_SIZE
          ((if 0 <? nplots c then "replot " else "plot ")
           +:+ fmt_g a +:+ " * x + " +:+ fmt_g b +:+ " title " +:+ DQ
           +:+ t +:+ DQ +:+ " with " +:+ pstyle c);
  w ← gnuplot_cmd cmd w;
  c ← this_ctrl w;
  n ← incr_int (nplots c);
  Done (with_ctrl w (Live (set_nplots c n))).

(** [mkstemp(name)] on the template [P_tmpdir/gnuplot-i-XXXXXX]: the file
    is created empty, under a name that was free. *)
Definition mkstemp (st : staging) (f : gmap string string)
    : option (string * gmap string string) :=
  match mkstemp_pick st with
  | None => None
  | Some sfx =>
      let name := P_tmpdir +:+ "/gnuplot-i-" +:+ sfx in
      match f !! name with
      | None => Some (name, <[name := EmptyString]> f)
      | Some _ => None
      end
  end.

(** [write(tmpfd, line, strlen(line))]: the return value and the file
    after it. *)
Definition os_write (st : staging) (i : nat) (line name : string)
    (f : gmap string string) : Z * gmap string string :=
  let r := write_ret st i line in
  (r, alter (λ old, old +:+ substring 0 (Z.to_nat r) line) name f).

(** The data loop of gnuplot_plot_x, lines 439-442, with [k] iterations
    left: the return value of [write] is not looked at. *)
Fixpoint write_x (st : staging) (name : string) (d : list double)
    (k i : nat) (f : gmap string string) : outcome (gmap string string) :=
  match k with
  | O => Done f
  | S k' =>
      v ← rd d i;
      let line := fmt_g v +:+ LF in
      write_x st name d k' (S i) (os_write st i line name f).2
  end.

(** The data loop of gnuplot_plot_xy, lines 527-534: [Some line] when the
    write of [line] fell short and the function returns. *)
Fixpoint write_xy (st : staging) (name : string) (x y : list double)
    (k i : nat) (f : gmap string string)
    : outcome (option string * gmap string string) :=
  match k with
  | O => Done (None, f)
  | S k' =>
      xv ← rd x i;
      yv ← rd y i;
      let line := fmt_g xv +:+ " " +:+ fmt_g yv +:+ LF in
      let '(r, f) := os_write st i line name f in
      let bytes := r mod UINT_MOD in
      if bytes =? Z.of_nat (String.length line)
      then write_xy st name x y k' (S i) f
      else Done (Some line, f)
  end.

(** The command line both series builders format into
    [line[GP_CMD_SIZE]], lines 446-457 and 537-550. *)
Definition series_line (c : gnuplot_ctrl) (name : string)
    (title : option string) : string :=
  let cmd := plot_verb c in
  match title with
  | None => cmd +:+ " " +:+ DQ +:+ name +:+ DQ +:+ " with " +:+ pstyle c
  | Some t => cmd +:+ " " +:+ DQ +:+ name +:+ DQ +:+ " title " +:+ DQ +:+ t
              +:+ DQ +:+ " with " +:+ pstyle c
  end.

Definition too_many_files : string :=
  "maximum # of temporary files reached (" +:+ pretty GP_MAX_TMP_FILES
  +:+ "): cannot open more".

(** gnuplot_plot_x, lines 410-463. *)
Definition gnuplot_plot_x (st : staging) (d : option (list double)) (n : Z)
    (title : option string) (w : world) : outcome world :=
  match plot_ctrl w, d with
  | Null, _ | _, None => Done w
  | _, Some dv =>
      if n <? 1 then Done w
      else
        c ← this_ctrl w;
        if ntmp c =? GP_MAX_TMP_FILES - 1
        then Done (fprintf_stderr too_many_files w)
        else
          match mkstemp st (fs w) with
          | None =>
              Done (fprintf_stderr
                      "cannot create temporary file: exiting plot" w)
          | Some (name, f) =>
              let c := set_to_delete c (ntmp c) name in
              nt ← incr_int (ntmp c);
              let c := set_ntmp c nt in
              f ← write_x st name dv (Z.to_nat n) 0 f;
              let w := with_ctrl (with_fs w f) (Live c) in
              line ← sprintf GP_CMD_SIZE (series_line c name title);
              w ← gnuplot_cmd line w;
              c ← this_ctrl w;
              np ← incr_int (nplots c);
              Done (with_ctrl w (Live (set_nplots c np)))
          end
  end.

(** gnuplot_plot_xy, lines 497-556. *)
Definition gnuplot_plot_xy (st : staging) (x y : option (list double))
    (n : Z) (title : option string) (w : world) : outcome world :=
  match plot_ctrl w, x, y with
  | Null, _, _ | _, None, _ | _, _, None => Done w
  | _, Some xv, Some yv =>
      if n <? 1 then Done w
      else
        c ← this_ctrl w;
        if ntmp c =? GP_MAX_TMP_FILES - 1
        then Done (fprintf_stderr too_many_files w)
        else
          match mkstemp st (fs w) with
          | None =>
              Done (fprintf_stderr
                      (LF +:+ "cannot create temporary file: exiting plot"
                       +:+ LF) w)
          | Some (name, f) =>
              let c := set_to_delete c (ntmp c) name in
              nt ← incr_int (ntmp c);
              let c := set_ntmp c nt in
              '(short, f) ← write_xy st name xv yv (Z.to_nat n) 0 f;
              let w := with_ctrl (with_fs w f) (Live c) in
              match short with
              | Some line => Done (fprintf_stderr ("Write failed: " +:+ line) w)
              | None =>
                  line ← sprintf GP_CMD_SIZE (series_line c name title);
                  w ← gnuplot_cmd line w;
                  c ← this_ctrl w;
                  np ← incr_int (nplots c);
                  Done (with_ctrl w (Live (set_nplots c np)))
              end
          end
  end.

(** gnuplot_init, lines 161-186: the pointer it returns, and the world
    after it. *)
Definition gnuplot_init (env : environ) (w : world)
    : outcome (handle * world) :=
  let w := match env_DISPLAY env with
           | None => fprintf_stderr
                       ("cannot find DISPLAY variable: is it set?" +:+ LF) w
           | Some _ => w
           end in
  '(r, w) ← gnuplot_get_program_path env "gnuplot" w;
  match r with
  | NULL => Done (Null, fprintf_stderr "cannot find gnuplot in your PATH" w)
  | BUF =>
      if popen_ok env
      then Done (Live (Ctrl (Pipe true []) 0 (malloc_pstyle env)
                            (malloc_names env) 0), w)
      else Done (Null, fprintf_stderr ("error starting gnuplot" +:+ LF) w)
  end.

(** The constructor GnuPlot::GnuPlot, lines 131-140. *)
Definition GnuPlot (env : environ) (w : world) : outcome world :=
  '(h, w) ← gnuplot_init env w;
  gnuplot_setstyle (Some "points") (with_ctrl w h).

(** gnuplot_plot_histogram, lines 724-762. *)
Definition gnuplot_plot_histogram (st : staging)
    (ordinate rawdata : option (list double)) (nbins : Z) (overflow : Z)
    (title : option string) (w : world) : outcome world :=
  bins ← histogram_bins ordinate rawdata nbins overflow;
  match bins with
  | None => Done w
  | Some bin =>
      w ← gnuplot_setstyle (Some "boxes") w;
      gnuplot_plot_xy st ordinate (Some bin)
                      (int_of_uint (nbins mod UINT_MOD)) title w
  end.

(** gnuplot_plot_once, lines 579-610.  The call returns once the operator
    has typed a line; what is read from stdin is not kept. *)
Definition gnuplot_plot_once (env : environ) (st : staging) (pclose_ret : Z)
    (title style label_x label_y : option string)
    (x y : option (list double)) (n : Z) (w : world) : outcome world :=
  match x with
  | None => Done w
  | Some _ =>
      if n <? 1 then Done w
      else
        '(h, w) ← gnuplot_init env w;
        let w := with_ctrl w h in
        match h with
        | Null => Done w
        | _ =>
            w ← gnuplot_setstyle
                  (Some (match style with Some s => s | None => "lines" end))
                  w;
            w ← gnuplot_set_xlabel
                  (Some (match label_x with Some s => s | None => "X" end))
                  w;
            w ← gnuplot_set_ylabel
                  (Some (match label_y with Some s => s | None => "Y" end))
                  w;
            w ← match y with
                 | None => gnuplot_plot_x st x n title w
                 | Some _ => gnuplot_plot_xy st x y n title w
                 end;
            let w := printf_stdout ("press ENTER to continue" +:+ LF) w in
            gnuplot_close pclose_ret w
        end
  end.

(** ** Sessions as a transition system *)

(** A call of a public member function, with its arguments and the
    answers the environment gives during the call. *)
Inductive call :=
  | CallCmd (cmd : string)
  | CallSetStyle (plot_style : option string)
  | CallSetTitle (title : option string)
  | CallSetXLabel (label : option string)
  | CallSetYLabel (label : option string)
  | CallResetPlot
  | CallPlotX (st : staging) (d : option (list double)) (n : Z)
              (title : option string)
  | CallPlotXY (st : staging) (x y : option (list double)) (n : Z)
               (title : option string)
  | CallPlotOnce (env : environ) (st : staging) (pclose_ret : Z)
                 (title style label_x label_y : option string)
                 (x y : option (list double)) (n : Z)
  | CallPlotSlope (a b : double) (title : option string)
  | CallPlotEquation (equation title : option string)
  | CallPlotHistogram (st : staging) (ordinate rawdata : option (list double))
                      (nbins : Z) (overflow : Z) (title : option string)
  | CallClose (pclose_ret : Z).

Definition exec (k : call) (w : world) : outcome world :=
  match k with
  | CallCmd cmd => gnuplot_cmd cmd w
  | CallSetStyle s => gnuplot_setstyle s w
  | CallSetTitle t => gnuplot_set_title t w
  | CallSetXLabel l => gnuplot_set_xlabel l w
  | CallSetYLabel l => gnuplot_set_ylabel l w
  | CallResetPlot => gnuplot_resetplot w
  | CallPlotX st d n t => gnuplot_plot_x st d n t w
  | CallPlotXY st x y n t => gnuplot_plot_xy st x y n t w
  | CallPlotOnce env st r t s lx ly x y n =>
      gnuplot_plot_once env st r t s lx ly x y n w
  | CallPlotSlope a b t => gnuplot_plot_slope a b t w
  | CallPlotEquation e t => gnuplot_plot_equation e t w
  | CallPlotHistogram st o r nb ov t => gnuplot_plot_histogram st o r nb ov t w
  | CallClose r => gnuplot_close r w
  end.

(** The calls that issue a plot. *)
Definition is_plot_call (k : call) : bool :=
  match k with
  | CallPlotX _ _ _ _ | CallPlotXY _ _ _ _ _ | CallPlotSlope _ _ _
  | CallPlotEquation _ _ | CallPlotHistogram _ _ _ _ _ _ => true
  | _ => false
  end.

(** The states a session goes through: the state the constructor leaves,
    and every state a returning call leads to from there. *)
Inductive reachable : world → Prop :=
  | reach_new env w0 w :
      GnuPlot env w0 = Done w → reachable w
  | reach_call k w w' :
      reachable w → exec k w = Done w' → reachable w'.

(** The fixed style enumeration of gnuplot_setstyle. *)
Definition styles : list string :=
  ["lines"; "points"; "linespoints"; "impulses"; "dots"; "steps";
   "histogram"; "errorbars"; "boxes"; "boxerrorbars"].

(* ================================================================== *)
(** * Vocabulary of the statements *)

(** The control structure after a command went out. *)
Definition after_cmd (c : gnuplot_ctrl) (local_cmd : string) : gnuplot_ctrl :=
  set_gnucmd c (Pipe true (p_sent (gnucmd c) ++ [local_cmd +:+ LF])).

(** The control structure after a plot command went out and was counted. *)
Definition plotted (c : gnuplot_ctrl) (local_cmd : string) : gnuplot_ctrl :=
  set_nplots (after_cmd c local_cmd) (nplots c + 1).

(** The control structure after a file name was registered. *)
Definition staged (c : gnuplot_ctrl) (name : string) : gnuplot_ctrl :=
  set_ntmp (set_to_delete c (ntmp c) name) (ntmp c + 1).

(** The counters of a control structure are in range. *)
Definition ctrl_inv (c : gnuplot_ctrl) : Prop :=
  0 ≤ nplots c ≤ INT_MAX ∧ 0 ≤ ntmp c < GP_MAX_TMP_FILES.

Definition world_inv (w : world) : Prop :=
  ∀ c, plot_ctrl w = Live c → ctrl_inv c.

(** The text of a file that holds the given lines, each ended by a line
    feed. *)
Definition lines_of (l : list string) : string :=
  foldr (λ s acc, s +:+ LF +:+ acc) EmptyString l.

(** The inputs on which a series builder returns without plotting, as its
    guards read them: a count below one, a full registry ([nt] is the
    registry counter), or [mkstemp] failing on the files [f]. *)
Definition series_refused (st : staging) (n nt : Z)
    (f : gmap string string) : bool :=
  (n <? 1) || (nt =? GP_MAX_TMP_FILES - 1)
  || match mkstemp st f with Some _ => false | None => true end.

Definition x_refused (st : staging) (d : option (list double)) (n nt : Z)
    (f : gmap string string) : bool :=
  match d with Some _ => series_refused st n nt f | None => true end.

(** [gnuplot_plot_xy] also gives up when a write falls short. *)
Definition xy_refused (st : staging) (x y : option (list double)) (n nt : Z)
    (f : gmap string string) : bool :=
  match x, y with
  | Some xv, Some yv =>
      series_refused st n nt f
      || match mkstemp st f with
         | Some (name, f0) =>
             match write_xy st name xv yv (Z.to_nat n) 0 f0 with
             | Done (Some _, _) => true
             | _ => false
             end
         | None => false
         end
  | _, _ => true
  end.

(** The builder calls that return without having issued a plot: the
    slope and equation builders never do; the histogram builder does when
    the samples are null or when [gnuplot_plot_xy] does on its counters. *)
Definition plot_refused (k : call) (nt : Z) (f : gmap string string) : bool :=
  match k with
  | CallPlotX st d n _ => x_refused st d n nt f
  | CallPlotXY st x y n _ => xy_refused st x y n nt f
  | CallPlotHistogram st o r nb ov _ =>
      match histogram_bins o r nb ov with
      | Done (Some bin) =>
          xy_refused st o (Some bin) (int_of_uint (nb mod UINT_MOD)) nt f
      | _ => true
      end
  | _ => false
  end.

(** What a builder call that returns has done to the overlay counter and
    the pipe: nothing when it refused, and otherwise one command, starting
    with the verb of the old counter, counted once. *)
Definition counted (refused : bool) (c c' : gnuplot_ctrl) : Prop :=
  if refused
  then nplots c' = nplots c ∧ p_sent (gnucmd c') = p_sent (gnucmd c)
  else nplots c' = nplots c + 1 ∧
       ∃ rest, p_sent (gnucmd c') = p_sent (gnucmd c) ++ [plot_verb c +:+ rest].

(** A key that orders the doubles that are not NaN as [SFcompare] does:
    class (-inf, negative, zero, positive, +inf), then exponent, then
    mantissa, the last two negated for negative numbers. *)
Definition sf_key (x : double) : option (Z * Z * Z) :=
  match x with
  | S754_nan => None
  | S754_zero _ => Some (0, 0, 0)
  | S754_infinity s => Some (if s then -2 else 2, 0, 0)
  | S754_finite s m e =>
      Some (if s then (-1, - e, - Z.pos m) else (1, e, Z.pos m))
  end.

Definition lex_lt (a b : Z * Z * Z) : Prop :=
  a.1.1 < b.1.1 ∨
  (a.1.1 = b.1.1 ∧ (a.1.2 < b.1.2 ∨ (a.1.2 = b.1.2 ∧ a.2 < b.2))).

Definition lex3 (a b : Z * Z * Z) : comparison :=
  match a.1.1 ?= b.1.1 with
  | Eq => match a.1.2 ?= b.1.2 with Eq => a.2 ?= b.2 | r => r end
  | r => r
  end.

(** Bin edges in ascending order. *)
Fixpoint ascending (l : list double) : bool :=
  match l with
  | a :: (b :: _) as t => d_le a b && ascending t
  | _ => true
  end.

(** The sample [s] lies in the half-open interval of bin [j]. *)
Definition hit (ord : list double) (s : double) (j : nat) : bool :=
  match ord !! j, ord !! S j with
  | Some a, Some b => d_ge s a && d_lt s b
  | _, _ => false
  end.

(** [s] lies in [[edges[0], edges[nbins-1])], at or below [edges[0]], at
    or above [edges[nbins-1]] and above [edges[0]], strictly between the
    two. *)
Definition in_range (ord : list double) (s : double) : bool :=
  match ord !! 0%nat, ord !! (length ord - 1)%nat with
  | Some a, Some z => d_ge s a && d_lt s z
  | _, _ => false
  end.

Definition at_or_below (ord : list double) (s : double) : bool :=
  match ord !! 0%nat with Some a => d_le s a | None => false end.

Definition at_or_above (ord : list double) (s : double) : bool :=
  match ord !! 0%nat, ord !! (length ord - 1)%nat with
  | Some a, Some z => negb (d_le s a) && d_ge s z
  | _, _ => false
  end.

Definition strictly_inside (ord : list double) (s : double) : bool :=
  match ord !! 0%nat, ord !! (length ord - 1)%nat with
  | Some a, Some z => d_lt a s && d_lt s z
  | _, _ => false
  end.

(** Two outcomes that fault alike or are both done with related results. *)
Definition rel_outcome {A B} (R : A → B → Prop)
    (m1 : outcome A) (m2 : outcome B) : Prop :=
  match m1, m2 with
  | Done a, Done b => R a b
  | Fault f, Fault g => f = g
  | _, _ => False
  end.

(** Two buffers of one size with the same first [n] bytes. *)
Definition agree (n : nat) (b1 b2 : list ascii) : Prop :=
  length b1 = length b2 ∧ take n b1 = take n b2.

(** A NUL among the first [n] bytes. *)
Definition terminated (n : nat) (b : list ascii) : Prop :=
  ∃ i, (i < n)%nat ∧ b !! i = Some nul.

(** Two buffers of one size that hold the same C string. *)
Definition same_text (b1 b2 : list ascii) : Prop :=
  ∃ n, agree n b1 b2 ∧ terminated n b1.

(** The text a caller reads through the pointer a call returns. *)
Definition returned (env : environ) (pname : string) (w : world)
    : outcome (option string) :=
  '(r, w') ← gnuplot_get_program_path env pname w; pointee r w'.

(** ** Sample data for the closed examples *)

Definition edges0123 : list double := d_of_Z <$> [0; 1; 2; 3].
Definition samples5 : list double :=
  [d_dyadic 1 (-1); d_dyadic 3 (-1); d_dyadic 5 (-1); d_of_Z (-1); d_of_Z 5].

(** A rendering of doubles that stands in for [%g] where an example needs
    one: sign, mantissa and binary exponent. *)
Definition fmt_mant_exp (d : double) : string :=
  match d with
  | S754_zero s => if s then "-0" else "0"
  | S754_infinity s => if s then "-inf" else "inf"
  | S754_nan => "nan"
  | S754_finite s m e =>
      (if s then "-" else EmptyString) +:+ pretty (Z.pos m) +:+ "p"
      +:+ pretty e
  end.

(** An environment where gnuplot is found in the second PATH directory,
    and the process before any session exists. *)
Definition env_sample : environ :=
  Environ (Some "/bin:/usr/bin") (Some ":0")
          (λ s, bool_decide (s = "/usr/bin/gnuplot")) true
          EmptyString (λ _, EmptyString).

Definition w_boot : world :=
  World Null ∅ [] [] (replicate PATH_MAXNAMESZ nul).

(** The session the constructor leaves there. *)
Definition ctrl0 : gnuplot_ctrl :=
  Ctrl (Pipe true []) 0 "points" (λ _, EmptyString) 0.

Definition session0 : world :=
  World (Live ctrl0) ∅ [] []
        (chars "/usr/bin" ++ replicate (PATH_MAXNAMESZ - 8) nul).

(** A file system that accepts every write in full. *)
Definition staging_ok : staging :=
  Staging (Some "a1B2c3") (λ _ line, Z.of_nat (String.length line)).

(** An environment where only /bin/ls is executable. *)
Definition env_bin : environ :=
  Environ (Some "/usr/local/bin:/bin") None
          (λ s, bool_decide (s = "/bin/ls")) true
          EmptyString (λ _, EmptyString).

(** ** Vocabulary of the further properties *)

(** A text without the character '%'. *)
Fixpoint percent_free (s : string) : bool :=
  match s with
  | EmptyString => true
  | String c rest => negb (Ascii.eqb c "%") && percent_free rest
  end.

(** The destructor GnuPlot::~GnuPlot, lines 142-146. *)
Definition GnuPlot_destructor (pclose_ret : Z) (w : world) : outcome world :=
  gnuplot_close pclose_ret w.

(** The lines [gnuplot_plot_xy] writes for the points [(x[i], y[i])], each
    without its line feed. *)
Definition xy_lines (x y : list double) : list string :=
  zip_with (λ a b, fmt_g a +:+ " " +:+ fmt_g b) x y.

(** Every line, with its line feed, is shorter than [UINT_MAX + 1], so
    that its length survives the conversion to [uint]. *)
Definition short_lines (l : list string) : Prop :=
  Forall (λ s, Z.of_nat (String.length (s +:+ LF)) < UINT_MOD) l.

(** What holds of a live session between calls: the style is one of the
    enumeration, the registry counter is not negative, the registered
    names are pairwise distinct and each of them names a file. *)
Definition session_inv (w : world) : Prop :=
  ∀ c, plot_ctrl w = Live c →
       pstyle c ∈ styles ∧ 0 ≤ ntmp c ∧ NoDup (registry c) ∧
       ∀ name, name ∈ registry c → is_Some (fs w !! name).

(** The locator without its buffer.  The directory tried for a segment of
    PATH (an empty segment stands for the current directory), the first
    directory of a list of segments in which [access] finds the program,
    and the answer for a program name: the current directory first, then
    the segments of PATH in order. *)
Definition dir_of (seg : string) : string :=
  match seg with EmptyString => "." | _ => seg end.

Fixpoint first_hit (env : environ) (pname : string) (segs : list string)
    : option string :=
  match segs with
  | [] => None
  | seg :: rest =>
      if access_X env (dir_of seg +:+ "/" +:+ pname) then Some (dir_of seg)
      else first_hit env pname rest
  end.

Definition which (env : environ) (pname : string) : option string :=
  if access_X env ("./" +:+ pname) then Some "."
  else match env_PATH env with
       | None => None
       | Some path => first_hit env pname (path_segments EmptyString path)
       end.

(** The text of a PATH made of the segments [segs], each followed by a
    colon, and of a last segment that no colon follows. *)
Definition colon_joined (segs : list string) (last : string) : string :=
  foldr (λ s acc, s +:+ ":" +:+ acc) last segs.

(** ** Sample data for the further examples *)

(** A file system on which the second write stores nothing. *)
Definition staging_short : staging :=
  Staging (Some "a1B2c3")
          (λ i line, if Nat.eqb i 1 then 0 else Z.of_nat (String.length line)).

(** The structure [gnuplot_init] returns in the sample environment. *)
Definition ctrl_init : gnuplot_ctrl :=
  Ctrl (Pipe true []) 0 EmptyString (λ _, EmptyString) 0.

Definition points012 : list double := d_of_Z <$> [0; 1; 2].
Definition points014 : list double := d_of_Z <$> [0; 1; 4].
Definition tmp_name : string := "/tmp/gnuplot-i-a1B2c3".

(** The command [gnuplot_plot_equation] formats for a title text, and the
    one [gnuplot_plot_slope] formats. *)
Definition equation_line (c : gnuplot_ctrl) (eq title_str : string) : string :=
  plot_verb c +:+ " " +:+ eq +:+ " title " +:+ DQ +:+ title_str
  +:+ DQ +:+ " with " +:+ pstyle c.

Definition slope_line (c : gnuplot_ctrl) (a b : double) (t : string)
    : string :=
  plot_verb c +:+ " " +:+ fmt_g a +:+ " * x + " +:+ fmt_g b +:+ " title "
  +:+ DQ +:+ t +:+ DQ +:+ " with " +:+ pstyle c.

(** The segments the locator gets to try: those up to the first one under
    which the program is found. *)
Fixpoint tried (env : environ) (pname : string) (segs : list string)
    : list string :=
  match segs with
  | [] => []
  | seg :: rest =>
      seg :: (if access_X env (dir_of seg +:+ "/" +:+ pname) then []
              else tried env pname rest)
  end.

(* ================================================================== *)
(** * Verification *)

(** ** Outcomes *)

Lemma bind_Done {A B} (a : A) (k : A → outcome B) : Done a ≫= k = k a.
Proof. reflexivity. Qed.

Lemma bind_Done_inv {A B} (m : outcome A) (k : A → outcome B) (b : B) :
  m ≫= k = Done b → ∃ a, m = Done a ∧ k a = Done b.
Proof. destruct m as [a|f]; [eauto | discriminate]. Qed.

Lemma fmap_Done_inv {A B} (g : A → B) (m : outcome A) (b : B) :
  g <$> m = Done b → ∃ a, m = Done a ∧ b = g a.
Proof. destruct m as [a|f]; [|discriminate]. intros [= <-]. eauto. Qed.

(** Split a hypothesis [m ≫= k = Done b] into its two steps. *)
Ltac bind_inv H :=
  let a := fresh "a" in
  let Ha := fresh "Ha" in
  apply bind_Done_inv in H as (a & Ha & H).

Tactic Notation "bind_step" hyp(H) "as" simple_intropattern(a) ident(Ha) :=
  apply bind_Done_inv in H as (a & Ha & H).

(** ** The style enumeration *)

Lemma strcmp_true (a b : string) : strcmp a b = true ↔ a ≠ b.
Proof.
  unfold strcmp. rewrite negb_true_iff. apply String.eqb_neq.
Qed.

(** The chain of [strcmp] tests is the membership test of [styles]. *)
Lemma strcmp_chain (s : string) :
  (strcmp s "lines" && strcmp s "points" && strcmp s "linespoints" &&
   strcmp s "impulses" && strcmp s "dots" && strcmp s "steps" &&
   strcmp s "histogram" && strcmp s "errorbars" && strcmp s "boxes" &&
   strcmp s "boxerrorbars") = bool_decide (s ∉ styles).
Proof.
  unfold styles.
  match goal with |- ?chain = _ => destruct chain eqn:Hc end; symmetry.
  - apply bool_decide_eq_true_2.
    rewrite !andb_true_iff, !strcmp_true in Hc.
    rewrite !not_elem_of_cons. repeat split; try tauto.
    apply not_elem_of_nil.
  - apply bool_decide_eq_false_2. intros Hn.
    rewrite !not_elem_of_cons in Hn.
    rewrite <- not_true_iff_false in Hc. apply Hc.
    rewrite !andb_true_iff, !strcmp_true. tauto.
Qed.

Lemma setstyle_live (s : string) (w : world) (c : gnuplot_ctrl) :
  plot_ctrl w = Live c →
  gnuplot_setstyle (Some s) w =
    if bool_decide (s ∉ styles)
    then Done (with_ctrl
                 (fprintf_stderr
                    ("warning: unknown requested style: using points" +:+ LF)
                    w)
                 (Live (set_pstyle c "points")))
    else Done (with_ctrl w (Live (set_pstyle c s))).
Proof.
  intros Hc. unfold gnuplot_setstyle. simpl. rewrite strcmp_chain.
  case_bool_decide; unfold this_ctrl; simpl; rewrite Hc; reflexivity.
Qed.

(** C5.  On a live session, [gnuplot_setstyle] called with a string
    outside the enumeration lines, points, linespoints, impulses, dots,
    steps, histogram, errorbars, boxes, boxerrorbars leaves the style at
    exactly "points"; called with a member it leaves exactly that string.
    The call returns in every case, changes nothing else in the control
    structure, and the style it leaves is a member of the enumeration. *)
Theorem C5_setstyle_total (s : string) (w : world) (c : gnuplot_ctrl) :
  plot_ctrl w = Live c →
  ∃ w', gnuplot_setstyle (Some s) w = Done w' ∧
        plot_ctrl w' =
          Live (set_pstyle c (if bool_decide (s ∈ styles) then s
                              else "points")) ∧
        fs w' = fs w ∧
        (s ∉ styles → ∃ c', plot_ctrl w' = Live c' ∧ pstyle c' = "points") ∧
        (s ∈ styles → ∃ c', plot_ctrl w' = Live c' ∧ pstyle c' = s) ∧
        (∀ c', plot_ctrl w' = Live c' → pstyle c' ∈ styles).
Proof.
  intros Hc. rewrite (setstyle_live s w c Hc).
  destruct (decide (s ∈ styles)) as [Hin|Hout].
  - rewrite (bool_decide_eq_false_2 (s ∉ styles)) by tauto.
    rewrite (bool_decide_eq_true_2 _ Hin).
    eexists; split; [reflexivity|]. simpl. repeat split; eauto.
    + intros Hn. tauto.
    + intros c' [= <-]. exact Hin.
  - rewrite (bool_decide_eq_true_2 (s ∉ styles)) by tauto.
    rewrite (bool_decide_eq_false_2 _ Hout).
    eexists; split; [reflexivity|]. simpl. repeat split; eauto.
    + intros Hn. tauto.
    + intros c' [= <-]. simpl. unfold styles. rewrite !elem_of_cons. tauto.
Qed.

(** ** Sending a command *)

Lemma this_ctrl_live (w : world) (c : gnuplot_ctrl) :
  plot_ctrl w = Live c → this_ctrl w = Done c.
Proof. unfold this_ctrl. intros ->. reflexivity. Qed.

Lemma this_ctrl_Done (w : world) (c : gnuplot_ctrl) :
  this_ctrl w = Done c → plot_ctrl w = Live c.
Proof. unfold this_ctrl. destruct (plot_ctrl w); intros [=]. congruence. Qed.

Lemma length_append (a b : string) :
  String.length (a +:+ b) = (String.length a + String.length b)%nat.
Proof.
  induction a as [|c a IH]; [reflexivity|].
  change (S (String.length (a +:+ b))
          = S (String.length a + String.length b)). by rewrite IH.
Qed.

Lemma sprintf_fits (cap : nat) (text : string) :
  (String.length text < cap)%nat → sprintf cap text = Done text.
Proof.
  intros H. unfold sprintf. apply Nat.ltb_lt in H. rewrite H. reflexivity.
Qed.

Lemma sprintf_over (cap : nat) (text : string) :
  (cap ≤ String.length text)%nat → sprintf cap text = Fault OutOfBounds.
Proof.
  intros H. unfold sprintf. apply Nat.ltb_ge in H. rewrite H. reflexivity.
Qed.

Lemma sprintf_Done (cap : nat) (text t : string) :
  sprintf cap text = Done t → t = text ∧ (String.length text < cap)%nat.
Proof.
  unfold sprintf. destruct (String.length text <? cap)%nat eqn:H;
    [|discriminate].
  intros [= <-]. apply Nat.ltb_lt in H. auto.
Qed.

Lemma sprintf_cons (cap : nat) (c : ascii) (t : string) :
  sprintf (S cap) (String c t) = String c <$> sprintf cap t.
Proof.
  unfold sprintf. simpl String.length.
  change (S (String.length t) <? S cap)%nat
    with (String.length t <? cap)%nat.
  destruct (String.length t <? cap)%nat; reflexivity.
Qed.

(** In an array that is large enough [vsprintf] yields the text of the
    format; in one that is not, a format without faulty conversion
    overruns it. *)
Lemma vsprintf_Some (fmt : string) :
  ∀ room t, vsprintf0 fmt = Some t → vsprintf room fmt = sprintf room t.
Proof.
  assert (∀ n fmt, (String.length fmt ≤ n)%nat →
            ∀ room t, vsprintf0 fmt = Some t →
                      vsprintf room fmt = sprintf room t) as Hn.
  { clear fmt. induction n as [|n IH]; intros fmt Hlen room t Hfmt.
    - destruct fmt; [|simpl in Hlen; lia]. injection Hfmt as <-.
      destruct room; reflexivity.
    - destruct fmt as [|c rest].
      { injection Hfmt as <-. destruct room; reflexivity. }
      simpl in Hlen. cbn [vsprintf0 vsprintf] in Hfmt |- *.
      destruct (Ascii.eqb c "%").
      + destruct rest as [|c' rest']; [discriminate|].
        destruct (Ascii.eqb c' "%"); [|discriminate].
        destruct (vsprintf0 rest') as [t'|] eqn:Ht'; [|discriminate].
        injection Hfmt as <-. simpl in Hlen.
        destruct room as [|room]; [reflexivity|].
        rewrite (IH rest' ltac:(lia) room t' Ht'). by rewrite sprintf_cons.
      + destruct (vsprintf0 rest) as [t'|] eqn:Ht'; [|discriminate].
        injection Hfmt as <-.
        destruct room as [|room]; [reflexivity|].
        rewrite (IH rest ltac:(lia) room t' Ht'). by rewrite sprintf_cons. }
  exact (Hn (String.length fmt) fmt (le_n _)).
Qed.

Lemma vsprintf_Done (fmt : string) :
  ∀ room t, vsprintf room fmt = Done t →
            vsprintf0 fmt = Some t ∧ (String.length t < room)%nat.
Proof.
  assert (∀ n fmt, (String.length fmt ≤ n)%nat →
            ∀ room t, vsprintf room fmt = Done t →
                      vsprintf0 fmt = Some t ∧ (String.length t < room)%nat)
    as Hn.
  { clear fmt. induction n as [|n IH]; intros fmt Hlen room t Hfmt.
    - destruct fmt; [|simpl in Hlen; lia].
      destruct room; [discriminate|]. injection Hfmt as <-.
      split; [reflexivity | simpl; lia].
    - destruct fmt as [|c rest].
      { destruct room; [discriminate|]. injection Hfmt as <-.
        split; [reflexivity | simpl; lia]. }
      simpl in Hlen. cbn [vsprintf0 vsprintf] in Hfmt |- *.
      destruct (Ascii.eqb c "%").
      + destruct rest as [|c' rest']; [discriminate|].
        destruct (Ascii.eqb c' "%"); [|discriminate].
        destruct room as [|room]; [discriminate|].
        apply fmap_Done_inv in Hfmt as (t' & Ht' & ->). simpl in Hlen.
        destruct (IH rest' ltac:(lia) room t' Ht') as [-> Hl].
        split; [reflexivity | simpl; lia].
      + destruct room as [|room]; [discriminate|].
        apply fmap_Done_inv in Hfmt as (t' & Ht' & ->).
        destruct (IH rest ltac:(lia) room t' Ht') as [-> Hl].
        split; [reflexivity | simpl; lia]. }
  exact (Hn (String.length fmt) fmt (le_n _)).
Qed.

Lemma gnuplot_cmd_live (cmd local_cmd : string) (w : world)
    (c : gnuplot_ctrl) :
  plot_ctrl w = Live c → vsprintf0 cmd = Some local_cmd →
  (String.length local_cmd + 1 < GP_CMD_SIZE)%nat →
  gnuplot_cmd cmd w =
    if p_open (gnucmd c)
    then Done (with_ctrl w (Live (after_cmd c local_cmd)))
    else Fault ClosedStream.
Proof.
  intros Hc Hfmt Hlen. unfold gnuplot_cmd, strcat.
  rewrite (vsprintf_Some _ _ _ Hfmt), sprintf_fits by lia.
  rewrite bind_Done, sprintf_fits
    by (rewrite length_append; simpl; lia).
  rewrite bind_Done, (this_ctrl_live _ _ Hc). simpl. unfold fputs.
  destruct (p_open (gnucmd c)); reflexivity.
Qed.

(** A command that does not fit [local_cmd] with its line feed overruns
    the array, whatever the handle. *)
Lemma gnuplot_cmd_overflow (cmd local_cmd : string) (w : world) :
  vsprintf0 cmd = Some local_cmd →
  (GP_CMD_SIZE ≤ String.length local_cmd + 1)%nat →
  gnuplot_cmd cmd w = Fault OutOfBounds.
Proof.
  intros Hfmt Hlen. unfold gnuplot_cmd, strcat.
  rewrite (vsprintf_Some _ _ _ Hfmt).
  destruct (decide (String.length local_cmd < GP_CMD_SIZE)%nat) as [Hl|Hl].
  - rewrite sprintf_fits by exact Hl. rewrite bind_Done.
    rewrite sprintf_over by (rewrite length_append; simpl; lia).
    reflexivity.
  - rewrite sprintf_over by lia. reflexivity.
Qed.

Lemma gnuplot_cmd_Done (cmd : string) (w w' : world) :
  gnuplot_cmd cmd w = Done w' →
  ∃ c local_cmd, plot_ctrl w = Live c ∧ vsprintf0 cmd = Some local_cmd ∧
                 p_open (gnucmd c) = true ∧
                 w' = with_ctrl w (Live (after_cmd c local_cmd)).
Proof.
  unfold gnuplot_cmd, strcat. intros H. bind_step H as t Ht.
  apply vsprintf_Done in Ht as [Hfmt _].
  bind_step H as t1 Ht1. apply sprintf_Done in Ht1 as [-> _].
  bind_inv H. apply this_ctrl_Done in Ha.
  unfold fputs in H. destruct (p_open (gnucmd a)) eqn:Ho; [|discriminate].
  simpl in H. injection H as <-. eauto 10.
Qed.

(** The tail shared by the four builders: send the line, count the plot. *)
Local Abbreviation send_and_count line w :=
  (w1 ← gnuplot_cmd line w;
   c1 ← this_ctrl w1;
   n1 ← incr_int (nplots c1);
   Done (with_ctrl w1 (Live (set_nplots c1 n1)))).

Lemma send_and_count_live (line local_cmd : string) (w : world)
    (c : gnuplot_ctrl) :
  plot_ctrl w = Live c → vsprintf0 line = Some local_cmd →
  (String.length local_cmd + 1 < GP_CMD_SIZE)%nat →
  send_and_count line w =
    if p_open (gnucmd c)
    then if nplots c <? INT_MAX
         then Done (with_ctrl w (Live (plotted c local_cmd)))
         else Fault SignedOverflow
    else Fault ClosedStream.
Proof.
  intros Hc Hfmt Hlen. rewrite (gnuplot_cmd_live _ _ _ _ Hc Hfmt Hlen).
  destruct (p_open (gnucmd c)); [|reflexivity].
  simpl. unfold incr_int. simpl.
  destruct (nplots c <? INT_MAX); reflexivity.
Qed.

Lemma send_and_count_Done (line : string) (w w' : world) :
  send_and_count line w = Done w' →
  ∃ c local_cmd, plot_ctrl w = Live c ∧ vsprintf0 line = Some local_cmd ∧
                 p_open (gnucmd c) = true ∧ nplots c < INT_MAX ∧
                 w' = with_ctrl w (Live (plotted c local_cmd)).
Proof.
  intros H. bind_step H as w1 H1.
  apply gnuplot_cmd_Done in H1 as (c & t & Hc & Hfmt & Ho & ->).
  simpl in H. unfold incr_int in H. simpl in H.
  destruct (nplots c <? INT_MAX) eqn:Hn; [|discriminate].
  injection H as <-. apply Z.ltb_lt in Hn. eauto 10.
Qed.

(** A line that starts with the verb is sent starting with the verb. *)
Lemma vsprintf0_verb (c : gnuplot_ctrl) (rest local_cmd : string) :
  vsprintf0 (plot_verb c +:+ rest) = Some local_cmd →
  ∃ rest', local_cmd = plot_verb c +:+ rest'.
Proof.
  unfold plot_verb.
  destruct (0 <? nplots c); unfold String.app; cbn;
    destruct (vsprintf0 rest) as [r|]; cbn; intros [=]; subst; eauto.
Qed.

Lemma plot_verb_plot (c : gnuplot_ctrl) :
  0 ≤ nplots c → (nplots c = 0 ↔ plot_verb c = "plot").
Proof.
  intros Hn. unfold plot_verb. destruct (0 <? nplots c) eqn:H.
  - apply Z.ltb_lt in H. split; [lia | discriminate].
  - apply Z.ltb_ge in H. split; [reflexivity | lia].
Qed.

(** ** What a returning builder call has done *)

Lemma gnuplot_plot_x_Done st d n title (w w' : world) :
  gnuplot_plot_x st d n title w = Done w' →
  w' = w ∨
  (∃ msg, w' = fprintf_stderr msg w) ∨
  (∃ c dv name f0 f local_cmd,
      plot_ctrl w = Live c ∧ d = Some dv ∧ 1 ≤ n ∧
      ntmp c ≠ GP_MAX_TMP_FILES - 1 ∧ ntmp c < INT_MAX ∧
      mkstemp st (fs w) = Some (name, f0) ∧
      write_x st name dv (Z.to_nat n) 0 f0 = Done f ∧
      vsprintf0 (series_line c name title) = Some local_cmd ∧
      p_open (gnucmd c) = true ∧ nplots c < INT_MAX ∧
      w' = with_ctrl (with_fs w f) (Live (plotted (staged c name) local_cmd))).
Proof.
  unfold gnuplot_plot_x. intros H.
  destruct (plot_ctrl w) as [|c|] eqn:Hc; destruct d as [dv|];
    try (injection H as <-; left; reflexivity);
    destruct (n <? 1) eqn:Hn;
    try (injection H as <-; left; reflexivity);
    unfold this_ctrl in H; rewrite Hc in H; [|discriminate].
  simpl in H. apply Z.ltb_ge in Hn.
  destruct (ntmp c =? GP_MAX_TMP_FILES - 1) eqn:Hcap.
  { injection H as <-. right; left. eauto. }
  apply Z.eqb_neq in Hcap.
  destruct (mkstemp st (fs w)) as [[name f0]|] eqn:Hmk.
  2:{ injection H as <-. right; left. eauto. }
  unfold incr_int in H. destruct (ntmp c <? INT_MAX) eqn:Hnt; [|discriminate].
  apply Z.ltb_lt in Hnt. simpl in H.
  destruct (write_x st name dv (Z.to_nat n) 0 f0) as [f|] eqn:Hwr;
    [|discriminate].
  simpl in H. bind_step H as line Hline. apply sprintf_Done in Hline as [-> _].
  apply send_and_count_Done in H.
  destruct H as (c1 & t & Hc1 & Hfmt & Hopen & Hnp & ->).
  simpl in Hc1. injection Hc1 as <-.
  right; right. exists c, dv, name, f0, f, t. repeat split; auto; lia.
Qed.

Lemma gnuplot_plot_xy_Done st x y n title (w w' : world) :
  gnuplot_plot_xy st x y n title w = Done w' →
  w' = w ∨
  (∃ msg, w' = fprintf_stderr msg w) ∨
  (∃ c name f0 f msg,
      plot_ctrl w = Live c ∧ ntmp c ≠ GP_MAX_TMP_FILES - 1 ∧
      ntmp c < INT_MAX ∧ mkstemp st (fs w) = Some (name, f0) ∧
      w' = fprintf_stderr msg (with_ctrl (with_fs w f) (Live (staged c name))))
  ∨
  (∃ c xv yv name f0 f local_cmd,
      plot_ctrl w = Live c ∧ x = Some xv ∧ y = Some yv ∧ 1 ≤ n ∧
      ntmp c ≠ GP_MAX_TMP_FILES - 1 ∧ ntmp c < INT_MAX ∧
      mkstemp st (fs w) = Some (name, f0) ∧
      write_xy st name xv yv (Z.to_nat n) 0 f0 = Done (None, f) ∧
      vsprintf0 (series_line c name title) = Some local_cmd ∧
      p_open (gnucmd c) = true ∧ nplots c < INT_MAX ∧
      w' = with_ctrl (with_fs w f) (Live (plotted (staged c name) local_cmd))).
Proof.
  unfold gnuplot_plot_xy. intros H.
  destruct (plot_ctrl w) as [|c|] eqn:Hc; destruct x as [xv|];
    destruct y as [yv|];
    try (injection H as <-; left; reflexivity);
    destruct (n <? 1) eqn:Hn;
    try (injection H as <-; left; reflexivity);
    unfold this_ctrl in H; rewrite Hc in H; [|discriminate].
  simpl in H. apply Z.ltb_ge in Hn.
  destruct (ntmp c =? GP_MAX_TMP_FILES - 1) eqn:Hcap.
  { injection H as <-. right; left. eauto. }
  apply Z.eqb_neq in Hcap.
  destruct (mkstemp st (fs w)) as [[name f0]|] eqn:Hmk.
  2:{ injection H as <-. right; left. eauto. }
  unfold incr_int in H. destruct (ntmp c <? INT_MAX) eqn:Hnt; [|discriminate].
  apply Z.ltb_lt in Hnt. simpl in H.
  destruct (write_xy st name xv yv (Z.to_nat n) 0 f0) as [[short f]|] eqn:Hwr;
    [|discriminate].
  simpl in H. destruct short as [line|].
  { injection H as <-. right; right; left.
    exists c, name, f0, f. eexists. repeat split; eauto. }
  bind_step H as line Hline. apply sprintf_Done in Hline as [-> _].
  apply send_and_count_Done in H.
  destruct H as (c1 & t & Hc1 & Hfmt & Hopen & Hnp & ->).
  simpl in Hc1. injection Hc1 as <-.
  right; right; right. exists c, xv, yv, name, f0, f, t.
  repeat split; auto; lia.
Qed.

Lemma gnuplot_setstyle_Done s (w w' : world) :
  gnuplot_setstyle s w = Done w' →
  ∃ c v, plot_ctrl w = Live c ∧ plot_ctrl w' = Live (set_pstyle c v) ∧
         fs w' = fs w.
Proof.
  destruct s as [s|]; [|discriminate].
  destruct (plot_ctrl w) as [|c|] eqn:Hc.
  - unfold gnuplot_setstyle, this_ctrl. simpl. rewrite Hc.
    case_match; discriminate.
  - rewrite (setstyle_live s w c Hc).
    case_bool_decide; intros [= <-]; eauto.
  - unfold gnuplot_setstyle, this_ctrl. simpl. rewrite Hc.
    case_match; discriminate.
Qed.

Lemma gnuplot_plot_slope_Done a b title (w w' : world) :
  gnuplot_plot_slope a b title w = Done w' →
  ∃ c t rest local_cmd,
    plot_ctrl w = Live c ∧ title = Some t ∧
    vsprintf0 (plot_verb c +:+ rest) = Some local_cmd ∧
    p_open (gnucmd c) = true ∧ nplots c < INT_MAX ∧
    w' = with_ctrl w (Live (plotted c local_cmd)).
Proof.
  unfold gnuplot_plot_slope. intros H. bind_step H as stitle Hst. bind_inv H.
  apply this_ctrl_Done in Ha. destruct title as [t|]; [|discriminate].
  simpl in H. bind_step H as line Hline. apply sprintf_Done in Hline as [-> _].
  apply send_and_count_Done in H.
  destruct H as (c & lc & Hc & Hfmt & Ho & Hn & ->).
  assert (c = a0) as -> by congruence.
  exists a0, t. unfold plot_verb.
  destruct (0 <? nplots a0); eexists; exists lc;
    (split; [assumption|]); (split; [reflexivity|]);
    (split; [|auto]); rewrite <- Hfmt; f_equal.
Qed.

Lemma gnuplot_plot_equation_Done equation title (w w' : world) :
  gnuplot_plot_equation equation title w = Done w' →
  ∃ c rest local_cmd,
    plot_ctrl w = Live c ∧
    vsprintf0 (plot_verb c +:+ rest) = Some local_cmd ∧
    p_open (gnucmd c) = true ∧ nplots c < INT_MAX ∧
    w' = with_ctrl w (Live (plotted c local_cmd)).
Proof.
  unfold gnuplot_plot_equation. intros H. bind_step H as title_str Hst.
  bind_inv H.
  apply this_ctrl_Done in Ha. destruct equation as [e|]; [|discriminate].
  simpl in H. bind_step H as line Hline. apply sprintf_Done in Hline as [-> _].
  apply send_and_count_Done in H.
  destruct H as (c & lc & Hc & Hfmt & Ho & Hn & ->).
  assert (c = a) as -> by congruence. eauto 10.
Qed.

Lemma gnuplot_resetplot_live (w : world) (c : gnuplot_ctrl) :
  plot_ctrl w = Live c →
  gnuplot_resetplot w =
    Done (with_ctrl (with_fs w (remove_all (registry c) (fs w)))
                    (Live (set_nplots (set_ntmp c 0) 0))).
Proof.
  intros Hc. unfold gnuplot_resetplot. rewrite (this_ctrl_live _ _ Hc).
  reflexivity.
Qed.

Lemma gnuplot_close_live (r : Z) (w : world) (c : gnuplot_ctrl) :
  plot_ctrl w = Live c → p_open (gnucmd c) = true →
  gnuplot_close r w =
    let c' := set_gnucmd c (Pipe false (p_sent (gnucmd c))) in
    if r =? -1
    then Done (fprintf_stderr
                 ("problem closing communication to gnuplot" +:+ LF)
                 (with_ctrl w (Live c')))
    else Done (with_ctrl (with_fs w (remove_all (registry c) (fs w))) Freed).
Proof.
  intros Hc Ho. unfold gnuplot_close. rewrite (this_ctrl_live _ _ Hc).
  simpl. rewrite Ho. destruct (r =? -1); reflexivity.
Qed.

(** ** The invariant of the session states *)

Section Invariant.

Hypothesis max_tmp_files_pos : 1 ≤ GP_MAX_TMP_FILES.

Lemma world_inv_same (w w' : world) :
  plot_ctrl w' = plot_ctrl w → world_inv w → world_inv w'.
Proof. unfold world_inv. intros ->. auto. Qed.

Lemma world_inv_live (w w' : world) (c c' : gnuplot_ctrl) :
  plot_ctrl w = Live c → plot_ctrl w' = Live c' →
  (ctrl_inv c → ctrl_inv c') → world_inv w → world_inv w'.
Proof.
  unfold world_inv. intros Hc Hc' Himp Hw c0 H0.
  rewrite Hc' in H0. injection H0 as <-. auto.
Qed.

Lemma inv_cmd cmd (w w' : world) :
  gnuplot_cmd cmd w = Done w' → world_inv w → world_inv w'.
Proof.
  intros H. apply gnuplot_cmd_Done in H as (c & t & Hc & _ & _ & ->).
  eapply world_inv_live; [exact Hc | reflexivity | auto].
Qed.

Lemma inv_setstyle s (w w' : world) :
  gnuplot_setstyle s w = Done w' → world_inv w → world_inv w'.
Proof.
  intros H. apply gnuplot_setstyle_Done in H as (c & v & Hc & Hc' & _).
  eapply world_inv_live; [exact Hc | exact Hc' | auto].
Qed.

Lemma inv_label (p : string → string) l (w w' : world) :
  (t ← percent_s l; cmd ← sprintf GP_CMD_SIZE (p t); gnuplot_cmd cmd w)
    = Done w' →
  world_inv w → world_inv w'.
Proof.
  destruct l as [t|]; [|discriminate]. simpl. intros H.
  bind_step H as cmd Hcmd. exact (inv_cmd _ _ _ H).
Qed.

Lemma inv_set_title t (w w' : world) :
  gnuplot_set_title t w = Done w' → world_inv w → world_inv w'.
Proof. apply (inv_label (λ t, "set title '" +:+ t +:+ "'")). Qed.

Lemma inv_set_xlabel l (w w' : world) :
  gnuplot_set_xlabel l w = Done w' → world_inv w → world_inv w'.
Proof. apply (inv_label (λ l, "set xlabel " +:+ DQ +:+ l +:+ DQ)). Qed.

Lemma inv_set_ylabel l (w w' : world) :
  gnuplot_set_ylabel l w = Done w' → world_inv w → world_inv w'.
Proof. apply (inv_label (λ l, "set ylabel " +:+ DQ +:+ l +:+ DQ)). Qed.

Lemma ctrl_inv_plotted (c : gnuplot_ctrl) (t : string) :
  nplots c < INT_MAX → ctrl_inv c → ctrl_inv (plotted c t).
Proof. unfold ctrl_inv. simpl. lia. Qed.

Lemma ctrl_inv_staged (c : gnuplot_ctrl) (name : string) :
  ntmp c ≠ GP_MAX_TMP_FILES - 1 → ctrl_inv c → ctrl_inv (staged c name).
Proof. unfold ctrl_inv. simpl. lia. Qed.

Lemma inv_plot_x st d n title (w w' : world) :
  gnuplot_plot_x st d n title w = Done w' → world_inv w → world_inv w'.
Proof.
  intros H. apply gnuplot_plot_x_Done in H
    as [-> | [[msg ->] | (c & dv & name & f0 & f & t & Hc & _ & _ & Hcap & _
                          & _ & _ & _ & _ & Hnp & ->)]]; auto.
  eapply world_inv_live; [exact Hc | reflexivity |].
  intros Hi. apply ctrl_inv_plotted; [exact Hnp|].
  apply ctrl_inv_staged; assumption.
Qed.

Lemma inv_plot_xy st x y n title (w w' : world) :
  gnuplot_plot_xy st x y n title w = Done w' → world_inv w → world_inv w'.
Proof.
  intros H. apply gnuplot_plot_xy_Done in H
    as [-> | [[msg ->] | [(c & name & f0 & f & msg & Hc & Hcap & _ & _ & ->)
       | (c & xv & yv & name & f0 & f & t & Hc & _ & _ & _ & Hcap & _
          & _ & _ & _ & _ & Hnp & ->)]]]; auto.
  - eapply world_inv_live; [exact Hc | reflexivity |].
    apply ctrl_inv_staged; assumption.
  - eapply world_inv_live; [exact Hc | reflexivity |].
    intros Hi. apply ctrl_inv_plotted; [exact Hnp|].
    apply ctrl_inv_staged; assumption.
Qed.

Lemma inv_plot_slope a b title (w w' : world) :
  gnuplot_plot_slope a b title w = Done w' → world_inv w → world_inv w'.
Proof.
  intros H. apply gnuplot_plot_slope_Done in H
    as (c & t & rest & lc & Hc & _ & _ & _ & Hnp & ->).
  eapply world_inv_live; [exact Hc | reflexivity |].
  apply ctrl_inv_plotted; exact Hnp.
Qed.

Lemma inv_plot_equation e title (w w' : world) :
  gnuplot_plot_equation e title w = Done w' → world_inv w → world_inv w'.
Proof.
  intros H. apply gnuplot_plot_equation_Done in H
    as (c & rest & lc & Hc & _ & _ & Hnp & ->).
  eapply world_inv_live; [exact Hc | reflexivity |].
  apply ctrl_inv_plotted; exact Hnp.
Qed.

Lemma inv_resetplot (w w' : world) :
  gnuplot_resetplot w = Done w' → world_inv w → world_inv w'.
Proof.
  intros H. unfold gnuplot_resetplot in H. bind_inv H.
  apply this_ctrl_Done in Ha. injection H as <-.
  eapply world_inv_live; [exact Ha | reflexivity |].
  intros _. unfold ctrl_inv, INT_MAX. simpl. lia.
Qed.

Lemma inv_close r (w w' : world) :
  gnuplot_close r w = Done w' → world_inv w → world_inv w'.
Proof.
  intros H. unfold gnuplot_close in H. bind_inv H.
  apply this_ctrl_Done in Ha.
  destruct (p_open (gnucmd a)); [|discriminate].
  destruct (r =? -1); injection H as <-.
  - eapply world_inv_live; [exact Ha | reflexivity | auto].
  - intros _ c Hc. discriminate.
Qed.

Lemma inv_plot_histogram st o r nb ov title (w w' : world) :
  gnuplot_plot_histogram st o r nb ov title w = Done w' →
  world_inv w → world_inv w'.
Proof.
  unfold gnuplot_plot_histogram. intros H. bind_inv H.
  destruct a as [bin|]; [|injection H as <-; auto].
  bind_inv H. intros Hw. eapply inv_plot_xy; [exact H|].
  eapply inv_setstyle; eauto.
Qed.

Lemma inv_init env (w w' : world) (h : handle) :
  gnuplot_init env w = Done (h, w') → world_inv (with_ctrl w' h).
Proof.
  unfold gnuplot_init. intros H. bind_inv H. destruct a as [r w1].
  destruct r; [injection H as <- <-; intros c; discriminate|].
  destruct (popen_ok env); injection H as <- <-;
    intros c; [|discriminate].
  simpl. intros [= <-]. unfold ctrl_inv, INT_MAX. simpl. lia.
Qed.

Lemma inv_new env (w w' : world) : GnuPlot env w = Done w' → world_inv w'.
Proof.
  unfold GnuPlot. intros H. bind_inv H. destruct a as [h w1].
  eapply inv_setstyle; [exact H|]. eapply inv_init; exact Ha.
Qed.

Lemma inv_plot_once env st r t s lx ly x y n (w w' : world) :
  gnuplot_plot_once env st r t s lx ly x y n w = Done w' →
  world_inv w → world_inv w'.
Proof.
  unfold gnuplot_plot_once. intros H Hw.
  destruct x as [xv|]; [|injection H as <-; exact Hw].
  destruct (n <? 1); [injection H as <-; exact Hw|].
  bind_inv H. destruct a as [h w1]. apply inv_init in Ha.
  destruct h as [|c|]; [injection H as <-; exact Ha | |];
    do 4 bind_inv H; (eapply inv_close; [exact H|]);
    (apply (world_inv_same a2); [reflexivity|]);
    (assert (world_inv a1) as Hw1
       by (eapply inv_set_ylabel; [exact Ha2|];
           eapply inv_set_xlabel; [exact Ha1|];
           eapply inv_setstyle; [exact Ha0|]; exact Ha));
    destruct y; eauto using inv_plot_xy, inv_plot_x.
Qed.

Lemma inv_exec k (w w' : world) :
  exec k w = Done w' → world_inv w → world_inv w'.
Proof.
  destruct k; simpl.
  - apply inv_cmd.
  - apply inv_setstyle.
  - apply inv_set_title.
  - apply inv_set_xlabel.
  - apply inv_set_ylabel.
  - apply inv_resetplot.
  - apply inv_plot_x.
  - apply inv_plot_xy.
  - apply inv_plot_once.
  - apply inv_plot_slope.
  - apply inv_plot_equation.
  - apply inv_plot_histogram.
  - apply inv_close.
Qed.

Lemma reachable_inv (w : world) : reachable w → world_inv w.
Proof.
  induction 1 as [env w0 w H | k w w' _ IH H].
  - eapply inv_new; exact H.
  - eapply inv_exec; eauto.
Qed.

End Invariant.

(** ** Strings *)

Lemma append_assoc (s1 s2 s3 : string) :
  (s1 +:+ s2) +:+ s3 = s1 +:+ (s2 +:+ s3).
Proof.
  induction s1 as [|a s1 IH]; [reflexivity|].
  change (String a ((s1 +:+ s2) +:+ s3) = String a (s1 +:+ s2 +:+ s3)).
  by rewrite IH.
Qed.

Lemma append_empty_r (s : string) : s +:+ EmptyString = s.
Proof.
  induction s as [|a s IH]; [reflexivity|].
  change (String a (s +:+ EmptyString) = String a s). by rewrite IH.
Qed.

Lemma substring_all (s : string) : substring 0 (String.length s) s = s.
Proof.
  induction s as [|a s IH]; [reflexivity|].
  change (String a (substring 0 (String.length s) s) = String a s).
  by rewrite IH.
Qed.

(** ** Closing a session *)

(** C2.  What [gnuplot_close] does when [pclose] reports failure (returns
    -1) on a live session with an open pipe: it prints its message and
    returns.  No staged file is removed, the registry keeps its entries and
    the control structure is not freed.  (When [pclose] succeeds, the
    staged files are removed and the structure is freed.) *)
Theorem C2_close_after_failed_pclose (w : world) (c : gnuplot_ctrl) :
  plot_ctrl w = Live c → p_open (gnucmd c) = true →
  (∃ w' c', gnuplot_close (-1) w = Done w' ∧
            fs w' = fs w ∧
            plot_ctrl w' = Live c' ∧ plot_ctrl w' ≠ Freed ∧
            registry c' = registry c ∧ ntmp c' = ntmp c) ∧
  (∀ r, r ≠ -1 →
        ∃ w', gnuplot_close r w = Done w' ∧ plot_ctrl w' = Freed ∧
              fs w' = remove_all (registry c) (fs w)).
Proof.
  intros Hc Ho. split.
  - rewrite (gnuplot_close_live _ _ _ Hc Ho). simpl.
    eexists _, _. split; [reflexivity|]. simpl. repeat split. discriminate.
  - intros r Hr. rewrite (gnuplot_close_live _ _ _ Hc Ho). simpl.
    apply Z.eqb_neq in Hr. rewrite Hr. eexists. split; [reflexivity|].
    split; reflexivity.
Qed.

(** ** The slope builder *)

Lemma strcpy_no_title : strcpy GP_TITLE_SIZE "no title" = Done "no title".
Proof. reflexivity. Qed.

(** C6.  On a live session, [gnuplot_plot_slope] called with a null title
    hands that null pointer to the [%s] conversion of its [sprintf]: the
    default "no title" copied into [stitle] is not what is formatted, and
    no command text holding it is produced.  The equation builder, called
    with a null title on the same session, does send a command that
    carries "no title" (when that command fits its buffers). *)
Theorem C6_slope_null_title (a b : double) (w : world) (c : gnuplot_ctrl) :
  plot_ctrl w = Live c →
  gnuplot_plot_slope a b None w = Fault NullString ∧
  (∀ eq local_cmd,
      p_open (gnucmd c) = true → nplots c < INT_MAX →
      vsprintf0 (plot_verb c +:+ " " +:+ eq +:+ " title " +:+ DQ +:+
                 "no title" +:+ DQ +:+ " with " +:+ pstyle c)
        = Some local_cmd →
      (String.length (plot_verb c +:+ " " +:+ eq +:+ " title " +:+ DQ +:+
                      "no title" +:+ DQ +:+ " with " +:+ pstyle c)
       < GP_CMD_SIZE)%nat →
      (String.length local_cmd + 1 < GP_CMD_SIZE)%nat →
      gnuplot_plot_equation (Some eq) None w =
        Done (with_ctrl w (Live (plotted c local_cmd)))).
Proof.
  intros Hc. split.
  - unfold gnuplot_plot_slope.
    rewrite strcpy_no_title, bind_Done, (this_ctrl_live _ _ Hc). reflexivity.
  - intros eq lc Ho Hn Hfmt Hfit Hlen. unfold gnuplot_plot_equation.
    rewrite strcpy_no_title, bind_Done, (this_ctrl_live _ _ Hc), bind_Done.
    cbn [percent_s]. rewrite bind_Done, (sprintf_fits _ _ Hfit), bind_Done.
    rewrite (send_and_count_live _ _ _ _ Hc Hfmt Hlen), Ho.
    apply Z.ltb_lt in Hn. rewrite Hn. reflexivity.
Qed.

(** ** The registry bound *)

Lemma length_registry (c : gnuplot_ctrl) :
  length (registry c) = Z.to_nat (ntmp c).
Proof. unfold registry. by rewrite length_fmap, length_seqZ. Qed.

(** C3.  In every reachable state of a session the registry holds fewer
    than [GP_MAX_TMP_FILES] entries.  A call of [gnuplot_plot_x] or
    [gnuplot_plot_xy] on a session whose registry holds
    [GP_MAX_TMP_FILES - 1] entries returns without creating a file: the
    control structure (registry, counters, style, pipe) and the files are
    as before, and the only trace of a refused call is its message on
    stderr. *)
Theorem C3_registry_below_capacity :
  1 ≤ GP_MAX_TMP_FILES →
  (∀ w c, reachable w → plot_ctrl w = Live c →
          0 ≤ ntmp c < GP_MAX_TMP_FILES ∧
          Z.of_nat (length (registry c)) < GP_MAX_TMP_FILES) ∧
  (∀ st d n title w c,
      plot_ctrl w = Live c → ntmp c = GP_MAX_TMP_FILES - 1 →
      ∃ w', gnuplot_plot_x st d n title w = Done w' ∧
            plot_ctrl w' = plot_ctrl w ∧ fs w' = fs w ∧
            (w' = w ∨ w' = fprintf_stderr too_many_files w)) ∧
  (∀ st x y n title w c,
      plot_ctrl w = Live c → ntmp c = GP_MAX_TMP_FILES - 1 →
      ∃ w', gnuplot_plot_xy st x y n title w = Done w' ∧
            plot_ctrl w' = plot_ctrl w ∧ fs w' = fs w ∧
            (w' = w ∨ w' = fprintf_stderr too_many_files w)).
Proof.
  intros Hmax. split; [|split].
  - intros w c Hr Hc. destruct (reachable_inv Hmax w Hr c Hc) as [_ Hn].
    split; [exact Hn|]. rewrite length_registry. lia.
  - intros st d n title w c Hc Hn. unfold gnuplot_plot_x. rewrite Hc.
    destruct d as [dv|]; [|eauto 10].
    destruct (n <? 1); [eauto 10|].
    unfold this_ctrl. rewrite Hc. simpl.
    rewrite (proj2 (Z.eqb_eq _ _) Hn). eauto 10.
  - intros st x y n title w c Hc Hn. unfold gnuplot_plot_xy. rewrite Hc.
    destruct x as [xv|]; [|eauto 10]. destruct y as [yv|]; [|eauto 10].
    destruct (n <? 1); [eauto 10|].
    unfold this_ctrl. rewrite Hc. simpl.
    rewrite (proj2 (Z.eqb_eq _ _) Hn). eauto 10.
Qed.

(** ** The overlay counter *)

Lemma counted_plotted (c c0 : gnuplot_ctrl) (rest local_cmd : string) :
  nplots c0 = nplots c → p_sent (gnucmd c0) = p_sent (gnucmd c) →
  vsprintf0 (plot_verb c0 +:+ rest) = Some local_cmd →
  counted false c (plotted c0 local_cmd).
Proof.
  intros Hn Hs Hfmt. unfold counted. simpl. split; [lia|].
  apply vsprintf0_verb in Hfmt as [rest' ->].
  exists (rest' +:+ LF). rewrite Hs, append_assoc.
  unfold plot_verb. rewrite Hn. reflexivity.
Qed.

Lemma counted_refused (c c0 : gnuplot_ctrl) :
  nplots c0 = nplots c → p_sent (gnucmd c0) = p_sent (gnucmd c) →
  counted true c c0.
Proof. unfold counted. auto. Qed.

Lemma series_line_verb (c : gnuplot_ctrl) (name : string)
    (title : option string) :
  ∃ rest, series_line c name title = plot_verb c +:+ rest.
Proof. unfold series_line. destruct title; eauto. Qed.

Lemma plot_x_counted st d n title (w w' : world) (c : gnuplot_ctrl) :
  plot_ctrl w = Live c → gnuplot_plot_x st d n title w = Done w' →
  ∃ c', plot_ctrl w' = Live c' ∧
        counted (x_refused st d n (ntmp c) (fs w)) c c'.
Proof.
  unfold gnuplot_plot_x, x_refused, series_refused. intros Hc H.
  rewrite Hc in H.
  destruct d as [dv|];
    [|injection H as <-; exists c; split; [exact Hc|];
      by apply counted_refused].
  destruct (n <? 1);
    [injection H as <-; exists c; split; [exact Hc|];
     by apply counted_refused|].
  unfold this_ctrl in H. rewrite Hc in H. simpl in H.
  destruct (ntmp c =? GP_MAX_TMP_FILES - 1).
  { injection H as <-. exists c. split; [exact Hc|]. by apply counted_refused. }
  destruct (mkstemp st (fs w)) as [[name f0]|] eqn:Hmk.
  2:{ injection H as <-. exists c. split; [exact Hc|].
      by apply counted_refused. }
  unfold incr_int in H. destruct (ntmp c <? INT_MAX); [|discriminate].
  simpl in H.
  destruct (write_x st name dv (Z.to_nat n) 0 f0) as [f|]; [|discriminate].
  simpl in H. bind_step H as line Hline.
  apply sprintf_Done in Hline as [-> _].
  apply send_and_count_Done in H as (c1 & t & Hc1 & Hfmt & _ & _ & ->).
  simpl in Hc1. injection Hc1 as <-.
  eexists. split; [reflexivity|].
  change (series_line _ name title) with (series_line c name title) in Hfmt.
  destruct (series_line_verb c name title) as [rest Hrest].
  rewrite Hrest in Hfmt.
  exact (counted_plotted c (staged c name) rest t eq_refl eq_refl Hfmt).
Qed.

Lemma plot_xy_counted st x y n title (w w' : world) (c c0 : gnuplot_ctrl) :
  plot_ctrl w = Live c0 →
  nplots c0 = nplots c → p_sent (gnucmd c0) = p_sent (gnucmd c) →
  gnuplot_plot_xy st x y n title w = Done w' →
  ∃ c', plot_ctrl w' = Live c' ∧
        counted (xy_refused st x y n (ntmp c0) (fs w)) c c'.
Proof.
  unfold gnuplot_plot_xy, xy_refused, series_refused. intros Hc Hn Hs H.
  rewrite Hc in H.
  destruct x as [xv|];
    [|injection H as <-; exists c0; split; [exact Hc|];
      by apply counted_refused].
  destruct y as [yv|];
    [|injection H as <-; exists c0; split; [exact Hc|];
      by apply counted_refused].
  destruct (n <? 1);
    [injection H as <-; exists c0; split; [exact Hc|];
     by apply counted_refused|].
  unfold this_ctrl in H. rewrite Hc in H. simpl in H.
  destruct (ntmp c0 =? GP_MAX_TMP_FILES - 1).
  { injection H as <-. exists c0. split; [exact Hc|].
    by apply counted_refused. }
  destruct (mkstemp st (fs w)) as [[name f0]|] eqn:Hmk.
  2:{ injection H as <-. exists c0. split; [exact Hc|].
      by apply counted_refused. }
  unfold incr_int in H. destruct (ntmp c0 <? INT_MAX); [|discriminate].
  simpl in H.
  destruct (write_xy st name xv yv (Z.to_nat n) 0 f0) as [[short f]|];
    [|discriminate].
  simpl in H. destruct short as [line|].
  { injection H as <-. eexists. split; [reflexivity|].
    by apply counted_refused. }
  bind_step H as line Hline. apply sprintf_Done in Hline as [-> _].
  apply send_and_count_Done in H as (c1 & t & Hc1 & Hfmt & _ & _ & ->).
  simpl in Hc1. injection Hc1 as <-.
  eexists. split; [reflexivity|].
  change (series_line _ name title) with (series_line c0 name title) in Hfmt.
  destruct (series_line_verb c0 name title) as [rest Hrest].
  rewrite Hrest in Hfmt.
  exact (counted_plotted c (staged c0 name) rest t Hn Hs Hfmt).
Qed.

Lemma plot_call_counted k (w w' : world) (c : gnuplot_ctrl) :
  is_plot_call k = true → plot_ctrl w = Live c → exec k w = Done w' →
  ∃ c', plot_ctrl w' = Live c' ∧
        counted (plot_refused k (ntmp c) (fs w)) c c'.
Proof.
  intros Hk Hc H. destruct k; try discriminate Hk; simpl in H.
  - exact (plot_x_counted _ _ _ _ _ _ _ Hc H).
  - exact (plot_xy_counted _ _ _ _ _ _ _ c c Hc eq_refl eq_refl H).
  - apply gnuplot_plot_slope_Done in H
      as (c1 & t & rest & lc & Hc1 & _ & Hfmt & _ & _ & ->).
    assert (c1 = c) as -> by congruence.
    eexists. split; [reflexivity|].
    exact (counted_plotted c c rest lc eq_refl eq_refl Hfmt).
  - apply gnuplot_plot_equation_Done in H
      as (c1 & rest & lc & Hc1 & Hfmt & _ & _ & ->).
    assert (c1 = c) as -> by congruence.
    eexists. split; [reflexivity|].
    exact (counted_plotted c c rest lc eq_refl eq_refl Hfmt).
  - unfold gnuplot_plot_histogram in H. cbn [plot_refused].
    destruct (histogram_bins ordinate rawdata nbins overflow)
      as [[bin|]|]; [| |discriminate].
    + rewrite bind_Done in H. bind_step H as w1 H1.
      apply gnuplot_setstyle_Done in H1 as (c1 & v & Hc1 & Hc1' & Hfs).
      assert (c1 = c) as -> by congruence.
      rewrite <- Hfs.
      exact (plot_xy_counted _ _ _ _ _ _ _ c (set_pstyle c v) Hc1'
               eq_refl eq_refl H).
    + injection H as <-. exists c. split; [exact Hc|].
      by apply counted_refused.
Qed.

(** C4.  In every reachable state of a session the overlay counter is zero
    exactly when the verb of the next plot command is "plot" rather than
    "replot".  A builder call that returns has sent exactly one command,
    starting with the verb chosen from the counter before the call, and
    has incremented the counter by exactly one, unless it has refused to
    plot (null data, a count below one, a full registry, a failure of
    [mkstemp] or a short write), in which case it has sent nothing and
    left the counter alone; the slope and equation builders never refuse.
    [gnuplot_resetplot] zeroes the counter and empties the registry, so
    the plot command of the first builder call after it starts with
    "plot". *)
Theorem C4_overlay_counter :
  1 ≤ GP_MAX_TMP_FILES →
  (∀ w c, reachable w → plot_ctrl w = Live c →
          (nplots c = 0 ↔ plot_verb c = "plot")) ∧
  (∀ k w w' c,
      is_plot_call k = true → plot_ctrl w = Live c → exec k w = Done w' →
      ∃ c', plot_ctrl w' = Live c' ∧
            if plot_refused k (ntmp c) (fs w)
            then nplots c' = nplots c ∧
                 p_sent (gnucmd c') = p_sent (gnucmd c)
            else nplots c' = nplots c + 1 ∧
                 ∃ rest, p_sent (gnucmd c') =
                           p_sent (gnucmd c) ++ [plot_verb c +:+ rest]) ∧
  (∀ a b e t nt f, plot_refused (CallPlotSlope a b t) nt f = false ∧
                   plot_refused (CallPlotEquation e t) nt f = false) ∧
  (∀ w c,
      plot_ctrl w = Live c →
      ∃ w1 c1, gnuplot_resetplot w = Done w1 ∧ plot_ctrl w1 = Live c1 ∧
               nplots c1 = 0 ∧ ntmp c1 = 0 ∧ registry c1 = [] ∧
               p_sent (gnucmd c1) = p_sent (gnucmd c) ∧
               ∀ k w2, is_plot_call k = true → exec k w1 = Done w2 →
                       plot_refused k (ntmp c1) (fs w1) = false →
                       ∃ c2, plot_ctrl w2 = Live c2 ∧ nplots c2 = 1 ∧
                             ∃ rest, p_sent (gnucmd c2) =
                                       p_sent (gnucmd c) ++
                                       ["plot" +:+ rest]).
Proof.
  intros Hmax. split; [|split; [|split]].
  - intros w c Hr Hc. destruct (reachable_inv Hmax w Hr c Hc) as [Hn _].
    apply plot_verb_plot. lia.
  - intros k w w' c Hk Hc H. exact (plot_call_counted k w w' c Hk Hc H).
  - intros a b e t nt f. split; reflexivity.
  - intros w c Hc. rewrite (gnuplot_resetplot_live _ _ Hc).
    eexists _, _. split; [reflexivity|]. split; [reflexivity|].
    simpl. repeat split.
    intros k w2 Hk H Hgo.
    eapply plot_call_counted in H as (c2 & Hc2 & Hstep);
      [|exact Hk|reflexivity].
    simpl in Hgo, Hstep. rewrite Hgo in Hstep.
    destruct Hstep as [Hn [rest Hs]]. simpl in Hn, Hs.
    exists c2. split; [exact Hc2|]. split; [lia|]. eauto.
Qed.

(** ** Staging a series *)

Lemma mkstemp_Some st (f f0 : gmap string string) (name : string) :
  mkstemp st f = Some (name, f0) →
  f !! name = None ∧ f0 = <[name := EmptyString]> f.
Proof.
  unfold mkstemp. destruct (mkstemp_pick st) as [sfx|]; [|discriminate].
  destruct (f !! (P_tmpdir +:+ "/gnuplot-i-" +:+ sfx)) eqn:Hl; [discriminate|].
  intros [= <- <-]. auto.
Qed.

Lemma os_write_complete st i (line name cur : string)
    (f : gmap string string) :
  write_ret st i line = Z.of_nat (String.length line) →
  f !! name = Some cur →
  os_write st i line name f =
    (Z.of_nat (String.length line), <[name := cur +:+ line]> f).
Proof.
  intros Hr Hl. unfold os_write. rewrite Hr, Nat2Z.id, substring_all.
  f_equal. apply map_eq. intros k. rewrite lookup_alter, lookup_insert.
  destruct (decide (name = k)) as [<-|Hne].
  - rewrite Hl. reflexivity.
  - reflexivity.
Qed.

Lemma write_x_complete st (name : string) (d : list double) (k i : nat)
    (f : gmap string string) (cur : string) :
  (∀ j line, write_ret st j line = Z.of_nat (String.length line)) →
  f !! name = Some cur → (i + k ≤ length d)%nat →
  write_x st name d k i f =
    Done (<[name := cur +:+ lines_of (fmt_g <$> take k (drop i d))]> f).
Proof.
  intros Hwr. revert i f cur.
  induction k as [|k IH]; intros i f cur Hl Hlen.
  - simpl. rewrite append_empty_r, insert_id by exact Hl. reflexivity.
  - destruct (lookup_lt_is_Some_2 d i) as [v Hv]; [lia|].
    cbn [write_x]. unfold rd. rewrite Hv, bind_Done.
    rewrite (os_write_complete st i _ name cur f (Hwr _ _) Hl).
    cbn [snd].
    rewrite (IH (S i) _ (cur +:+ fmt_g v +:+ LF)).
    + rewrite insert_insert_eq. rewrite (drop_S d v i Hv). simpl.
      rewrite !append_assoc. reflexivity.
    + apply lookup_insert_eq.
    + lia.
Qed.

Lemma seqZ_one (m : Z) : seqZ m 1 = [m].
Proof. rewrite seqZ_cons by lia. simpl. by rewrite seqZ_nil by lia. Qed.

Lemma registry_staged (c : gnuplot_ctrl) (name : string) :
  0 ≤ ntmp c → registry (staged c name) = registry c ++ [name].
Proof.
  intros Hn. unfold registry. simpl.
  rewrite seqZ_app by lia. rewrite fmap_app, Z.add_0_l, seqZ_one. simpl.
  rewrite decide_True by reflexivity. f_equal.
  apply list_fmap_ext. intros i k Hk. apply lookup_seqZ in Hk as [-> Hlt].
  rewrite decide_False by lia. reflexivity.
Qed.

(** C8 as amended.  A call of [gnuplot_plot_x] with a non-null array of
    exactly [n >= 1] samples, on a live session with an open pipe and
    counters below [INT_MAX], with the registry below capacity, [mkstemp]
    succeeding under [name], a file system that accepts every write in
    full, and a command line that holds no conversion specification and
    fits, with its line feed, the command buffers of [GP_CMD_SIZE] bytes:
    the call returns; [name] was no file before and is the one file
    added, holding exactly the [n] lines [%g] of each sample in order; it
    is the one name added to the registry; the overlay counter has grown
    by exactly one and one command was sent. *)
Theorem C8_plot_x_stages_one_file st (dv : list double) (n : Z)
    (title : option string) (w : world) (c : gnuplot_ctrl)
    (name local_cmd : string) (f0 : gmap string string) :
  GP_MAX_TMP_FILES ≤ INT_MAX →
  plot_ctrl w = Live c → p_open (gnucmd c) = true →
  n = Z.of_nat (length dv) → 1 ≤ n →
  0 ≤ ntmp c < GP_MAX_TMP_FILES - 1 →
  mkstemp st (fs w) = Some (name, f0) →
  (∀ i line, write_ret st i line = Z.of_nat (String.length line)) →
  vsprintf0 (series_line c name title) = Some local_cmd →
  (String.length (series_line c name title) < GP_CMD_SIZE)%nat →
  (String.length local_cmd + 1 < GP_CMD_SIZE)%nat →
  nplots c < INT_MAX →
  ∃ w' c',
    gnuplot_plot_x st (Some dv) n title w = Done w' ∧
    plot_ctrl w' = Live c' ∧
    fs w !! name = None ∧
    fs w' = <[name := lines_of (fmt_g <$> dv)]> (fs w) ∧
    length (fmt_g <$> dv) = Z.to_nat n ∧
    registry c' = registry c ++ [name] ∧
    ntmp c' = ntmp c + 1 ∧
    nplots c' = nplots c + 1 ∧
    p_sent (gnucmd c') = p_sent (gnucmd c) ++ [local_cmd +:+ LF] ∧
    pstyle c' = pstyle c.
Proof.
  intros Hmax Hc Ho Hn Hn1 Hcap Hmk Hwr Hfmt Hfit Hlen Hnp.
  destruct (mkstemp_Some _ _ _ _ Hmk) as [Hfree ->].
  unfold gnuplot_plot_x. rewrite Hc.
  rewrite (proj2 (Z.ltb_ge n 1)) by lia.
  unfold this_ctrl. rewrite Hc. simpl.
  rewrite (proj2 (Z.eqb_neq _ _)) by lia. rewrite Hmk.
  unfold incr_int. rewrite (proj2 (Z.ltb_lt (ntmp c) INT_MAX)) by lia.
  simpl.
  rewrite (write_x_complete st name dv (Z.to_nat n) 0 _ EmptyString Hwr)
    by (first [apply lookup_insert_eq | lia]).
  simpl.
  change (series_line _ name title) with (series_line c name title).
  rewrite (sprintf_fits _ _ Hfit), bind_Done.
  rewrite (send_and_count_live (series_line c name title) local_cmd _
             (staged c name)) by first [reflexivity | assumption].
  simpl. rewrite Ho.
  rewrite (proj2 (Z.ltb_lt (nplots c) INT_MAX)) by lia.
  eexists _, _. split; [reflexivity|]. split; [reflexivity|]. simpl.
  split; [exact Hfree|]. split.
  { rewrite insert_insert_eq, drop_0, take_ge by (rewrite Hn; lia).
    reflexivity. }
  split; [rewrite length_fmap; lia|].
  split; [apply (registry_staged c name); lia|].
  repeat split.
Qed.

(** ** The histogram builder on degenerate input *)


Lemma boxes_is_style : "boxes" ∈ styles.
Proof. unfold styles. rewrite !elem_of_cons. tauto. Qed.


(** ** The order of doubles *)

Lemma lex3_Lt a b : lex3 a b = Lt ↔ lex_lt a b.
Proof.
  unfold lex3, lex_lt.
  destruct (Z.compare_spec a.1.1 b.1.1), (Z.compare_spec a.1.2 b.1.2),
    (Z.compare_spec a.2 b.2); split; intros Hlex; try discriminate;
    try reflexivity; lia.
Qed.

Lemma lex3_Gt a b : lex3 a b = Gt ↔ lex_lt b a.
Proof.
  unfold lex3, lex_lt.
  destruct (Z.compare_spec a.1.1 b.1.1), (Z.compare_spec a.1.2 b.1.2),
    (Z.compare_spec a.2 b.2); split; intros Hlex; try discriminate;
    try reflexivity; lia.
Qed.

Lemma lex3_Eq a b : lex3 a b = Eq ↔ a = b.
Proof.
  unfold lex3. destruct a as [[a1 a2] a3], b as [[b1 b2] b3]. simpl.
  destruct (Z.compare_spec a1 b1), (Z.compare_spec a2 b2),
    (Z.compare_spec a3 b3); split; intros Hlex; try discriminate;
    try reflexivity; try (injection Hlex; intros; lia); congruence.
Qed.

Lemma SFcompare_key (x y : double) :
  SFcompare x y =
    match sf_key x, sf_key y with
    | Some a, Some b => Some (lex3 a b)
    | _, _ => None
    end.
Proof.
  destruct x as [sx|sx| |sx mx ex], y as [sy|sy| |sy my ey];
    try destruct sx; try destruct sy; try reflexivity.
  simpl. unfold lex3. simpl. rewrite Z.compare_opp.
  rewrite (Z.compare_antisym ex ey).
  destruct (Z.compare_spec ex ey); reflexivity.
Qed.

Lemma d_lt_spec (a b : double) :
  d_lt a b = true ↔
  ∃ ka kb, sf_key a = Some ka ∧ sf_key b = Some kb ∧ lex_lt ka kb.
Proof.
  unfold d_lt, SFltb. rewrite SFcompare_key. split.
  - destruct (sf_key a) as [ka|], (sf_key b) as [kb|]; try discriminate.
    destruct (lex3 ka kb) eqn:Hc; try discriminate.
    intros _. exists ka, kb. repeat split. by apply lex3_Lt.
  - intros (ka & kb & -> & -> & Hlt). apply lex3_Lt in Hlt.
    rewrite Hlt. reflexivity.
Qed.

Lemma d_le_spec (a b : double) :
  d_le a b = true ↔
  ∃ ka kb, sf_key a = Some ka ∧ sf_key b = Some kb ∧ ¬ lex_lt kb ka.
Proof.
  unfold d_le, SFleb. rewrite SFcompare_key. split.
  - destruct (sf_key a) as [ka|], (sf_key b) as [kb|]; try discriminate.
    destruct (lex3 ka kb) eqn:Hc; try discriminate;
      intros _; exists ka, kb; repeat split;
      rewrite <- lex3_Gt; congruence.
  - intros (ka & kb & -> & -> & Hge). rewrite <- lex3_Gt in Hge.
    destruct (lex3 ka kb); congruence.
Qed.

Lemma lex3_antisym a b : lex3 b a = CompOpp (lex3 a b).
Proof.
  unfold lex3. rewrite (Z.compare_antisym a.1.1), (Z.compare_antisym a.1.2),
    (Z.compare_antisym a.2).
  destruct (a.1.1 ?= b.1.1), (a.1.2 ?= b.1.2), (a.2 ?= b.2); reflexivity.
Qed.

Lemma d_ge_le (a b : double) : d_ge a b = d_le b a.
Proof.
  unfold d_ge, d_le, SFleb. rewrite !SFcompare_key.
  destruct (sf_key a) as [ka|], (sf_key b) as [kb|]; try reflexivity.
  rewrite (lex3_antisym ka kb). destruct (lex3 ka kb); reflexivity.
Qed.

Lemma d_le_trans (a b c : double) :
  d_le a b = true → d_le b c = true → d_le a c = true.
Proof.
  rewrite !d_le_spec.
  intros (ka & kb & Ha & Hb & H1) (kb' & kc & Hb' & Hc & H2).
  assert (kb' = kb) as -> by congruence.
  exists ka, kc. repeat split; auto. unfold lex_lt in *. lia.
Qed.

Lemma d_lt_le_trans (a b c : double) :
  d_lt a b = true → d_le b c = true → d_lt a c = true.
Proof.
  rewrite !d_le_spec, !d_lt_spec.
  intros (ka & kb & Ha & Hb & H1) (kb' & kc & Hb' & Hc & H2).
  assert (kb' = kb) as -> by congruence.
  exists ka, kc. repeat split; auto. unfold lex_lt in *. lia.
Qed.

Lemma d_lt_not_le (a b : double) : d_lt a b = true → d_le b a = false.
Proof.
  intros H. apply not_true_is_false. revert H. rewrite d_le_spec, d_lt_spec.
  intros (ka & kb & Ha & Hb & H1) (kb' & ka' & Hb' & Ha' & H2).
  assert (kb' = kb) as -> by congruence.
  assert (ka' = ka) as -> by congruence. contradiction.
Qed.

Lemma d_le_not_lt (a b : double) : d_le a b = true → d_lt b a = false.
Proof.
  intros H. apply not_true_is_false. revert H. rewrite d_le_spec, d_lt_spec.
  intros (ka & kb & Ha & Hb & H1) (kb' & ka' & Hb' & Ha' & H2).
  assert (kb' = kb) as -> by congruence.
  assert (ka' = ka) as -> by congruence. contradiction.
Qed.

(** Two doubles that each compare with something are comparable. *)
Lemma d_lt_or_le (a b a' b' : double) :
  d_le a' a = true → d_le b' b = true →
  d_lt a b = true ∨ d_le b a = true.
Proof.
  rewrite !d_le_spec, d_lt_spec.
  intros (ka' & ka & _ & Ha & _) (kb' & kb & _ & Hb & _).
  destruct (lex3 ka kb) eqn:Hc.
  - right. exists kb, ka. repeat split; auto.
    rewrite lex3_Eq in Hc. subst. unfold lex_lt. lia.
  - left. exists ka, kb. repeat split; auto. by apply lex3_Lt.
  - right. exists kb, ka. repeat split; auto. apply lex3_Gt in Hc.
    unfold lex_lt in *. lia.
Qed.

Lemma d_lt_le (a b : double) : d_lt a b = true → d_le a b = true.
Proof.
  rewrite d_le_spec, d_lt_spec. intros (ka & kb & Ha & Hb & Hlt).
  exists ka, kb. repeat split; auto. unfold lex_lt in *. lia.
Qed.

Lemma d_le_refl_r (a b : double) : d_le a b = true → d_le b b = true.
Proof.
  rewrite !d_le_spec. intros (ka & kb & _ & Hb & _).
  exists kb, kb. repeat split; auto. unfold lex_lt. lia.
Qed.

(** ** The histogram aggregator *)

Lemma ascending_adjacent (l : list double) (i : nat) (a b : double) :
  ascending l = true → l !! i = Some a → l !! S i = Some b →
  d_le a b = true.
Proof.
  revert i. induction l as [|x l IH]; intros i Hasc Ha Hb; [discriminate|].
  destruct l as [|y l]; [discriminate|].
  simpl in Hasc. apply andb_true_iff in Hasc as [Hxy Hasc].
  destruct i as [|i].
  - simpl in Ha, Hb. congruence.
  - exact (IH i Hasc Ha Hb).
Qed.

Lemma ascending_chain (l : list double) (i k : nat) (a b : double) :
  ascending l = true → l !! i = Some a → l !! (i + S k)%nat = Some b →
  d_le a b = true.
Proof.
  intros Hasc Ha. revert b. induction k as [|k IH]; intros b Hb.
  - rewrite Nat.add_1_r in Hb. exact (ascending_adjacent l i a b Hasc Ha Hb).
  - replace (i + S (S k))%nat with (S (i + S k)) in Hb by lia.
    destruct (lookup_lt_is_Some_2 l (i + S k)) as [c Hc].
    { apply lookup_lt_Some in Hb. lia. }
    eapply d_le_trans; [exact (IH c Hc)|].
    exact (ascending_adjacent l _ c b Hasc Hc Hb).
Qed.

Lemma bump_Some (bin : list double) (i : nat) (v : double) :
  bin !! i = Some v → bump bin i = Done (<[i := d_incr v]> bin).
Proof. intros H. unfold bump, rd. rewrite H. reflexivity. Qed.

(** The body of the inner loop under the strict policy. *)
Lemma bin_body_strict (ord : list double) (nbins : nat) (s : double)
    (j : nat) (bin : list double) :
  (S j < length ord)%nat →
  bin_body 0 (Some ord) nbins s j bin =
    if hit ord s j then bump bin j else Done bin.
Proof.
  intros Hj.
  destruct (lookup_lt_is_Some_2 ord j) as [a Ha]; [lia|].
  destruct (lookup_lt_is_Some_2 ord (S j)) as [b Hb]; [lia|].
  unfold bin_body, hit, rd. simpl. rewrite Nat.add_1_r, Ha, Hb. simpl.
  destruct (d_ge s a), (d_lt s b); reflexivity.
Qed.

(** Strictly between the outer edges the clamping policy runs the same
    body as the strict one. *)
Lemma bin_body_clamp_inside (overflow : Z) (ord : list double) (s : double)
    (j : nat) (bin : list double) :
  strictly_inside ord s = true →
  bin_body overflow (Some ord) (length ord) s j bin =
    bin_body 0 (Some ord) (length ord) s j bin.
Proof.
  unfold strictly_inside. intros Hin.
  destruct (ord !! 0%nat) as [a|] eqn:Ha; [|discriminate].
  destruct (ord !! (length ord - 1)%nat) as [z|] eqn:Hz; [|discriminate].
  apply andb_true_iff in Hin as [H1 H2].
  unfold bin_body, rd. simpl. destruct (overflow =? 0); [reflexivity|].
  simpl. rewrite Ha, Hz. simpl.
  rewrite (d_lt_not_le _ _ H1), d_ge_le, (d_lt_not_le _ _ H2). reflexivity.
Qed.

Lemma bin_scan_clamp_inside (overflow : Z) (ord : list double) (s : double)
    (k i : nat) (bin : list double) :
  strictly_inside ord s = true →
  bin_scan overflow (Some ord) (length ord) s k i bin =
    bin_scan 0 (Some ord) (length ord) s k i bin.
Proof.
  intros Hin. revert i bin. induction k as [|k IH]; intros i bin;
    [reflexivity|].
  simpl. rewrite (bin_body_clamp_inside overflow ord s i bin Hin).
  destruct (bin_body 0 (Some ord) (length ord) s i bin); [|reflexivity].
  simpl. apply IH.
Qed.

(** No bin changes while no interval is hit. *)
Lemma bin_scan_no_hit (ord : list double) (nbins : nat) (s : double)
    (k i : nat) (bin : list double) :
  (i + k < length ord)%nat →
  (∀ j, (i ≤ j < i + k)%nat → hit ord s j = false) →
  bin_scan 0 (Some ord) nbins s k i bin = Done bin.
Proof.
  revert i. induction k as [|k IH]; intros i Hlen Hno; [reflexivity|].
  simpl. rewrite bin_body_strict by lia. rewrite Hno by lia.
  rewrite bind_Done. apply IH; [lia|]. intros j Hj. apply Hno. lia.
Qed.

(** A sample between the edges [i] and [i + k] of ascending edges hits
    exactly one of the [k] intervals from [i] on, and the scan increments
    that bin once. *)
Lemma bin_scan_one_hit (ord : list double) (nbins : nat) (s : double)
    (k i : nat) (bin : list double) (a z : double) :
  ascending ord = true →
  ord !! i = Some a → d_le a s = true →
  ord !! (i + k)%nat = Some z → d_lt s z = true →
  (i + k < length bin)%nat →
  ∃ j v, (i ≤ j < i + k)%nat ∧ bin !! j = Some v ∧ hit ord s j = true ∧
         bin_scan 0 (Some ord) nbins s k i bin = Done (<[j := d_incr v]> bin).
Proof.
  intros Hasc. revert i a.
  induction k as [|k IH]; intros i a Ha Has Hz Hsz Hlen.
  - rewrite Nat.add_0_r in Hz. assert (z = a) as -> by congruence.
    rewrite (d_le_not_lt _ _ Has) in Hsz. discriminate.
  - assert (S i < length ord)%nat as Hi.
    { apply lookup_lt_Some in Hz. lia. }
    destruct (lookup_lt_is_Some_2 ord (S i)) as [b Hb]; [lia|].
    assert (d_le a b = true) as Hab
      by exact (ascending_adjacent ord i a b Hasc Ha Hb).
    assert (hit ord s i = d_lt s b) as Hhit
      by (unfold hit; rewrite Ha, Hb, d_ge_le, Has; reflexivity).
    simpl. rewrite bin_body_strict by lia. rewrite Hhit.
    destruct (d_lt s b) eqn:Hsb.
    + destruct (lookup_lt_is_Some_2 bin i) as [v Hv]; [lia|].
      rewrite (bump_Some bin i v Hv), bind_Done.
      exists i, v. split; [lia|]. split; [exact Hv|].
      split; [exact Hhit|].
      apply bin_scan_no_hit; [apply lookup_lt_Some in Hz; lia|].
      intros j Hj. unfold hit.
      destruct (ord !! j) as [c|] eqn:Hc; [|reflexivity].
      destruct (ord !! S j) as [d|]; [|reflexivity].
      assert (d_le b c = true) as Hbc.
      { destruct (decide (j = S i)) as [->|Hne].
        - assert (c = b) as -> by congruence.
          exact (d_le_refl_r a b Hab).
        - replace j with (S i + S (j - S i - 1))%nat in Hc by lia.
          exact (ascending_chain ord (S i) _ b c Hasc Hb Hc). }
      rewrite d_ge_le.
      rewrite (d_lt_not_le s c (d_lt_le_trans _ _ _ Hsb Hbc)). reflexivity.
    + rewrite bind_Done.
      assert (d_le b s = true) as Hbs.
      { destruct (d_lt_or_le s b a a Has Hab) as [H|H]; [congruence|exact H]. }
      replace (i + S k)%nat with (S i + k)%nat in Hz, Hlen by lia.
      destruct (IH (S i) b Hb Hbs Hz Hsz Hlen)
        as (j & v & Hj & Hv & Hhitj & Hscan).
      exists j, v. split; [lia|]. auto.
Qed.

(** At or below the first edge the clamping policy touches bin 0 only, at
    or above the last edge the last bin only. *)
Lemma bin_scan_clamp_low (overflow : Z) (ord : list double) (nbins : nat)
    (s : double) (k i : nat) (bin : list double) :
  overflow ≠ 0 → at_or_below ord s = true → (0 < length bin)%nat →
  ∃ v, bin_scan overflow (Some ord) nbins s k i bin = Done (<[0%nat := v]> bin).
Proof.
  unfold at_or_below. intros Hov Hlow.
  destruct (ord !! 0%nat) as [a|] eqn:Ha; [|discriminate].
  apply Z.eqb_neq in Hov.
  revert i bin. induction k as [|k IH]; intros i bin Hlen.
  - destruct (lookup_lt_is_Some_2 bin 0) as [v Hv]; [lia|].
    exists v. simpl. by rewrite list_insert_id.
  - destruct (lookup_lt_is_Some_2 bin 0) as [v Hv]; [lia|].
    simpl. unfold bin_body, rd. simpl. rewrite Hov, Ha. simpl.
    rewrite Hlow, (bump_Some bin 0 v Hv), bind_Done.
    destruct (IH (S i) (<[0%nat := d_incr v]> bin)) as [v' Hv'].
    { rewrite length_insert. lia. }
    exists v'. rewrite Hv', list_insert_insert_eq. reflexivity.
Qed.

Lemma bin_scan_clamp_high (overflow : Z) (ord : list double) (s : double)
    (k i : nat) (bin : list double) :
  overflow ≠ 0 → at_or_above ord s = true →
  (length ord - 1 < length bin)%nat →
  ∃ v, bin_scan overflow (Some ord) (length ord) s k i bin
       = Done (<[(length ord - 1)%nat := v]> bin).
Proof.
  unfold at_or_above. intros Hov Hhigh.
  destruct (ord !! 0%nat) as [a|] eqn:Ha; [|discriminate].
  destruct (ord !! (length ord - 1)%nat) as [z|] eqn:Hz; [|discriminate].
  apply andb_true_iff in Hhigh as [Hlow Hhigh].
  apply negb_true_iff in Hlow. apply Z.eqb_neq in Hov.
  revert i bin. induction k as [|k IH]; intros i bin Hlen.
  - destruct (lookup_lt_is_Some_2 bin (length ord - 1)) as [v Hv]; [lia|].
    exists v. simpl. by rewrite list_insert_id.
  - destruct (lookup_lt_is_Some_2 bin (length ord - 1)) as [v Hv]; [lia|].
    simpl. unfold bin_body, rd. simpl. rewrite Hov, Ha. simpl.
    rewrite Hlow, Hz. simpl. rewrite Hhigh, (bump_Some bin _ v Hv), bind_Done.
    destruct (IH (S i) (<[(length ord - 1)%nat := d_incr v]> bin))
      as [v' Hv'].
    { rewrite length_insert. lia. }
    exists v'. rewrite Hv', list_insert_insert_eq. reflexivity.
Qed.

(** Samples from index [nbins] on are not read, nor are samples after a
    zero. *)
Lemma sample_loop_app (overflow : Z) ordinate (raw extra : list double)
    (nbins k j : nat) (bin : list double) :
  (j + k ≤ length raw)%nat →
  sample_loop overflow ordinate (raw ++ extra) nbins k j bin =
    sample_loop overflow ordinate raw nbins k j bin.
Proof.
  revert j bin. induction k as [|k IH]; intros j bin Hlen; [reflexivity|].
  simpl. unfold rd. rewrite lookup_app_l by lia.
  destruct (raw !! j) as [x|]; [|reflexivity]. simpl.
  destruct (d_nonzero x); [|reflexivity].
  destruct (bin_sample overflow ordinate nbins x bin); [|reflexivity].
  simpl. apply IH. lia.
Qed.

Lemma sample_loop_zero (overflow : Z) ordinate (pre post post' : list double)
    (z : double) (nbins k j : nat) (bin : list double) :
  d_nonzero z = false → (j ≤ length pre)%nat →
  sample_loop overflow ordinate (pre ++ z :: post) nbins k j bin =
    sample_loop overflow ordinate (pre ++ z :: post') nbins k j bin.
Proof.
  intros Hz. revert j bin. induction k as [|k IH]; intros j bin Hlen;
    [reflexivity|].
  simpl. unfold rd. destruct (decide (j = length pre)) as [->|Hne].
  - rewrite !list_lookup_middle by reflexivity. simpl. rewrite Hz.
    reflexivity.
  - rewrite !lookup_app_l by lia.
    destruct (pre !! j) as [x|]; [|reflexivity]. simpl.
    destruct (d_nonzero x); [|reflexivity].
    destruct (bin_sample overflow ordinate nbins x bin); [|reflexivity].
    simpl. apply IH. lia.
Qed.

(** Under the strict policy a sample outside the range hits no interval of
    ascending edges. *)
Lemma out_of_range_no_hit (ord : list double) (s : double) (j : nat) :
  ascending ord = true → in_range ord s = false →
  (S j < length ord)%nat → hit ord s j = false.
Proof.
  intros Hasc Hout Hj. apply not_true_is_false. intros Hhit.
  unfold hit in Hhit. unfold in_range in Hout.
  destruct (lookup_lt_is_Some_2 ord 0) as [a0 Ha0]; [lia|].
  destruct (lookup_lt_is_Some_2 ord (length ord - 1)) as [z Hz]; [lia|].
  rewrite Ha0, Hz in Hout.
  destruct (ord !! j) as [a|] eqn:Ha; [|discriminate].
  destruct (ord !! S j) as [b|] eqn:Hb; [|discriminate].
  apply andb_true_iff in Hhit as [Hsa Hsb]. rewrite d_ge_le in Hsa.
  assert (d_le a0 s = true) as H0.
  { destruct j as [|j].
    - congruence.
    - eapply d_le_trans; [|exact Hsa].
      exact (ascending_chain ord 0 j a0 a Hasc Ha0 Ha). }
  assert (d_lt s z = true) as H1.
  { destruct (decide (S j = length ord - 1)%nat) as [E|E].
    - rewrite E in Hb. congruence.
    - eapply d_lt_le_trans; [exact Hsb|].
      replace (length ord - 1)%nat with (S j + S (length ord - S j - 2))%nat
        in Hz by lia.
      exact (ascending_chain ord (S j) _ b z Hasc Hb Hz). }
  rewrite d_ge_le, H0, H1 in Hout. discriminate.
Qed.

(** C7.  Under the strict policy ([overflow = 0]) the edges [0,1,2,3] and
    the samples [0.5, 1.5, 2.5, -1, 5] give the counts [1,1,1,0].  For
    ascending edges, a sample outside [[edges[0], edges[nbins-1])]
    increments no bin: the counters after it are the counters before it.
    A sample inside that range increments one bin, the one of the
    half-open interval that holds it, once. *)
Theorem C7_strict_policy (ord bin : list double) (s : double) :
  ascending ord = true → length bin = length ord →
  histogram_bins (Some edges0123) (Some samples5) 4 0
    = Done (Some (d_of_Z <$> [1; 1; 1; 0])) ∧
  (in_range ord s = false →
   bin_sample 0 (Some ord) (length ord) s bin = Done bin) ∧
  (in_range ord s = true →
   ∃ j v, bin !! j = Some v ∧ hit ord s j = true ∧
          bin_sample 0 (Some ord) (length ord) s bin
          = Done (<[j := d_incr v]> bin)).
Proof.
  intros Hasc Hlen. split; [vm_compute; reflexivity|]. split.
  - intros Hout. unfold bin_sample.
    destruct (length ord) as [|n] eqn:Hn; [reflexivity|].
    apply bin_scan_no_hit; [lia|].
    intros j Hj. apply out_of_range_no_hit; auto. lia.
  - intros Hin. unfold in_range in Hin. unfold bin_sample.
    destruct (ord !! 0%nat) as [a|] eqn:Ha; [|discriminate].
    destruct (ord !! (length ord - 1)%nat) as [z|] eqn:Hz; [|discriminate].
    apply andb_true_iff in Hin as [H0 H1]. rewrite d_ge_le in H0.
    destruct (bin_scan_one_hit ord (length ord) s (length ord - 1) 0 bin a z)
      as (j & v & _ & Hv & Hhit & Hscan); auto.
    { apply lookup_lt_Some in Ha. simpl. lia. }
    eauto.
Qed.

(** C1 as amended.  Under the clamping policy ([overflow] non-zero) the
    edges [0,1,2,3] and the samples [0.5, 1.5, 2.5, -1, 5] leave bins 1, 2
    and 3 at 1, 1 and 0.  The histogram reads at most [nbins] samples, and
    none after a zero sample.  For ascending edges, a sample read that lies
    strictly between [edges[0]] and [edges[nbins-1]] increments one bin,
    the one of the half-open interval that holds it, once; a sample at or
    below [edges[0]] changes no bin other than bin 0; a sample at or above
    [edges[nbins-1]] (and above [edges[0]]) changes no bin other than the
    last. *)
Theorem C1_clamping_policy (overflow : Z) (ord bin : list double)
    (s : double) :
  overflow ≠ 0 → ascending ord = true → length bin = length ord →
  (∃ b0, histogram_bins (Some edges0123) (Some samples5) 4 1
         = Done (Some (b0 :: (d_of_Z <$> [1; 1; 0])))) ∧
  (∀ ordinate raw extra nbins,
      (Z.to_nat (nbins mod UINT_MOD) ≤ length raw)%nat →
      histogram_bins ordinate (Some (raw ++ extra)) nbins overflow
      = histogram_bins ordinate (Some raw) nbins overflow) ∧
  (∀ ordinate pre z post post' nbins,
      d_nonzero z = false →
      histogram_bins ordinate (Some (pre ++ z :: post)) nbins overflow
      = histogram_bins ordinate (Some (pre ++ z :: post')) nbins overflow) ∧
  (strictly_inside ord s = true →
   ∃ j v, bin !! j = Some v ∧ hit ord s j = true ∧
          bin_sample overflow (Some ord) (length ord) s bin
          = Done (<[j := d_incr v]> bin)) ∧
  (at_or_below ord s = true →
   ∃ v, bin_sample overflow (Some ord) (length ord) s bin
        = Done (<[0%nat := v]> bin)) ∧
  (at_or_above ord s = true →
   ∃ v, bin_sample overflow (Some ord) (length ord) s bin
        = Done (<[(length ord - 1)%nat := v]> bin)).
Proof.
  intros Hov Hasc Hlen. split; [eexists; vm_compute; reflexivity|].
  split; [|split; [|split; [|split]]].
  - intros ordinate raw extra nbins Hn. unfold histogram_bins.
    rewrite sample_loop_app by (simpl; exact Hn). reflexivity.
  - intros ordinate pre z post post' nbins Hz. unfold histogram_bins.
    rewrite (sample_loop_zero overflow ordinate pre post post' z) by
      (first [exact Hz | lia]).
    reflexivity.
  - intros Hin. unfold bin_sample. rewrite bin_scan_clamp_inside by exact Hin.
    unfold strictly_inside in Hin.
    destruct (ord !! 0%nat) as [a|] eqn:Ha; [|discriminate].
    destruct (ord !! (length ord - 1)%nat) as [z|] eqn:Hz; [|discriminate].
    apply andb_true_iff in Hin as [H0 H1].
    pose proof (d_lt_le _ _ H0) as H0'.
    destruct (bin_scan_one_hit ord (length ord) s (length ord - 1) 0 bin a z)
      as (j & v & _ & Hv & Hhit & Hscan); auto.
    { apply lookup_lt_Some in Ha. simpl. lia. }
    eauto.
  - intros Hlow. unfold bin_sample. apply bin_scan_clamp_low; auto.
    unfold at_or_below in Hlow.
    destruct (ord !! 0%nat) eqn:Ha; [|discriminate].
    apply lookup_lt_Some in Ha. lia.
  - intros Hhigh. unfold bin_sample. apply bin_scan_clamp_high; auto.
    unfold at_or_above in Hhigh.
    destruct (ord !! 0%nat) eqn:Ha; [|discriminate].
    apply lookup_lt_Some in Ha. lia.
Qed.

(** ** The executable locator and its static buffer *)

Lemma rel_bind {A B A' B'} (R : A → B → Prop) (S : A' → B' → Prop)
    (m1 : outcome A) (m2 : outcome B)
    (k1 : A → outcome A') (k2 : B → outcome B') :
  rel_outcome R m1 m2 →
  (∀ a b, R a b → rel_outcome S (k1 a) (k2 b)) →
  rel_outcome S (m1 ≫= k1) (m2 ≫= k2).
Proof.
  destruct m1 as [a|f], m2 as [b|g]; simpl; try contradiction; auto.
Qed.

Lemma agree_length n b1 b2 : agree n b1 b2 → length b1 = length b2.
Proof. intros [H _]. exact H. Qed.

Lemma agree_0 b1 b2 : length b1 = length b2 → agree 0 b1 b2.
Proof. intros H. split; [exact H|]. by rewrite !take_0. Qed.

Lemma agree_lookup n b1 b2 i :
  agree n b1 b2 → (i < n)%nat → b1 !! i = b2 !! i.
Proof.
  intros [_ Ht] Hi.
  rewrite <- (lookup_take_lt b1 n i Hi), <- (lookup_take_lt b2 n i Hi), Ht.
  reflexivity.
Qed.

(** A store inside the common part keeps it common; a store right after it
    extends it. *)
Lemma store_agree n b1 b2 i c :
  agree n b1 b2 → rel_outcome (agree n) (store b1 i c) (store b2 i c).
Proof.
  intros [Hlen Ht]. unfold store. rewrite <- Hlen.
  destruct (decide (i < length b1)%nat) as [Hi|Hi]; simpl; [|reflexivity].
  split; [by rewrite !length_insert|].
  destruct (decide (i < n)%nat).
  - rewrite !take_insert_lt by lia. by rewrite Ht.
  - rewrite !take_insert_ge by lia. exact Ht.
Qed.

Lemma store_agree_next n b1 b2 c :
  agree n b1 b2 → rel_outcome (agree (S n)) (store b1 n c) (store b2 n c).
Proof.
  intros [Hlen Ht]. unfold store. rewrite <- Hlen.
  destruct (decide (n < length b1)%nat) as [Hi|Hi]; simpl; [|reflexivity].
  split; [by rewrite !length_insert|].
  rewrite (take_S_r (<[n:=c]> b1) n c), (take_S_r (<[n:=c]> b2) n c)
    by (apply list_lookup_insert_eq; lia).
  rewrite !take_insert_ge by lia. by rewrite Ht.
Qed.

Lemma store_bytes_agree n b1 b2 bs :
  agree n b1 b2 →
  rel_outcome (agree (n + length bs))
              (store_bytes b1 n bs) (store_bytes b2 n bs).
Proof.
  revert n b1 b2. induction bs as [|c bs IH]; intros n b1 b2 Hag.
  - simpl. rewrite Nat.add_0_r. exact Hag.
  - simpl. eapply rel_bind; [exact (store_agree_next n b1 b2 c Hag)|].
    intros a b Hab. replace (n + S (length bs))%nat with (S n + length bs)%nat
      by lia.
    apply IH. exact Hab.
Qed.

Lemma store_length b i c b' : store b i c = Done b' → length b' = length b.
Proof.
  unfold store. destruct (decide (i < length b)%nat); intros [= <-].
  apply length_insert.
Qed.

Lemma store_bytes_length b i bs b' :
  store_bytes b i bs = Done b' → length b' = length b.
Proof.
  revert b i. induction bs as [|c bs IH]; intros b i H.
  - injection H as <-. reflexivity.
  - simpl in H. bind_inv H. rewrite (IH _ _ H). eapply store_length; eauto.
Qed.

Lemma store_bytes_last b i bs c b' :
  store_bytes b i (bs ++ [c]) = Done b' →
  b' !! (i + length bs)%nat = Some c.
Proof.
  revert b i. induction bs as [|x bs IH]; intros b i H.
  - simpl in H. bind_inv H. injection H as <-.
    unfold store in Ha. destruct (decide (i < length b)%nat); [|discriminate].
    injection Ha as <-. rewrite Nat.add_0_r.
    by apply list_lookup_insert_eq.
  - simpl in H. bind_inv H.
    replace (i + length (x :: bs))%nat with (S i + length bs)%nat
      by (simpl; lia).
    exact (IH _ _ H).
Qed.

(** The C string of a buffer is decided by its bytes up to the first
    NUL. *)
Lemma cstring_take n b : terminated n b → cstring (take n b) = cstring b.
Proof.
  revert n. induction b as [|c b IH]; intros n (i & Hi & Hb).
  - discriminate.
  - destruct n as [|n]; [lia|]. simpl.
    destruct (decide (c = nul)); [reflexivity|].
    destruct i as [|i]; [simpl in Hb; congruence|].
    rewrite IH; [reflexivity|]. exists i. split; [lia | exact Hb].
Qed.

Lemma cstring_agree n b1 b2 :
  agree n b1 b2 → terminated n b1 → cstring b1 = cstring b2.
Proof.
  intros Hag Ht. pose proof Hag as [_ Htake].
  rewrite <- (cstring_take n b1 Ht), Htake. apply cstring_take.
  destruct Ht as (i & Hi & Hb). exists i. split; [exact Hi|].
  rewrite <- (agree_lookup n b1 b2 i Hag Hi). exact Hb.
Qed.

Lemma same_text_cstring b1 b2 : same_text b1 b2 → cstring b1 = cstring b2.
Proof. intros (n & Hag & Ht). exact (cstring_agree n b1 b2 Hag Ht). Qed.

Lemma same_text_length b1 b2 : same_text b1 b2 → length b1 = length b2.
Proof. intros (n & Hag & _). exact (agree_length _ _ _ Hag). Qed.

Lemma same_text_load0 b1 b2 : same_text b1 b2 → load b1 0 = load b2 0.
Proof.
  intros (n & Hag & (i & Hi & Hb)). unfold load, rd.
  rewrite (agree_lookup n b1 b2 0 Hag) by lia. reflexivity.
Qed.

(** [strcpy] from the start of two buffers of one size leaves the same
    text in both. *)
Lemma strcpy_at_same_text n b1 b2 s :
  agree n b1 b2 →
  rel_outcome same_text (strcpy_at b1 n s) (strcpy_at b2 n s).
Proof.
  intros Hag. unfold strcpy_at.
  pose proof (store_bytes_agree n b1 b2 (chars s ++ [nul]) Hag) as Hrel.
  destruct (store_bytes b1 n (chars s ++ [nul])) as [b1'|f] eqn:H1,
    (store_bytes b2 n (chars s ++ [nul])) as [b2'|g] eqn:H2;
    simpl in *; try contradiction; auto.
  exists (n + length (chars s ++ [nul]))%nat. split; [exact Hrel|].
  exists (n + length (chars s))%nat. split.
  - rewrite length_app. simpl. lia.
  - exact (store_bytes_last _ _ _ _ _ H1).
Qed.

Lemma store_nul_same_text b1 b2 i :
  same_text b1 b2 → rel_outcome same_text (store b1 i nul) (store b2 i nul).
Proof.
  intros (n & Hag & (j & Hj & Hb)).
  pose proof (store_agree n b1 b2 i nul Hag) as Hrel.
  destruct (store b1 i nul) as [b1'|f] eqn:H1,
    (store b2 i nul) as [b2'|g] eqn:H2; simpl in *; try contradiction; auto.
  exists n. split; [exact Hrel|]. exists j. split; [exact Hj|].
  unfold store in H1. destruct (decide (i < length b1)%nat); [|discriminate].
  injection H1 as <-. destruct (decide (i = j)) as [->|Hne].
  - by apply list_lookup_insert_eq.
  - rewrite list_lookup_insert_ne by exact Hne. exact Hb.
Qed.

Lemma store_nul_terminated n b1 b2 i :
  agree n b1 b2 → terminated n b1 →
  rel_outcome (λ b1' b2', agree n b1' b2' ∧ terminated n b1')
              (store b1 i nul) (store b2 i nul).
Proof.
  intros Hag (j & Hj & Hb).
  pose proof (store_agree n b1 b2 i nul Hag) as Hrel.
  destruct (store b1 i nul) as [b1'|f] eqn:H1,
    (store b2 i nul) as [b2'|g] eqn:H2; simpl in *; try contradiction; auto.
  split; [exact Hrel|]. exists j. split; [exact Hj|].
  unfold store in H1. destruct (decide (i < length b1)%nat); [|discriminate].
  injection H1 as <-. destruct (decide (i = j)) as [->|Hne].
  - by apply list_lookup_insert_eq.
  - rewrite list_lookup_insert_ne by exact Hne. exact Hb.
Qed.

Lemma chars_length (s : string) : length (chars s) = String.length s.
Proof. induction s as [|c s IH]; simpl; [reflexivity | by rewrite IH]. Qed.

Lemma try_dirs_sim env pname segs b1 b2 :
  same_text b1 b2 →
  rel_outcome same_text (try_dirs env pname segs b1)
              (try_dirs env pname segs b2).
Proof.
  revert b1 b2. induction segs as [|seg rest IH]; intros b1 b2 Hst;
    [exact Hst|].
  cbn [try_dirs].
  eapply rel_bind.
  { apply (store_bytes_agree 0). apply agree_0.
    exact (same_text_length _ _ Hst). }
  intros a1 a2 Hag. simpl in Hag. rewrite chars_length in Hag.
  eapply (rel_bind (λ p1 p2, p1.2 = p2.2 ∧ agree p1.2 p1.1 p2.1)).
  { destruct (decide (String.length seg = 0)%nat) as [E|E].
    - rewrite E in Hag. eapply rel_bind; [exact (store_agree_next 0 _ _ _ Hag)|].
      intros c1 c2 Hc. simpl. auto.
    - simpl. auto. }
  intros [c1 l1] [c2 l2] [El Hc]. simpl in El, Hc. subst l2.
  eapply rel_bind; [exact (store_agree_next l1 _ _ _ Hc)|].
  intros d1 d2 Hd.
  eapply rel_bind; [exact (strcpy_at_same_text (S l1) _ _ pname Hd)|].
  intros e1 e2 He. rewrite (same_text_cstring _ _ He).
  destruct (cstring e2) as [name|f]; simpl; [|reflexivity].
  destruct (access_X env (text name)); [exact He|].
  eapply rel_bind; [exact (store_nul_same_text _ _ 0 He)|].
  intros g1 g2 Hg. exact (IH _ _ Hg).
Qed.

Lemma strip_name_eq (buf : list ascii) (lg : nat) :
  strip_name buf lg =
    (c ← load buf lg;
     if decide (c = "/"%char) then store buf lg nul
     else
       buf ← store buf lg nul;
       match lg with
       | O => Fault OutOfBounds
       | S lg' => strip_name buf lg'
       end).
Proof. destruct lg; reflexivity. Qed.

Lemma strip_name_sim n lg b1 b2 :
  agree n b1 b2 → terminated n b1 → (lg < n)%nat →
  rel_outcome same_text (strip_name b1 lg) (strip_name b2 lg).
Proof.
  revert b1 b2. induction lg as [|lg IH]; intros b1 b2 Hag Ht Hlg;
    rewrite !strip_name_eq; unfold load, rd;
    rewrite <- (agree_lookup n b1 b2 _ Hag Hlg);
    (destruct (b1 !! _) as [c|]; [|reflexivity]); simpl;
    (destruct (decide (c = "/"%char));
     [apply store_nul_same_text; exists n; auto|]);
    (eapply rel_bind; [exact (store_nul_terminated n _ _ _ Hag Ht)|]);
    intros a1 a2 [Ha Hta].
  - reflexivity.
  - apply IH; auto. lia.
Qed.

Lemma cstring_length_lt n b s :
  terminated n b → cstring b = Done s → (length s < n)%nat.
Proof.
  revert n s. induction b as [|c b IH]; intros n s (i & Hi & Hb) H.
  - discriminate.
  - simpl in H. destruct (decide (c = nul)).
    + injection H as <-. simpl. lia.
    + destruct i as [|i]; [simpl in Hb; congruence|].
      apply fmap_Done_inv in H as (s' & Hs' & ->).
      destruct n as [|n]; [lia|]. simpl.
      assert (length s' < n)%nat; [|lia].
      apply (IH n s'); [|exact Hs']. exists i. split; [lia | exact Hb].
Qed.

(** The result of a call does not depend on what the static buffer held
    before the call. *)
Lemma locate_sim env pname (w w' : world) :
  length (path_buf w) = length (path_buf w') →
  rel_outcome (λ p p', p.1 = p'.1 ∧ same_text (path_buf p.2) (path_buf p'.2))
              (gnuplot_get_program_path env pname w)
              (gnuplot_get_program_path env pname w').
Proof.
  intros Hlen. unfold gnuplot_get_program_path.
  eapply rel_bind; [exact (strcpy_at_same_text 0 _ _ _ (agree_0 _ _ Hlen))|].
  intros a1 a2 Ha. rewrite (same_text_cstring _ _ Ha).
  destruct (cstring a2) as [name|f]; simpl; [|reflexivity].
  destruct (access_X env (text name)).
  { eapply rel_bind.
    - exact (strcpy_at_same_text 0 _ _ "."
               (agree_0 _ _ (same_text_length _ _ Ha))).
    - intros c1 c2 Hc. simpl. auto. }
  eapply rel_bind; [exact (store_nul_same_text _ _ 0 Ha)|].
  intros c1 c2 Hc.
  eapply (rel_bind (λ p p', same_text p.1 p'.1)).
  { destruct (env_PATH env) as [path|].
    - eapply rel_bind; [exact (try_dirs_sim env pname _ _ _ Hc)|].
      intros d1 d2 Hd. exact Hd.
    - exact Hc. }
  intros [d1 v1] [d2 v2] Hd. simpl in Hd.
  rewrite (same_text_load0 _ _ Hd).
  destruct (load d2 0) as [c|f]; simpl; [|reflexivity].
  destruct (decide (c = nul)) as [Ec|Ec]; [simpl; auto|].
  pose proof Hd as (n & Hag & Ht).
  pose proof (cstring_length_lt n d1) as Hlt.
  rewrite <- (same_text_cstring _ _ Hd).
  destruct (cstring d1) as [s|f]; simpl; [|reflexivity].
  eapply rel_bind.
  - apply (strip_name_sim n); auto. specialize (Hlt s Ht eq_refl). lia.
  - intros e1 e2 He. simpl. auto.
Qed.

Lemma returned_ignores_buffer env pname (w w' : world) :
  length (path_buf w) = length (path_buf w') →
  returned env pname w = returned env pname w'.
Proof.
  intros Hlen. unfold returned.
  pose proof (locate_sim env pname w w' Hlen) as Hrel.
  destruct (gnuplot_get_program_path env pname w) as [[r v]|f],
    (gnuplot_get_program_path env pname w') as [[r' v']|g];
    simpl in *; try contradiction; [|congruence].
  destruct Hrel as [<- Hst]. destruct r; [reflexivity|]. simpl.
  rewrite (same_text_cstring _ _ Hst). reflexivity.
Qed.

Lemma try_dirs_length env pname segs b b' :
  try_dirs env pname segs b = Done b' → length b' = length b.
Proof.
  revert b. induction segs as [|seg rest IH]; intros b H.
  - injection H as <-. reflexivity.
  - cbn [try_dirs] in H. bind_step H as b1 H1.
    apply store_bytes_length in H1.
    bind_step H as [b2 l] H2.
    assert (length b2 = length b1) as Hb2.
    { destruct (decide (String.length seg = 0)%nat).
      - bind_step H2 as b2' H2'. injection H2 as <- <-.
        eapply store_length; eauto.
      - injection H2 as <- <-. reflexivity. }
    bind_step H as b3 H3. apply store_length in H3.
    bind_step H as b4 H4. apply store_bytes_length in H4.
    bind_step H as name Hname. destruct (access_X env (text name)).
    + injection H as <-. congruence.
    + bind_step H as b5 H5. apply store_length in H5. apply IH in H.
      congruence.
Qed.

Lemma strip_name_length lg b b' :
  strip_name b lg = Done b' → length b' = length b.
Proof.
  revert b. induction lg as [|lg IH]; intros b H;
    rewrite strip_name_eq in H; bind_step H as c Hc;
    (destruct (decide (c = "/"%char)); [eapply store_length; eauto|]);
    bind_step H as b1 H1; apply store_length in H1.
  - discriminate.
  - apply IH in H. congruence.
Qed.

(** A call touches the static buffer and stderr only, and the buffer keeps
    its size. *)
Lemma locate_frame env pname (w w1 : world) (r : retval) :
  gnuplot_get_program_path env pname w = Done (r, w1) →
  plot_ctrl w1 = plot_ctrl w ∧ fs w1 = fs w ∧ stdout w1 = stdout w ∧
  length (path_buf w1) = length (path_buf w).
Proof.
  unfold gnuplot_get_program_path. intros H.
  bind_step H as b1 H1. apply store_bytes_length in H1.
  bind_step H as name Hname.
  destruct (access_X env (text name)).
  { bind_step H as b2 H2. apply store_bytes_length in H2.
    injection H as <- <-. simpl. repeat split. congruence. }
  bind_step H as b2 H2. apply store_length in H2.
  bind_step H as [b3 v] H3.
  assert (length b3 = length b2 ∧ plot_ctrl v = plot_ctrl w ∧ fs v = fs w ∧
          stdout v = stdout w) as (Hb & Hp & Hf & Ho).
  { destruct (env_PATH env).
    - bind_step H3 as b3' H3'. injection H3 as <- <-.
      apply try_dirs_length in H3'. auto.
    - injection H3 as <- <-. auto. }
  bind_step H as c Hc. destruct (decide (c = nul)).
  { injection H as <- <-. simpl. repeat split; auto. congruence. }
  bind_step H as s Hs. bind_step H as b4 H4. apply strip_name_length in H4.
  injection H as <- <-. simpl. repeat split; auto. congruence.
Qed.

(** C10 as amended.  The locator keeps its result in one static buffer,
    which every call overwrites.  What a call returns (null, or the
    directory text read through the returned pointer) is decided by the
    name, PATH and the [access] answers, not by what the buffer held
    before: started on any other contents of the buffer it returns the
    same.  Hence a second call with the same name and environment returns
    what the first returned, and the text behind the first call's pointer
    reads the same after it.  The call changes neither the session handle
    nor the staged files. *)
Theorem C10_locator_static_buffer env pname (w w1 : world) (r : retval) :
  gnuplot_get_program_path env pname w = Done (r, w1) →
  (∀ b, length b = length (path_buf w) →
        returned env pname (with_buf w b) = returned env pname w) ∧
  (∃ w2, gnuplot_get_program_path env pname w1 = Done (r, w2) ∧
         pointee r w2 = pointee r w1) ∧
  plot_ctrl w1 = plot_ctrl w ∧ fs w1 = fs w.
Proof.
  intros H. destruct (locate_frame _ _ _ _ _ H) as (Hp & Hf & _ & Hlen).
  split; [|split; [|auto]].
  - intros b Hb. apply returned_ignores_buffer. simpl. exact Hb.
  - pose proof (locate_sim env pname w w1 (eq_sym Hlen)) as Hrel.
    rewrite H in Hrel.
    destruct (gnuplot_get_program_path env pname w1) as [[r' w2]|f];
      simpl in Hrel; [|contradiction].
    destruct Hrel as [<- Hst]. exists w2. split; [reflexivity|].
    destruct r; [reflexivity|]. simpl.
    rewrite (same_text_cstring _ _ Hst). reflexivity.
Qed.

(* ================================================================== *)
(** * Further properties of the code *)

(** ** Commands and labels *)

Lemma percent_free_app (a b : string) :
  percent_free (a +:+ b) = percent_free a && percent_free b.
Proof.
  induction a as [|c a IH]; [reflexivity|].
  change (negb (Ascii.eqb c "%") && percent_free (a +:+ b)
          = negb (Ascii.eqb c "%") && percent_free a && percent_free b).
  rewrite IH. apply andb_assoc.
Qed.

Lemma vsprintf0_plain_prefix (pre s : string) :
  percent_free pre = true →
  vsprintf0 (pre +:+ s) = (String.append pre) <$> vsprintf0 s.
Proof.
  induction pre as [|c pre IH]; intros Hp.
  - change (vsprintf0 s = (λ x, x) <$> vsprintf0 s).
    destruct (vsprintf0 s); reflexivity.
  - simpl in Hp. apply andb_true_iff in Hp as [Hc Hp].
    apply negb_true_iff in Hc.
    change (vsprintf0 (String c (pre +:+ s))
            = String.append (String c pre) <$> vsprintf0 s).
    simpl. rewrite Hc, (IH Hp). destruct (vsprintf0 s); reflexivity.
Qed.

Lemma vsprintf0_plain (s : string) :
  percent_free s = true → vsprintf0 s = Some s.
Proof.
  intros Hp. rewrite <- (append_empty_r s) at 1.
  rewrite (vsprintf0_plain_prefix s EmptyString Hp). simpl.
  by rewrite append_empty_r.
Qed.

(** A faulty conversion met before the array is full is what goes wrong
    first. *)
Lemma vsprintf_bad (pre bad : string) (room : nat) :
  percent_free pre = true → (String.length pre ≤ room)%nat →
  (bad = "%" ∨ ∃ x rest, x ≠ "%"%char ∧ bad = String "%" (String x rest)) →
  vsprintf room (pre +:+ bad) = Fault BadFormat.
Proof.
  intros Hp Hlen Hbad. revert room Hlen.
  induction pre as [|c pre IH]; intros room Hlen.
  - change (EmptyString +:+ bad) with bad.
    destruct Hbad as [->|(x & rest & Hx & ->)]; [reflexivity|].
    cbn [vsprintf]. change (Ascii.eqb "%" "%") with true. cbv iota.
    destruct (Ascii.eqb_spec x "%"); [contradiction | reflexivity].
  - simpl in Hp. apply andb_true_iff in Hp as [Hc Hp].
    apply negb_true_iff in Hc.
    destruct room as [|room]; [simpl in Hlen; lia|].
    change (String c pre +:+ bad) with (String c (pre +:+ bad)).
    cbn [vsprintf]. rewrite Hc, (IH Hp room) by (simpl in Hlen; lia).
    reflexivity.
Qed.

(** A text without ['%'] formatted into [cmd] and handed to
    [gnuplot_cmd]. *)
Lemma sprintf_cmd_plain (text : string) (w : world) (c : gnuplot_ctrl) :
  plot_ctrl w = Live c → p_open (gnucmd c) = true →
  percent_free text = true →
  (String.length text + 1 < GP_CMD_SIZE)%nat →
  (cmd ← sprintf GP_CMD_SIZE text; gnuplot_cmd cmd w)
    = Done (with_ctrl w (Live (after_cmd c text))).
Proof.
  intros Hc Ho Hp Hlen. rewrite sprintf_fits by lia. rewrite bind_Done.
  rewrite (gnuplot_cmd_live _ _ _ _ Hc (vsprintf0_plain _ Hp) Hlen), Ho.
  reflexivity.
Qed.

Lemma sprintf_cmd_overflow (text : string) (w : world) :
  percent_free text = true →
  (GP_CMD_SIZE ≤ String.length text + 1)%nat →
  (cmd ← sprintf GP_CMD_SIZE text; gnuplot_cmd cmd w) = Fault OutOfBounds.
Proof.
  intros Hp Hlen.
  destruct (decide (String.length text < GP_CMD_SIZE)%nat) as [Hl|Hl].
  - rewrite sprintf_fits by exact Hl. rewrite bind_Done.
    exact (gnuplot_cmd_overflow _ _ _ (vsprintf0_plain _ Hp) Hlen).
  - rewrite sprintf_over by lia. reflexivity.
Qed.

Lemma sprintf_send_overflow (text : string) (w : world) :
  percent_free text = true →
  (GP_CMD_SIZE ≤ String.length text + 1)%nat →
  (cmd ← sprintf GP_CMD_SIZE text; send_and_count cmd w)
    = Fault OutOfBounds.
Proof.
  intros Hp Hlen.
  destruct (decide (String.length text < GP_CMD_SIZE)%nat) as [Hl|Hl].
  - rewrite sprintf_fits by exact Hl. rewrite bind_Done.
    rewrite (gnuplot_cmd_overflow _ _ _ (vsprintf0_plain _ Hp) Hlen).
    reflexivity.
  - rewrite sprintf_over by lia. reflexivity.
Qed.

(** X1.  [gnuplot_cmd] called without variadic arguments on a live session
    with an open pipe.  A text without '%' that fits [local_cmd] with the
    line feed and the NUL is sent as it is, followed by the line feed, and
    nothing else in the session changes; one that does not fit overruns
    [local_cmd].  In a text whose only '%' are one pair "%%", the pair is
    sent as a single '%'.  A '%' followed by another character, or ending
    the text, met before the array is full, is a conversion without its
    argument, and nothing is sent. *)
Theorem X1_cmd_text (w : world) (c : gnuplot_ctrl) (pre post : string) :
  plot_ctrl w = Live c → p_open (gnucmd c) = true →
  percent_free pre = true → percent_free post = true →
  ((String.length pre + 1 < GP_CMD_SIZE)%nat →
   gnuplot_cmd pre w = Done (with_ctrl w (Live (after_cmd c pre)))) ∧
  ((GP_CMD_SIZE ≤ String.length pre + 1)%nat →
   gnuplot_cmd pre w = Fault OutOfBounds) ∧
  ((String.length pre + String.length post + 2 < GP_CMD_SIZE)%nat →
   gnuplot_cmd (pre +:+ "%%" +:+ post) w
   = Done (with_ctrl w (Live (after_cmd c (pre +:+ "%" +:+ post))))) ∧
  ((String.length pre ≤ GP_CMD_SIZE)%nat →
   gnuplot_cmd (pre +:+ "%") w = Fault BadFormat ∧
   (∀ x rest, x ≠ "%"%char →
              gnuplot_cmd (pre +:+ String "%" (String x rest)) w
              = Fault BadFormat)).
Proof.
  intros Hc Ho Hpre Hpost. split; [|split; [|split]].
  - intros Hlen.
    rewrite (gnuplot_cmd_live _ _ _ _ Hc (vsprintf0_plain _ Hpre) Hlen), Ho.
    reflexivity.
  - intros Hlen.
    exact (gnuplot_cmd_overflow _ _ _ (vsprintf0_plain _ Hpre) Hlen).
  - intros Hlen.
    assert (vsprintf0 (pre +:+ "%%" +:+ post) = Some (pre +:+ "%" +:+ post))
      as Hfmt.
    { rewrite (vsprintf0_plain_prefix _ _ Hpre).
      change (vsprintf0 ("%%" +:+ post))
        with (String "%" <$> vsprintf0 post).
      rewrite (vsprintf0_plain _ Hpost). reflexivity. }
    rewrite (gnuplot_cmd_live _ _ _ _ Hc Hfmt), Ho; [reflexivity|].
    rewrite !length_append. simpl. lia.
  - intros Hlen. split.
    + unfold gnuplot_cmd. rewrite vsprintf_bad; auto.
    + intros x rest Hx. unfold gnuplot_cmd. rewrite vsprintf_bad; eauto.
Qed.

(** X2.  [gnuplot_set_title], [gnuplot_set_xlabel] and [gnuplot_set_ylabel]
    on a live session with an open pipe, given a text without '%': when the
    command fits the buffers [cmd] and [local_cmd] with its line feed and
    NUL, each sends exactly one line, the title between single quotes and
    a label between double quotes, and leaves the counters, the registry,
    the style and the files as they were; when it does not fit, the call
    overruns a buffer.  Given a null pointer each of them hands it to
    [%s], and nothing is sent. *)
Theorem X2_labels (w : world) (c : gnuplot_ctrl) (s : string) :
  plot_ctrl w = Live c → p_open (gnucmd c) = true →
  percent_free s = true →
  ((String.length s + 13 < GP_CMD_SIZE)%nat →
   gnuplot_set_title (Some s) w
   = Done (with_ctrl w (Live (after_cmd c ("set title '" +:+ s +:+ "'"))))) ∧
  ((String.length s + 14 < GP_CMD_SIZE)%nat →
   gnuplot_set_xlabel (Some s) w
   = Done (with_ctrl w (Live (after_cmd c ("set xlabel " +:+ DQ +:+ s
                                           +:+ DQ)))) ∧
   gnuplot_set_ylabel (Some s) w
   = Done (with_ctrl w (Live (after_cmd c ("set ylabel " +:+ DQ +:+ s
                                           +:+ DQ))))) ∧
  ((GP_CMD_SIZE ≤ String.length s + 13)%nat →
   gnuplot_set_title (Some s) w = Fault OutOfBounds) ∧
  ((GP_CMD_SIZE ≤ String.length s + 14)%nat →
   gnuplot_set_xlabel (Some s) w = Fault OutOfBounds ∧
   gnuplot_set_ylabel (Some s) w = Fault OutOfBounds) ∧
  gnuplot_set_title None w = Fault NullString ∧
  gnuplot_set_xlabel None w = Fault NullString ∧
  gnuplot_set_ylabel None w = Fault NullString.
Proof.
  intros Hc Ho Hs.
  assert (∀ a b, percent_free a = true → percent_free b = true →
                 percent_free (a +:+ s +:+ b) = true) as Hplain.
  { intros a b Ha Hb. rewrite !percent_free_app, Ha, Hs, Hb. reflexivity. }
  assert (∀ a b, String.length (a +:+ s +:+ b)
                 = (String.length a + String.length s + String.length b)%nat)
    as Hlen by (intros a b; rewrite !length_append; lia).
  split; [|split; [|split; [|split]]].
  - intros Hfit. unfold gnuplot_set_title. cbn [percent_s].
    rewrite bind_Done. apply sprintf_cmd_plain; auto.
    rewrite Hlen. simpl. lia.
  - intros Hfit. split.
    + unfold gnuplot_set_xlabel. cbn [percent_s]. rewrite bind_Done.
      apply (sprintf_cmd_plain (("set xlabel " +:+ DQ) +:+ s +:+ DQ));
        auto.
      rewrite Hlen. simpl. lia.
    + unfold gnuplot_set_ylabel. cbn [percent_s]. rewrite bind_Done.
      apply (sprintf_cmd_plain (("set ylabel " +:+ DQ) +:+ s +:+ DQ));
        auto.
      rewrite Hlen. simpl. lia.
  - intros Hover. unfold gnuplot_set_title. cbn [percent_s].
    rewrite bind_Done. apply sprintf_cmd_overflow; auto.
    rewrite Hlen. simpl. lia.
  - intros Hover. split.
    + unfold gnuplot_set_xlabel. cbn [percent_s]. rewrite bind_Done.
      apply (sprintf_cmd_overflow (("set xlabel " +:+ DQ) +:+ s +:+ DQ));
        auto.
      rewrite Hlen. simpl. lia.
    + unfold gnuplot_set_ylabel. cbn [percent_s]. rewrite bind_Done.
      apply (sprintf_cmd_overflow (("set ylabel " +:+ DQ) +:+ s +:+ DQ));
        auto.
      rewrite Hlen. simpl. lia.
  - repeat split.
Qed.

(** ** Reset and close *)

Lemma lookup_remove_all (names : list string) (f : gmap string string)
    (k : string) :
  remove_all names f !! k = if decide (k ∈ names) then None else f !! k.
Proof.
  unfold remove_all. revert f. induction names as [|n names IH]; intros f.
  - cbn [foldl]. rewrite decide_False by apply not_elem_of_nil. reflexivity.
  - cbn [foldl]. rewrite IH. destruct (decide (k ∈ names)) as [Hin|Hout].
    + rewrite decide_True by (apply elem_of_cons; auto). reflexivity.
    + destruct (decide (k = n)) as [->|Hne].
      * rewrite decide_True by (apply elem_of_cons; auto).
        apply lookup_delete_eq.
      * rewrite decide_False
          by (rewrite elem_of_cons; intros [?|?]; contradiction).
        apply lookup_delete_ne. congruence.
Qed.

(** X3.  [gnuplot_resetplot] on a live session removes every file named in
    the registry and no other file, empties the registry and zeroes the
    overlay counter; the style and the pipe, with everything sent so far,
    are as before. *)
Theorem X3_resetplot_removes_registry (w : world) (c : gnuplot_ctrl) :
  plot_ctrl w = Live c →
  ∃ w' c', gnuplot_resetplot w = Done w' ∧ plot_ctrl w' = Live c' ∧
           (∀ name, fs w' !! name
                    = if decide (name ∈ registry c) then None
                      else fs w !! name) ∧
           registry c' = [] ∧ nplots c' = 0 ∧
           pstyle c' = pstyle c ∧ gnucmd c' = gnucmd c ∧
           stderr w' = stderr w.
Proof.
  intros Hc. rewrite (gnuplot_resetplot_live _ _ Hc).
  eexists _, _. split; [reflexivity|]. split; [reflexivity|]. simpl.
  split; [|repeat split]. intros name. apply lookup_remove_all.
Qed.

(** A call on a session whose control structure was freed. *)
Lemma this_ctrl_freed (w : world) :
  plot_ctrl w = Freed → this_ctrl w = Fault UseAfterFree.
Proof. unfold this_ctrl. intros ->. reflexivity. Qed.

(** X4.  [gnuplot_close] on a live session with an open pipe, when
    [pclose] does not return -1: every file named in the registry is
    removed and no other, and the control structure is freed while
    [plot_ctrl] still points to it.  Every later call that reaches the
    structure is a use after free: sending a command without '%' that
    fits its buffer, setting the style, resetting, closing again, plotting
    a slope or an equation with a title that fits the title buffer, or
    plotting a non-null series of at least one point.  A command without
    '%' that does not fit its buffer, and a slope or an equation whose
    title does not fit the title buffer, overrun the buffer before the
    structure is reached. *)
Theorem X4_close_then_use (r : Z) (w : world) (c : gnuplot_ctrl) :
  plot_ctrl w = Live c → p_open (gnucmd c) = true → r ≠ -1 →
  ∃ w', gnuplot_close r w = Done w' ∧ plot_ctrl w' = Freed ∧
        (∀ name, fs w' !! name
                 = if decide (name ∈ registry c) then None
                   else fs w !! name) ∧
        (∀ cmd, percent_free cmd = true →
                (String.length cmd + 1 < GP_CMD_SIZE)%nat →
                gnuplot_cmd cmd w' = Fault UseAfterFree) ∧
        (∀ s, gnuplot_setstyle (Some s) w' = Fault UseAfterFree) ∧
        gnuplot_resetplot w' = Fault UseAfterFree ∧
        (∀ r', gnuplot_close r' w' = Fault UseAfterFree) ∧
        (∀ a b t,
            match t with
            | Some s => (String.length s < GP_TITLE_SIZE)%nat
            | None => True
            end →
            gnuplot_plot_slope a b t w' = Fault UseAfterFree) ∧
        (∀ e t,
            match t with
            | Some s => (String.length s < GP_TITLE_SIZE)%nat
            | None => True
            end →
            gnuplot_plot_equation e t w' = Fault UseAfterFree) ∧
        (∀ st d n t, 1 ≤ n →
                     gnuplot_plot_x st (Some d) n t w' = Fault UseAfterFree) ∧
        (∀ st x y n t, 1 ≤ n →
                       gnuplot_plot_xy st (Some x) (Some y) n t w'
                       = Fault UseAfterFree) ∧
        (∀ cmd, percent_free cmd = true →
                (GP_CMD_SIZE ≤ String.length cmd + 1)%nat →
                gnuplot_cmd cmd w' = Fault OutOfBounds) ∧
        (∀ a b e s, (GP_TITLE_SIZE ≤ String.length s)%nat →
                    gnuplot_plot_slope a b (Some s) w' = Fault OutOfBounds ∧
                    gnuplot_plot_equation e (Some s) w'
                    = Fault OutOfBounds).
Proof.
  intros Hc Ho Hr. rewrite (gnuplot_close_live _ _ _ Hc Ho). simpl.
  apply Z.eqb_neq in Hr. rewrite Hr.
  eexists. split; [reflexivity|]. split; [reflexivity|]. simpl.
  split; [intros name; apply lookup_remove_all|].
  repeat split.
  - intros cmd Hp Hlen. unfold gnuplot_cmd, strcat.
    rewrite (vsprintf_Some _ _ _ (vsprintf0_plain _ Hp)).
    rewrite sprintf_fits by lia. rewrite bind_Done.
    rewrite sprintf_fits by (rewrite length_append; simpl; lia).
    reflexivity.
  - intros s. unfold gnuplot_setstyle. simpl. case_match; reflexivity.
  - intros a b t Ht. unfold gnuplot_plot_slope, strcpy.
    destruct t as [s|]; [rewrite sprintf_fits by exact Ht|]; reflexivity.
  - intros e t Ht. unfold gnuplot_plot_equation, strcpy.
    destruct t as [s|]; [rewrite sprintf_fits by exact Ht|]; reflexivity.
  - intros st d n t Hn. unfold gnuplot_plot_x. simpl.
    rewrite (proj2 (Z.ltb_ge n 1)) by lia. reflexivity.
  - intros st x y n t Hn. unfold gnuplot_plot_xy. simpl.
    rewrite (proj2 (Z.ltb_ge n 1)) by lia. reflexivity.
  - intros cmd Hp Hlen.
    exact (gnuplot_cmd_overflow _ _ _ (vsprintf0_plain _ Hp) Hlen).
  - unfold gnuplot_plot_slope, strcpy. rewrite sprintf_over by assumption.
    reflexivity.
  - unfold gnuplot_plot_equation, strcpy. rewrite sprintf_over by assumption.
    reflexivity.
Qed.

(** ** The series builders *)

Lemma os_write_other st i (line name key : string)
    (f : gmap string string) :
  key ≠ name → (os_write st i line name f).2 !! key = f !! key.
Proof.
  intros Hne. unfold os_write. simpl. rewrite lookup_alter.
  rewrite decide_False by congruence. reflexivity.
Qed.

Lemma os_write_same st i (line name : string) (f : gmap string string) :
  is_Some (f !! name) → is_Some ((os_write st i line name f).2 !! name).
Proof.
  intros [v Hv]. unfold os_write. simpl. rewrite lookup_alter.
  rewrite decide_True by reflexivity. rewrite Hv. simpl. eauto.
Qed.

(** Whatever [write] returns, the data loop of [gnuplot_plot_x] runs to its
    end and touches the staged file only. *)
Lemma write_x_any st (name : string) (d : list double) (k i : nat)
    (f : gmap string string) :
  (i + k ≤ length d)%nat →
  ∃ f', write_x st name d k i f = Done f' ∧
        (∀ key, key ≠ name → f' !! key = f !! key) ∧
        (is_Some (f !! name) → is_Some (f' !! name)).
Proof.
  revert i f. induction k as [|k IH]; intros i f Hlen.
  - exists f. simpl. auto.
  - destruct (lookup_lt_is_Some_2 d i) as [v Hv]; [lia|].
    cbn [write_x]. unfold rd. rewrite Hv, bind_Done.
    destruct (IH (S i) (os_write st i (fmt_g v +:+ LF) name f).2)
      as (f' & Hrun & Hother & Hsame); [lia|].
    exists f'. split; [exact Hrun|]. split.
    + intros key Hne. rewrite (Hother key Hne). by apply os_write_other.
    + intros Hs. apply Hsame. by apply os_write_same.
Qed.

Lemma write_xy_complete st (name : string) (x y : list double) (k i : nat)
    (f : gmap string string) (cur : string) :
  (∀ j line, write_ret st j line = Z.of_nat (String.length line)) →
  short_lines (xy_lines (take k (drop i x)) (take k (drop i y))) →
  f !! name = Some cur →
  (i + k ≤ length x)%nat → (i + k ≤ length y)%nat →
  write_xy st name x y k i f =
    Done (None,
          <[name := cur +:+ lines_of (xy_lines (take k (drop i x))
                                               (take k (drop i y)))]> f).
Proof.
  intros Hwr. revert i f cur.
  induction k as [|k IH]; intros i f cur Hshort Hl Hx Hy.
  - simpl. rewrite append_empty_r, insert_id by exact Hl. reflexivity.
  - destruct (lookup_lt_is_Some_2 x i) as [a Ha]; [lia|].
    destruct (lookup_lt_is_Some_2 y i) as [b Hb]; [lia|].
    rewrite (drop_S x a i Ha), (drop_S y b i Hb) in Hshort |- *.
    cbn [take xy_lines zip_with] in Hshort |- *.
    apply Forall_cons in Hshort as [Hline Hshort].
    cbv beta in Hline. rewrite !append_assoc in Hline.
    cbn [write_xy]. unfold rd.
    rewrite Ha, Hb, !bind_Done.
    rewrite (os_write_complete st i _ name cur f (Hwr _ _) Hl).
    rewrite Z.mod_small by (split; [lia | exact Hline]).
    rewrite Z.eqb_refl.
    rewrite (IH (S i) _ (cur +:+ fmt_g a +:+ " " +:+ fmt_g b +:+ LF));
      [|exact Hshort | apply lookup_insert_eq | lia | lia].
    rewrite insert_insert_eq. cbn [lines_of foldr].
    rewrite !append_assoc. reflexivity.
Qed.

(** The data loop of [gnuplot_plot_xy] stops at the first short write. *)
Lemma write_xy_short st (name : string) (x y : list double) (k i j : nat)
    (f : gmap string string) (cur : string) (a b : double) :
  (∀ m line, (m < j)%nat →
             write_ret st m line = Z.of_nat (String.length line)) →
  short_lines (xy_lines (take (j - i) (drop i x)) (take (j - i) (drop i y))) →
  x !! j = Some a → y !! j = Some b →
  (write_ret st j (fmt_g a +:+ " " +:+ fmt_g b +:+ LF)) mod UINT_MOD
    ≠ Z.of_nat (String.length (fmt_g a +:+ " " +:+ fmt_g b +:+ LF)) →
  f !! name = Some cur → (i ≤ j < i + k)%nat →
  write_xy st name x y k i f =
    Done (Some (fmt_g a +:+ " " +:+ fmt_g b +:+ LF),
          <[name := cur
                    +:+ lines_of (xy_lines (take (j - i) (drop i x))
                                           (take (j - i) (drop i y)))
                    +:+ substring 0
                          (Z.to_nat (write_ret st j (fmt_g a +:+ " " +:+
                                                     fmt_g b +:+ LF)))
                          (fmt_g a +:+ " " +:+ fmt_g b +:+ LF)]> f).
Proof.
  intros Hwr. revert i f cur.
  induction k as [|k IH]; intros i f cur Hshort Ha Hb Hbad Hl Hj; [lia|].
  destruct (decide (i = j)) as [->|Hne].
  - rewrite Nat.sub_diag. cbn [take xy_lines zip_with lines_of foldr].
    cbn [write_xy]. unfold rd. rewrite Ha, Hb, !bind_Done.
    unfold os_write. apply Z.eqb_neq in Hbad. rewrite Hbad.
    f_equal. f_equal. apply map_eq. intros key.
    rewrite lookup_alter, lookup_insert.
    destruct (decide (name = key)) as [<-|Hk]; [|reflexivity].
    rewrite Hl. reflexivity.
  - destruct (lookup_lt_is_Some_2 x i) as [a' Ha'].
    { apply lookup_lt_Some in Ha. lia. }
    destruct (lookup_lt_is_Some_2 y i) as [b' Hb'].
    { apply lookup_lt_Some in Hb. lia. }
    replace (j - i)%nat with (S (j - S i)) in Hshort |- * by lia.
    rewrite (drop_S x a' i Ha'), (drop_S y b' i Hb') in Hshort |- *.
    cbn [take xy_lines zip_with] in Hshort |- *.
    apply Forall_cons in Hshort as [Hline Hshort].
    cbv beta in Hline. rewrite !append_assoc in Hline.
    cbn [write_xy]. unfold rd.
    rewrite Ha', Hb', !bind_Done.
    assert (i < j)%nat as Hij by lia.
    rewrite (os_write_complete st i _ name cur f (Hwr _ _ Hij) Hl).
    rewrite Z.mod_small by (split; [lia | exact Hline]).
    rewrite Z.eqb_refl.
    rewrite (IH (S i) _ (cur +:+ fmt_g a' +:+ " " +:+ fmt_g b' +:+ LF));
      [|exact Hshort | exact Ha | exact Hb | exact Hbad
       | apply lookup_insert_eq | lia].
    rewrite insert_insert_eq. cbn [lines_of foldr].
    rewrite !append_assoc. reflexivity.
Qed.

(** The world after a call of [gnuplot_plot_xy] whose writes all went
    through. *)
Lemma gnuplot_plot_xy_complete st (xv yv : list double) (n : Z)
    (title : option string) (w : world) (c : gnuplot_ctrl)
    (name local_cmd : string) (f0 : gmap string string) :
  GP_MAX_TMP_FILES ≤ INT_MAX →
  plot_ctrl w = Live c → p_open (gnucmd c) = true →
  1 ≤ n → (Z.to_nat n ≤ length xv)%nat → (Z.to_nat n ≤ length yv)%nat →
  0 ≤ ntmp c < GP_MAX_TMP_FILES - 1 →
  mkstemp st (fs w) = Some (name, f0) →
  (∀ i line, write_ret st i line = Z.of_nat (String.length line)) →
  short_lines (xy_lines (take (Z.to_nat n) xv) (take (Z.to_nat n) yv)) →
  vsprintf0 (series_line c name title) = Some local_cmd →
  (String.length (series_line c name title) < GP_CMD_SIZE)%nat →
  (String.length local_cmd + 1 < GP_CMD_SIZE)%nat →
  nplots c < INT_MAX →
  gnuplot_plot_xy st (Some xv) (Some yv) n title w =
    Done (with_ctrl
            (with_fs w (<[name := lines_of (xy_lines (take (Z.to_nat n) xv)
                                                     (take (Z.to_nat n) yv))]>
                          (fs w)))
            (Live (plotted (staged c name) local_cmd))).
Proof.
  intros Hmax Hc Ho Hn1 Hx Hy Hcap Hmk Hwr Hshort Hfmt Hfit Hlen Hnp.
  destruct (mkstemp_Some _ _ _ _ Hmk) as [Hfree ->].
  unfold gnuplot_plot_xy. rewrite Hc.
  rewrite (proj2 (Z.ltb_ge n 1)) by lia.
  unfold this_ctrl. rewrite Hc. simpl.
  rewrite (proj2 (Z.eqb_neq _ _)) by lia. rewrite Hmk.
  unfold incr_int. rewrite (proj2 (Z.ltb_lt (ntmp c) INT_MAX)) by lia.
  simpl.
  rewrite (write_xy_complete st name xv yv (Z.to_nat n) 0 _ EmptyString Hwr)
    by (first [exact Hshort | apply lookup_insert_eq | lia]).
  simpl.
  change (series_line _ name title) with (series_line c name title).
  rewrite (sprintf_fits _ _ Hfit), bind_Done.
  rewrite (send_and_count_live (series_line c name title) local_cmd _
             (staged c name)) by first [reflexivity | assumption].
  simpl. rewrite Ho.
  rewrite (proj2 (Z.ltb_lt (nplots c) INT_MAX)) by lia.
  rewrite insert_insert_eq, !drop_0. reflexivity.
Qed.

(** X5.  [gnuplot_plot_xy] on a live session with an open pipe and
    counters below [INT_MAX], arrays of at least [n >= 1] entries, room in
    the registry, a temporary file created under [name], writes that are
    all accepted in full, lines whose length fits an [unsigned int], and a
    command line that holds no conversion specification and fits, with
    its line feed, the buffers of [GP_CMD_SIZE] bytes: the call returns;
    the one file added holds the [n] lines [%g %g] of the first [n] points
    in order (entries past [n] are not read); the name is registered, one
    command is sent and counted, and nothing is printed on the error
    stream. *)
Theorem X5_plot_xy_stages_points st (xv yv : list double) (n : Z)
    (title : option string) (w : world) (c : gnuplot_ctrl)
    (name local_cmd : string) (f0 : gmap string string) :
  GP_MAX_TMP_FILES ≤ INT_MAX →
  plot_ctrl w = Live c → p_open (gnucmd c) = true →
  1 ≤ n → (Z.to_nat n ≤ length xv)%nat → (Z.to_nat n ≤ length yv)%nat →
  0 ≤ ntmp c < GP_MAX_TMP_FILES - 1 →
  mkstemp st (fs w) = Some (name, f0) →
  (∀ i line, write_ret st i line = Z.of_nat (String.length line)) →
  short_lines (xy_lines (take (Z.to_nat n) xv) (take (Z.to_nat n) yv)) →
  vsprintf0 (series_line c name title) = Some local_cmd →
  (String.length (series_line c name title) < GP_CMD_SIZE)%nat →
  (String.length local_cmd + 1 < GP_CMD_SIZE)%nat →
  nplots c < INT_MAX →
  ∃ w' c',
    gnuplot_plot_xy st (Some xv) (Some yv) n title w = Done w' ∧
    plot_ctrl w' = Live c' ∧
    fs w !! name = None ∧
    fs w' = <[name := lines_of (xy_lines (take (Z.to_nat n) xv)
                                         (take (Z.to_nat n) yv))]> (fs w) ∧
    length (xy_lines (take (Z.to_nat n) xv) (take (Z.to_nat n) yv))
      = Z.to_nat n ∧
    registry c' = registry c ++ [name] ∧
    ntmp c' = ntmp c + 1 ∧
    nplots c' = nplots c + 1 ∧
    p_sent (gnucmd c') = p_sent (gnucmd c) ++ [local_cmd +:+ LF] ∧
    pstyle c' = pstyle c ∧
    stderr w' = stderr w.
Proof.
  intros Hmax Hc Ho Hn1 Hx Hy Hcap Hmk Hwr Hshort Hfmt Hfit Hlen Hnp.
  rewrite (gnuplot_plot_xy_complete st xv yv n title w c name local_cmd f0)
    by assumption.
  eexists _, _. split; [reflexivity|]. split; [reflexivity|]. simpl.
  split; [exact (proj1 (mkstemp_Some _ _ _ _ Hmk))|].
  split; [reflexivity|]. split.
  { unfold xy_lines. rewrite length_zip_with, !length_take. lia. }
  split; [apply (registry_staged c name); lia|].
  repeat split.
Qed.

(** X6.  [gnuplot_plot_xy] gives the plot up at the first short write: when
    the writes of the points before [j] are accepted in full and the write
    of point [j < n] is not, the call returns after printing
    [Write failed: ] and the line on the error stream; the temporary file
    stays registered and holds the lines before [j] and the part of line
    [j] that was written; no command is sent and the overlay counter is
    unchanged. *)
Theorem X6_plot_xy_short_write st (xv yv : list double) (n : Z) (j : nat)
    (a b : double) (title : option string) (w : world) (c : gnuplot_ctrl)
    (name : string) (f0 : gmap string string) :
  GP_MAX_TMP_FILES ≤ INT_MAX →
  plot_ctrl w = Live c →
  0 ≤ ntmp c < GP_MAX_TMP_FILES - 1 →
  mkstemp st (fs w) = Some (name, f0) →
  (j < Z.to_nat n)%nat → xv !! j = Some a → yv !! j = Some b →
  (∀ m line, (m < j)%nat →
             write_ret st m line = Z.of_nat (String.length line)) →
  short_lines (xy_lines (take j xv) (take j yv)) →
  (write_ret st j (fmt_g a +:+ " " +:+ fmt_g b +:+ LF)) mod UINT_MOD
    ≠ Z.of_nat (String.length (fmt_g a +:+ " " +:+ fmt_g b +:+ LF)) →
  ∃ w' c',
    gnuplot_plot_xy st (Some xv) (Some yv) n title w = Done w' ∧
    plot_ctrl w' = Live c' ∧
    stderr w' = stderr w ++ ["Write failed: " +:+ fmt_g a +:+ " "
                             +:+ fmt_g b +:+ LF] ∧
    fs w' = <[name := lines_of (xy_lines (take j xv) (take j yv))
                      +:+ substring 0
                            (Z.to_nat (write_ret st j
                               (fmt_g a +:+ " " +:+ fmt_g b +:+ LF)))
                            (fmt_g a +:+ " " +:+ fmt_g b +:+ LF)]> (fs w) ∧
    registry c' = registry c ++ [name] ∧
    ntmp c' = ntmp c + 1 ∧
    nplots c' = nplots c ∧
    gnucmd c' = gnucmd c ∧
    pstyle c' = pstyle c.
Proof.
  intros Hmax Hc Hcap Hmk Hj Ha Hb Hwr Hshort Hbad.
  destruct (mkstemp_Some _ _ _ _ Hmk) as [Hfree ->].
  unfold gnuplot_plot_xy. rewrite Hc.
  rewrite (proj2 (Z.ltb_ge n 1)) by lia.
  unfold this_ctrl. rewrite Hc. simpl.
  rewrite (proj2 (Z.eqb_neq _ _)) by lia. rewrite Hmk.
  unfold incr_int. rewrite (proj2 (Z.ltb_lt (ntmp c) INT_MAX)) by lia.
  simpl.
  rewrite (write_xy_short st name xv yv (Z.to_nat n) 0 j _ EmptyString a b
             Hwr);
    [| rewrite Nat.sub_0_r, !drop_0; exact Hshort | exact Ha | exact Hb
     | exact Hbad | apply lookup_insert_eq | lia ].
  simpl. rewrite Nat.sub_0_r, !drop_0.
  eexists _, _. split; [reflexivity|]. split; [reflexivity|]. simpl.
  split; [reflexivity|]. split.
  { rewrite insert_insert_eq. reflexivity. }
  split; [apply (registry_staged c name); lia|].
  repeat split.
Qed.

(** X7.  [gnuplot_plot_x] does not look at what [write] returns: on a live
    session with an open pipe and counters below [INT_MAX], an array of at
    least [n >= 1] entries, room in the registry, a temporary file created
    under [name], and a command line that holds no conversion
    specification and fits, with its line feed, the buffers of
    [GP_CMD_SIZE] bytes, the command is sent and counted and the name
    registered whatever each write returned (short writes and failures
    included); every other file is left as it was. *)
Theorem X7_plot_x_ignores_write_results st (dv : list double) (n : Z)
    (title : option string) (w : world) (c : gnuplot_ctrl)
    (name local_cmd : string) (f0 : gmap string string) :
  GP_MAX_TMP_FILES ≤ INT_MAX →
  plot_ctrl w = Live c → p_open (gnucmd c) = true →
  1 ≤ n → (Z.to_nat n ≤ length dv)%nat →
  0 ≤ ntmp c < GP_MAX_TMP_FILES - 1 →
  mkstemp st (fs w) = Some (name, f0) →
  vsprintf0 (series_line c name title) = Some local_cmd →
  (String.length (series_line c name title) < GP_CMD_SIZE)%nat →
  (String.length local_cmd + 1 < GP_CMD_SIZE)%nat →
  nplots c < INT_MAX →
  ∃ w' c',
    gnuplot_plot_x st (Some dv) n title w = Done w' ∧
    plot_ctrl w' = Live c' ∧
    is_Some (fs w' !! name) ∧
    (∀ key, key ≠ name → fs w' !! key = fs w !! key) ∧
    registry c' = registry c ++ [name] ∧
    ntmp c' = ntmp c + 1 ∧
    nplots c' = nplots c + 1 ∧
    p_sent (gnucmd c') = p_sent (gnucmd c) ++ [local_cmd +:+ LF] ∧
    stderr w' = stderr w.
Proof.
  intros Hmax Hc Ho Hn1 Hdv Hcap Hmk Hfmt Hfit Hlen Hnp.
  destruct (mkstemp_Some _ _ _ _ Hmk) as [Hfree ->].
  unfold gnuplot_plot_x. rewrite Hc.
  rewrite (proj2 (Z.ltb_ge n 1)) by lia.
  unfold this_ctrl. rewrite Hc. simpl.
  rewrite (proj2 (Z.eqb_neq _ _)) by lia. rewrite Hmk.
  unfold incr_int. rewrite (proj2 (Z.ltb_lt (ntmp c) INT_MAX)) by lia.
  simpl.
  destruct (write_x_any st name dv (Z.to_nat n) 0
              (<[name := EmptyString]> (fs w)))
    as (f' & Hrun & Hother & Hsame); [lia|].
  rewrite Hrun. simpl.
  change (series_line _ name title) with (series_line c name title).
  rewrite (sprintf_fits _ _ Hfit), bind_Done.
  rewrite (send_and_count_live (series_line c name title) local_cmd _
             (staged c name)) by first [reflexivity | assumption].
  simpl. rewrite Ho.
  rewrite (proj2 (Z.ltb_lt (nplots c) INT_MAX)) by lia.
  eexists _, _. split; [reflexivity|]. split; [reflexivity|]. simpl.
  split.
  { apply Hsame. rewrite lookup_insert_eq. eauto. }
  split.
  { intros key Hne. rewrite (Hother key Hne).
    by rewrite lookup_insert_ne by congruence. }
  split; [apply (registry_staged c name); lia|].
  repeat split.
Qed.

(** X8.  What the two series builders refuse.  A null session, a null
    array or a count below one makes either builder return at once with
    the world unchanged.  On a live session with room in the registry, a
    failing [mkstemp] makes either builder return with one message on the
    error stream and nothing else changed; the two messages differ:
    [gnuplot_plot_xy] wraps its message in line feeds, [gnuplot_plot_x]
    does not. *)
Theorem X8_builders_refuse st (d x y : option (list double)) (n : Z)
    (title : option string) (w : world) :
  (plot_ctrl w = Null ∨ d = None ∨ n < 1 →
   gnuplot_plot_x st d n title w = Done w) ∧
  (plot_ctrl w = Null ∨ x = None ∨ y = None ∨ n < 1 →
   gnuplot_plot_xy st x y n title w = Done w) ∧
  (∀ c dv xv yv,
     plot_ctrl w = Live c → 1 ≤ n → ntmp c ≠ GP_MAX_TMP_FILES - 1 →
     mkstemp st (fs w) = None →
     gnuplot_plot_x st (Some dv) n title w =
       Done (fprintf_stderr "cannot create temporary file: exiting plot" w) ∧
     gnuplot_plot_xy st (Some xv) (Some yv) n title w =
       Done (fprintf_stderr
               (LF +:+ "cannot create temporary file: exiting plot" +:+ LF)
               w) ∧
     fprintf_stderr "cannot create temporary file: exiting plot" w
       ≠ fprintf_stderr
           (LF +:+ "cannot create temporary file: exiting plot" +:+ LF) w).
Proof.
  split; [|split].
  - intros [Hn|[->|Hn]]; unfold gnuplot_plot_x.
    + rewrite Hn. reflexivity.
    + destruct (plot_ctrl w); reflexivity.
    + destruct (plot_ctrl w), d; try reflexivity; try congruence;
        rewrite (proj2 (Z.ltb_lt n 1)) by lia; reflexivity.
  - intros [Hn|[->|[->|Hn]]]; unfold gnuplot_plot_xy.
    + rewrite Hn. reflexivity.
    + destruct (plot_ctrl w); reflexivity.
    + destruct (plot_ctrl w), x; reflexivity.
    + destruct (plot_ctrl w), x, y; try reflexivity; try congruence;
        rewrite (proj2 (Z.ltb_lt n 1)) by lia; reflexivity.
  - intros c dv xv yv Hc Hn Hcap Hmk. split; [|split].
    + unfold gnuplot_plot_x. rewrite Hc.
      rewrite (proj2 (Z.ltb_ge n 1)) by lia.
      unfold this_ctrl. rewrite Hc. simpl.
      rewrite (proj2 (Z.eqb_neq _ _)) by lia. rewrite Hmk. reflexivity.
    + unfold gnuplot_plot_xy. rewrite Hc.
      rewrite (proj2 (Z.ltb_ge n 1)) by lia.
      unfold this_ctrl. rewrite Hc. simpl.
      rewrite (proj2 (Z.eqb_neq _ _)) by lia. rewrite Hmk. reflexivity.
    + unfold fprintf_stderr. intros Heq.
      assert (stderr w ++ ["cannot create temporary file: exiting plot"]
              = stderr w ++ [LF +:+ "cannot create temporary file: exiting plot"
                             +:+ LF]) as Hs by congruence.
      apply app_inv_head in Hs. discriminate Hs.
Qed.

(** ** Command texts of the equation and slope builders *)

Lemma percent_free_verb (c : gnuplot_ctrl) :
  percent_free (plot_verb c) = true.
Proof. unfold plot_verb. destruct (0 <? nplots c); reflexivity. Qed.

Lemma equation_line_plain (c : gnuplot_ctrl) (eq t : string) :
  percent_free eq = true → percent_free t = true →
  percent_free (pstyle c) = true →
  percent_free (equation_line c eq t) = true.
Proof.
  intros He Ht Hs. unfold equation_line.
  rewrite !percent_free_app, percent_free_verb, He, Ht, Hs. reflexivity.
Qed.

(** [gnuplot_plot_equation] once its arguments are in their buffers. *)
Lemma equation_run (w : world) (c : gnuplot_ctrl) (eq t : string) :
  plot_ctrl w = Live c → (String.length t < GP_TITLE_SIZE)%nat →
  gnuplot_plot_equation (Some eq) (Some t) w
  = (cmd ← sprintf GP_CMD_SIZE (equation_line c eq t);
     w1 ← gnuplot_cmd cmd w;
     c1 ← this_ctrl w1;
     n1 ← incr_int (nplots c1);
     Done (with_ctrl w1 (Live (set_nplots c1 n1)))).
Proof.
  intros Hc Ht. unfold gnuplot_plot_equation, strcpy.
  rewrite (sprintf_fits _ _ Ht), bind_Done, (this_ctrl_live _ _ Hc).
  reflexivity.
Qed.

(** The end of a command whose title ends in ['%']: the conversion that
    the second formatting meets. *)
Lemma equation_line_percent (c : gnuplot_ctrl) (eq t : string) :
  equation_line c eq (t +:+ "%")
  = (plot_verb c +:+ " " +:+ eq +:+ " title " +:+ DQ +:+ t)
    +:+ String "%" (String "034" (" with " +:+ pstyle c)).
Proof. unfold equation_line. rewrite !append_assoc. reflexivity. Qed.

(** X9.  [gnuplot_plot_equation] on a live session with an open pipe and an
    overlay counter below [INT_MAX], the equation, the title text [t] and
    the style holding no '%'.  When the title fits [title_str] with its
    NUL and the command fits [cmd] and [local_cmd] with its line feed and
    NUL, the one line sent is [verb equation title "t" with style], the
    counter grows by one and nothing else changes; a null title is
    replaced by [no title].  The formatted command is used as a format
    once more: a title ending in a single '%' makes the second formatting
    read an argument that was not passed, and a title ending in "%%" is
    sent with one '%'.  A title of [GP_TITLE_SIZE] characters or more
    overruns [title_str], whatever the equation; a command that does not
    fit overruns [cmd] or [local_cmd].  A null equation is handed to
    [%s]. *)
Theorem X9_equation_command (w : world) (c : gnuplot_ctrl) (eq t : string) :
  plot_ctrl w = Live c → p_open (gnucmd c) = true → nplots c < INT_MAX →
  percent_free eq = true → percent_free t = true →
  percent_free (pstyle c) = true →
  ((String.length t < GP_TITLE_SIZE)%nat →
   (String.length (equation_line c eq t) + 1 < GP_CMD_SIZE)%nat →
   gnuplot_plot_equation (Some eq) (Some t) w
   = Done (with_ctrl w (Live (plotted c (equation_line c eq t))))) ∧
  ((String.length (equation_line c eq "no title") + 1 < GP_CMD_SIZE)%nat →
   gnuplot_plot_equation (Some eq) None w
   = Done (with_ctrl w (Live (plotted c (equation_line c eq "no title"))))) ∧
  ((String.length (t +:+ "%") < GP_TITLE_SIZE)%nat →
   (String.length (equation_line c eq (t +:+ "%")) < GP_CMD_SIZE)%nat →
   gnuplot_plot_equation (Some eq) (Some (t +:+ "%")) w = Fault BadFormat) ∧
  ((String.length (t +:+ "%%") < GP_TITLE_SIZE)%nat →
   (String.length (equation_line c eq (t +:+ "%%")) < GP_CMD_SIZE)%nat →
   gnuplot_plot_equation (Some eq) (Some (t +:+ "%%")) w
   = Done (with_ctrl w (Live (plotted c (equation_line c eq (t +:+ "%")))))) ∧
  (∀ e t', (GP_TITLE_SIZE ≤ String.length t')%nat →
           gnuplot_plot_equation e (Some t') w = Fault OutOfBounds) ∧
  ((String.length t < GP_TITLE_SIZE)%nat →
   (GP_CMD_SIZE ≤ String.length (equation_line c eq t) + 1)%nat →
   gnuplot_plot_equation (Some eq) (Some t) w = Fault OutOfBounds) ∧
  ((String.length t < GP_TITLE_SIZE)%nat →
   gnuplot_plot_equation None (Some t) w = Fault NullString ∧
   gnuplot_plot_equation None None w = Fault NullString).
Proof.
  intros Hc Ho Hn He Ht Hs. apply Z.ltb_lt in Hn.
  assert (∀ t', percent_free t' = true →
            (String.length t' < GP_TITLE_SIZE)%nat →
            (String.length (equation_line c eq t') + 1 < GP_CMD_SIZE)%nat →
            gnuplot_plot_equation (Some eq) (Some t') w
            = Done (with_ctrl w (Live (plotted c (equation_line c eq t')))))
    as Hplain.
  { intros t' Ht' Htl Hfit. rewrite (equation_run _ _ _ _ Hc Htl).
    rewrite sprintf_fits by lia. rewrite bind_Done.
    rewrite (send_and_count_live _ _ _ _ Hc
               (vsprintf0_plain _ (equation_line_plain c eq t' He Ht' Hs))
               Hfit).
    rewrite Ho, Hn. reflexivity. }
  split; [exact (Hplain t Ht)|]. split; [|split; [|split; [|split; [|split]]]].
  - intros Hfit. unfold gnuplot_plot_equation.
    rewrite strcpy_no_title, bind_Done, (this_ctrl_live _ _ Hc), bind_Done.
    cbn [percent_s]. rewrite bind_Done.
    fold (equation_line c eq "no title").
    rewrite sprintf_fits by lia. rewrite bind_Done.
    rewrite (send_and_count_live _ _ _ _ Hc
               (vsprintf0_plain _
                  (equation_line_plain c eq "no title" He eq_refl Hs)) Hfit).
    rewrite Ho, Hn. reflexivity.
  - intros Htl Hfit. rewrite (equation_run _ _ _ _ Hc Htl).
    rewrite (sprintf_fits _ _ Hfit), bind_Done.
    unfold gnuplot_cmd. rewrite equation_line_percent, vsprintf_bad.
    + reflexivity.
    + rewrite !percent_free_app, percent_free_verb, He, Ht. reflexivity.
    + rewrite equation_line_percent, length_append in Hfit. lia.
    + right. exists "034"%char, (" with " +:+ pstyle c).
      split; [discriminate | reflexivity].
  - intros Htl Hfit. rewrite (equation_run _ _ _ _ Hc Htl).
    rewrite (sprintf_fits _ _ Hfit), bind_Done.
    assert (vsprintf0 (equation_line c eq (t +:+ "%%"))
            = Some (equation_line c eq (t +:+ "%"))) as Hfmt.
    { unfold equation_line.
      rewrite (vsprintf0_plain_prefix _ _ (percent_free_verb c)).
      rewrite (vsprintf0_plain_prefix " " _ eq_refl).
      rewrite (vsprintf0_plain_prefix eq _ He).
      rewrite (vsprintf0_plain_prefix " title " _ eq_refl).
      rewrite (vsprintf0_plain_prefix DQ _ eq_refl).
      rewrite append_assoc, (vsprintf0_plain_prefix t _ Ht).
      change (vsprintf0 ("%%" +:+ DQ +:+ " with " +:+ pstyle c))
        with (String "%" <$> vsprintf0 (DQ +:+ " with " +:+ pstyle c)).
      rewrite (vsprintf0_plain (DQ +:+ " with " +:+ pstyle c))
        by (rewrite !percent_free_app, Hs; reflexivity).
      simpl. rewrite !append_assoc. reflexivity. }
    rewrite (send_and_count_live _ _ _ _ Hc Hfmt), Ho, Hn; [reflexivity|].
    unfold equation_line in Hfit |- *.
    rewrite !length_append in Hfit |- *. simpl in Hfit |- *. lia.
  - intros e t' Hover. unfold gnuplot_plot_equation, strcpy.
    rewrite (sprintf_over _ _ Hover). reflexivity.
  - intros Htl Hover. rewrite (equation_run _ _ _ _ Hc Htl).
    apply sprintf_send_overflow; [|exact Hover].
    exact (equation_line_plain c eq t He Ht Hs).
  - intros Htl. split.
    + unfold gnuplot_plot_equation, strcpy.
      rewrite (sprintf_fits _ _ Htl), bind_Done, (this_ctrl_live _ _ Hc).
      reflexivity.
    + unfold gnuplot_plot_equation.
      rewrite strcpy_no_title, bind_Done, (this_ctrl_live _ _ Hc).
      reflexivity.
Qed.

(** X10.  [gnuplot_plot_slope] with a title, on a live session with an
    open pipe and an overlay counter below [INT_MAX], the two numbers as
    [%g] prints them, the title and the style holding no '%'.  When the
    title fits [stitle] with its NUL and the command fits [cmd] and
    [local_cmd] with its line feed and NUL, the one line sent is
    [verb a * x + b title "t" with style], where the verb is [plot] on a
    fresh session and [replot] otherwise; the counter grows by one; no
    file is staged and the registry is as before.  A title of
    [GP_TITLE_SIZE] characters or more overruns [stitle]. *)
Theorem X10_slope_command (a b : double) (t : string) (w : world)
    (c : gnuplot_ctrl) :
  plot_ctrl w = Live c → p_open (gnucmd c) = true → nplots c < INT_MAX →
  percent_free (fmt_g a) = true → percent_free (fmt_g b) = true →
  percent_free t = true → percent_free (pstyle c) = true →
  ((String.length t < GP_TITLE_SIZE)%nat →
   (String.length (slope_line c a b t) + 1 < GP_CMD_SIZE)%nat →
   ∃ w' c',
     gnuplot_plot_slope a b (Some t) w = Done w' ∧
     plot_ctrl w' = Live c' ∧
     p_sent (gnucmd c') = p_sent (gnucmd c) ++ [slope_line c a b t +:+ LF] ∧
     nplots c' = nplots c + 1 ∧
     fs w' = fs w ∧ registry c' = registry c ∧ ntmp c' = ntmp c ∧
     pstyle c' = pstyle c ∧ stderr w' = stderr w) ∧
  (∀ a' b' t', (GP_TITLE_SIZE ≤ String.length t')%nat →
               gnuplot_plot_slope a' b' (Some t') w = Fault OutOfBounds) ∧
  ((String.length t < GP_TITLE_SIZE)%nat →
   (GP_CMD_SIZE ≤ String.length (slope_line c a b t) + 1)%nat →
   gnuplot_plot_slope a b (Some t) w = Fault OutOfBounds).
Proof.
  intros Hc Ho Hn Ha Hb Ht Hs. apply Z.ltb_lt in Hn.
  assert ((if 0 <? nplots c then "replot " else "plot ")
          = plot_verb c +:+ " ") as Hverb.
  { unfold plot_verb. destruct (0 <? nplots c); reflexivity. }
  assert (percent_free (slope_line c a b t) = true) as Hplain.
  { unfold slope_line.
    rewrite !percent_free_app, percent_free_verb, Ha, Hb, Ht, Hs.
    reflexivity. }
  assert ((String.length t < GP_TITLE_SIZE)%nat →
          gnuplot_plot_slope a b (Some t) w
          = (cmd ← sprintf GP_CMD_SIZE (slope_line c a b t);
             w1 ← gnuplot_cmd cmd w;
             c1 ← this_ctrl w1;
             n1 ← incr_int (nplots c1);
             Done (with_ctrl w1 (Live (set_nplots c1 n1))))) as Hrun.
  { intros Htl. unfold gnuplot_plot_slope, strcpy.
    rewrite (sprintf_fits _ _ Htl), bind_Done, (this_ctrl_live _ _ Hc).
    rewrite bind_Done. cbn [percent_s]. rewrite bind_Done, Hverb.
    unfold slope_line. rewrite !append_assoc. reflexivity. }
  split; [|split].
  - intros Htl Hfit. rewrite (Hrun Htl).
    rewrite sprintf_fits by lia. rewrite bind_Done.
    rewrite (send_and_count_live _ _ _ _ Hc (vsprintf0_plain _ Hplain) Hfit).
    rewrite Ho, Hn.
    eexists _, _. split; [reflexivity|]. split; [reflexivity|]. simpl.
    repeat split.
  - intros a' b' t' Hover. unfold gnuplot_plot_slope, strcpy.
    rewrite (sprintf_over _ _ Hover). reflexivity.
  - intros Htl Hover. rewrite (Hrun Htl).
    apply sprintf_send_overflow; [exact Hplain | exact Hover].
Qed.

(** ** The histogram aggregator: counts, bounds, and the plot *)

(** A sample the clamping policy sends to bin 0 is counted there at every
    pass of the inner loop. *)
Lemma bin_scan_clamp_low_count (overflow : Z) (ord : list double)
    (nbins : nat) (s : double) (k i : nat) (bin : list double) (v : double) :
  overflow ≠ 0 → at_or_below ord s = true → bin !! 0%nat = Some v →
  bin_scan overflow (Some ord) nbins s k i bin
    = Done (<[0%nat := Nat.iter k d_incr v]> bin).
Proof.
  unfold at_or_below. intros Hov Hlow.
  destruct (ord !! 0%nat) as [a|] eqn:Ha; [|discriminate].
  apply Z.eqb_neq in Hov.
  revert i bin v. induction k as [|k IH]; intros i bin v Hv.
  - simpl. by rewrite list_insert_id.
  - cbn [bin_scan]. unfold bin_body, rd. simpl. rewrite Hov, Ha. simpl.
    rewrite Hlow, (bump_Some bin 0 v Hv), bind_Done.
    rewrite (IH (S i) _ (d_incr v)).
    + rewrite list_insert_insert_eq.
      change (d_incr (Nat.iter k d_incr v)) with (Nat.iter (S k) d_incr v).
      rewrite Nat.iter_succ_r. reflexivity.
    + apply list_lookup_insert_eq. apply lookup_lt_Some in Hv. exact Hv.
Qed.

Lemma bin_scan_clamp_high_count (overflow : Z) (ord : list double)
    (s : double) (k i : nat) (bin : list double) (v : double) :
  overflow ≠ 0 → at_or_above ord s = true →
  bin !! (length ord - 1)%nat = Some v →
  bin_scan overflow (Some ord) (length ord) s k i bin
    = Done (<[(length ord - 1)%nat := Nat.iter k d_incr v]> bin).
Proof.
  unfold at_or_above. intros Hov Hhigh.
  destruct (ord !! 0%nat) as [a|] eqn:Ha; [|discriminate].
  destruct (ord !! (length ord - 1)%nat) as [z|] eqn:Hz; [|discriminate].
  apply andb_true_iff in Hhigh as [Hlow Hhigh].
  apply negb_true_iff in Hlow. apply Z.eqb_neq in Hov.
  revert i bin v. induction k as [|k IH]; intros i bin v Hv.
  - simpl. by rewrite list_insert_id.
  - cbn [bin_scan]. unfold bin_body, rd. simpl. rewrite Hov, Ha. simpl.
    rewrite Hlow, Hz. simpl. rewrite Hhigh, (bump_Some bin _ v Hv), bind_Done.
    rewrite (IH (S i) _ (d_incr v)).
    + rewrite list_insert_insert_eq.
      change (d_incr (Nat.iter k d_incr v)) with (Nat.iter (S k) d_incr v).
      rewrite Nat.iter_succ_r. reflexivity.
    + apply list_lookup_insert_eq. apply lookup_lt_Some in Hv. exact Hv.
Qed.

(** X11.  Under the clamping policy the test against the outer edges sits
    inside the loop over the intervals, so a clamped sample is counted once
    per interval: a sample at or below [edges[0]] adds one to bin 0
    [nbins - 1] times, a sample at or above [edges[nbins-1]] (and above
    [edges[0]]) adds one to the last bin [nbins - 1] times; no other bin
    changes.  The edges need not be ordered. *)
Theorem X11_clamped_sample_counted_per_interval (overflow : Z)
    (ord bin : list double) (s v : double) :
  overflow ≠ 0 →
  (at_or_below ord s = true → bin !! 0%nat = Some v →
   bin_sample overflow (Some ord) (length ord) s bin
   = Done (<[0%nat := Nat.iter (length ord - 1) d_incr v]> bin)) ∧
  (at_or_above ord s = true → bin !! (length ord - 1)%nat = Some v →
   bin_sample overflow (Some ord) (length ord) s bin
   = Done (<[(length ord - 1)%nat
             := Nat.iter (length ord - 1) d_incr v]> bin)).
Proof.
  intros Hov. split; intros Hs Hv; unfold bin_sample.
  - by apply bin_scan_clamp_low_count.
  - by apply bin_scan_clamp_high_count.
Qed.

Lemma bump_inv (bin bin' : list double) (i : nat) :
  bump bin i = Done bin' →
  ∃ v, bin !! i = Some v ∧ bin' = <[i := d_incr v]> bin.
Proof.
  unfold bump, rd. destruct (bin !! i) as [v|]; [|discriminate].
  intros [= <-]. eauto.
Qed.

(** What one pass of the inner loop body may do: nothing, or one increment
    of bin [i], or, under the clamping policy only, of an outer bin. *)
Lemma bin_body_inv (overflow : Z) ordinate (nbins : nat) (x : double)
    (i : nat) (bin bin' : list double) :
  bin_body overflow ordinate nbins x i bin = Done bin' →
  bin' = bin ∨
  ∃ m v, bin !! m = Some v ∧ bin' = <[m := d_incr v]> bin ∧
         (m = i ∨ (overflow ≠ 0 ∧ (m = 0%nat ∨ m = (nbins - 1)%nat))).
Proof.
  unfold bin_body. intros H. bind_step H as ord Hord.
  assert (∀ b, (oi ← rd ord i;
                if d_ge x oi
                then oi1 ← rd ord (i + 1)%nat;
                     if d_lt x oi1 then bump bin i else Done bin
                else Done bin) = Done b →
               b = bin ∨
               ∃ m v, bin !! m = Some v ∧ b = <[m := d_incr v]> bin ∧
                      (m = i ∨ (overflow ≠ 0 ∧
                                (m = 0%nat ∨ m = (nbins - 1)%nat)))) as Hin.
  { intros b Hb. bind_step Hb as oi Hoi.
    destruct (d_ge x oi); [|injection Hb as <-; auto].
    bind_step Hb as oi1 Hoi1.
    destruct (d_lt x oi1); [|injection Hb as <-; auto].
    apply bump_inv in Hb as (v & Hv & ->). right. exists i, v.
    split; [exact Hv|]. split; [reflexivity|]. left. reflexivity. }
  destruct (overflow =? 0) eqn:Hov; simpl in H; [exact (Hin _ H)|].
  apply Z.eqb_neq in Hov.
  bind_step H as o0 Ho0. destruct (d_le x o0).
  { apply bump_inv in H as (v & Hv & ->). right. exists 0%nat, v.
    split; [exact Hv|]. split; [reflexivity|]. right. split; [exact Hov|].
    left. reflexivity. }
  bind_step H as oN HoN. destruct (d_ge x oN).
  { apply bump_inv in H as (v & Hv & ->). right.
    exists (nbins - 1)%nat, v.
    split; [exact Hv|]. split; [reflexivity|]. right. split; [exact Hov|].
    right. reflexivity. }
  exact (Hin _ H).
Qed.

Lemma bin_body_length (overflow : Z) ordinate (nbins : nat) (x : double)
    (i : nat) (bin bin' : list double) :
  bin_body overflow ordinate nbins x i bin = Done bin' →
  length bin' = length bin.
Proof.
  intros H. apply bin_body_inv in H as [->|(m & v & _ & -> & _)];
    [reflexivity | apply length_insert].
Qed.

Lemma bin_scan_length (overflow : Z) ordinate (nbins : nat) (x : double)
    (k i : nat) (bin bin' : list double) :
  bin_scan overflow ordinate nbins x k i bin = Done bin' →
  length bin' = length bin.
Proof.
  revert i bin. induction k as [|k IH]; intros i bin H.
  - injection H as <-. reflexivity.
  - cbn [bin_scan] in H. bind_step H as b Hb.
    apply bin_body_length in Hb. apply IH in H. congruence.
Qed.

Lemma sample_loop_length (overflow : Z) ordinate (raw : list double)
    (nbins k j : nat) (bin bin' : list double) :
  sample_loop overflow ordinate raw nbins k j bin = Done bin' →
  length bin' = length bin.
Proof.
  revert j bin. induction k as [|k IH]; intros j bin H.
  - injection H as <-. reflexivity.
  - cbn [sample_loop] in H. bind_step H as x Hx.
    destruct (d_nonzero x); [|injection H as <-; reflexivity].
    bind_step H as b Hb. apply bin_scan_length in Hb.
    apply IH in H. congruence.
Qed.

Lemma histogram_bins_length ordinate (raw : list double) (nbins overflow : Z)
    (bin : list double) :
  histogram_bins ordinate (Some raw) nbins overflow = Done (Some bin) →
  length bin = Z.to_nat (nbins mod UINT_MOD).
Proof.
  unfold histogram_bins. intros H.
  apply fmap_Done_inv in H as (b & Hb & [= ->]).
  apply sample_loop_length in Hb. by rewrite length_replicate in Hb.
Qed.

(** Under the strict policy the inner loop touches the bins it visits
    only. *)
Lemma bin_scan_strict_frame ordinate (nbins : nat) (x : double)
    (k i : nat) (bin bin' : list double) (m : nat) :
  bin_scan 0 ordinate nbins x k i bin = Done bin' →
  (m < i ∨ i + k ≤ m)%nat → bin' !! m = bin !! m.
Proof.
  revert i bin. induction k as [|k IH]; intros i bin H Hm.
  - injection H as <-. reflexivity.
  - cbn [bin_scan] in H. bind_step H as b Hb.
    rewrite (IH _ _ H) by lia.
    apply bin_body_inv in Hb as [->|(m' & v & _ & -> & [->|[Hov _]])];
      [reflexivity | | congruence].
    apply list_lookup_insert_ne. lia.
Qed.

Lemma sample_loop_strict_last ordinate (raw : list double)
    (nbins k j : nat) (bin bin' : list double) (m : nat) :
  sample_loop 0 ordinate raw nbins k j bin = Done bin' →
  (nbins - 1 ≤ m)%nat → bin' !! m = bin !! m.
Proof.
  revert j bin. induction k as [|k IH]; intros j bin H Hm.
  - injection H as <-. reflexivity.
  - cbn [sample_loop] in H. bind_step H as x Hx.
    destruct (d_nonzero x); [|injection H as <-; reflexivity].
    bind_step H as b Hb. rewrite (IH _ _ H Hm).
    unfold bin_sample in Hb.
    apply (bin_scan_strict_frame _ _ _ _ _ _ _ m Hb). lia.
Qed.

(** With [nbins] edges and [nbins] counters every access of the inner loop
    body is in bounds. *)
Lemma bin_body_in_bounds (overflow : Z) (ord : list double) (nbins : nat)
    (x : double) (i : nat) (bin : list double) :
  (nbins ≤ length ord)%nat → length bin = nbins → (S i < nbins)%nat →
  ∃ bin', bin_body overflow (Some ord) nbins x i bin = Done bin'.
Proof.
  intros Hord Hbin Hi.
  destruct (lookup_lt_is_Some_2 ord 0) as [o0 Ho0]; [lia|].
  destruct (lookup_lt_is_Some_2 ord (nbins - 1)) as [oN HoN]; [lia|].
  destruct (lookup_lt_is_Some_2 ord i) as [oi Hoi]; [lia|].
  destruct (lookup_lt_is_Some_2 ord (i + 1)) as [oi1 Hoi1]; [lia|].
  destruct (lookup_lt_is_Some_2 bin 0) as [b0 Hb0]; [lia|].
  destruct (lookup_lt_is_Some_2 bin (nbins - 1)) as [bN HbN]; [lia|].
  destruct (lookup_lt_is_Some_2 bin i) as [bi Hbi]; [lia|].
  unfold bin_body, rd. simpl. rewrite Ho0, HoN, Hoi, Hoi1. simpl.
  rewrite (bump_Some _ _ _ Hb0), (bump_Some _ _ _ HbN), (bump_Some _ _ _ Hbi).
  destruct (overflow =? 0), (d_le x o0), (d_ge x oN), (d_ge x oi),
    (d_lt x oi1); simpl; eauto.
Qed.

Lemma bin_scan_in_bounds (overflow : Z) (ord : list double) (nbins : nat)
    (x : double) (k i : nat) (bin : list double) :
  (nbins ≤ length ord)%nat → length bin = nbins → (i + k < nbins ∨ k = 0)%nat →
  ∃ bin', bin_scan overflow (Some ord) nbins x k i bin = Done bin'.
Proof.
  intros Hord. revert i bin. induction k as [|k IH]; intros i bin Hbin Hk.
  - simpl. eauto.
  - destruct (bin_body_in_bounds overflow ord nbins x i bin)
      as [b Hb]; [lia | exact Hbin | lia |].
    cbn [bin_scan]. rewrite Hb, bind_Done. apply IH.
    + apply bin_body_length in Hb. congruence.
    + lia.
Qed.

Lemma sample_loop_in_bounds (overflow : Z) (ord raw : list double)
    (nbins k j : nat) (bin : list double) :
  (nbins ≤ length ord)%nat → length bin = nbins →
  (j + k ≤ length raw)%nat →
  ∃ bin', sample_loop overflow (Some ord) raw nbins k j bin = Done bin'.
Proof.
  intros Hord. revert j bin. induction k as [|k IH]; intros j bin Hbin Hk.
  - simpl. eauto.
  - destruct (lookup_lt_is_Some_2 raw j) as [x Hx]; [lia|].
    cbn [sample_loop]. unfold rd. rewrite Hx, bind_Done.
    destruct (d_nonzero x); [|eauto].
    destruct (bin_scan_in_bounds overflow ord nbins x (nbins - 1) 0 bin)
      as [b Hb]; [exact Hord | exact Hbin | lia |].
    unfold bin_sample. rewrite Hb, bind_Done. apply IH.
    + apply bin_scan_length in Hb. congruence.
    + lia.
Qed.

(** X12.  With at least [nbins] edges and at least [nbins] samples, where
    [nbins] fits an [unsigned int], the counting loops of
    [gnuplot_plot_histogram] read and write inside their arrays and end
    with [nbins] counters, whatever the policy, the order of the edges and
    the samples (NaN and infinities included).  Under the strict policy
    the loop over the intervals stops before the last bin, so the last
    counter is still zero.  Without edges the first non-zero sample
    dereferences the null pointer as soon as there are two bins. *)
Theorem X12_histogram_counters (overflow : Z) (ord raw : list double)
    (nbins : Z) :
  0 ≤ nbins < UINT_MOD →
  (Z.to_nat nbins ≤ length ord)%nat → (Z.to_nat nbins ≤ length raw)%nat →
  (∃ bin, histogram_bins (Some ord) (Some raw) nbins overflow
          = Done (Some bin) ∧
          length bin = Z.to_nat nbins ∧
          (overflow = 0 → 1 ≤ nbins →
           bin !! (Z.to_nat nbins - 1)%nat = Some d_zero)) ∧
  (∀ x, 2 ≤ nbins → raw !! 0%nat = Some x → d_nonzero x = true →
        histogram_bins None (Some raw) nbins overflow = Fault NullDeref).
Proof.
  intros Hn Hord Hraw.
  assert (Z.to_nat (nbins mod UINT_MOD) = Z.to_nat nbins) as Hmod
    by (rewrite Z.mod_small by lia; reflexivity).
  split.
  - destruct (sample_loop_in_bounds overflow ord raw (Z.to_nat nbins)
                (Z.to_nat nbins) 0 (replicate (Z.to_nat nbins) d_zero))
      as [bin Hbin]; [exact Hord | apply length_replicate | lia |].
    exists bin. unfold histogram_bins. rewrite Hmod, Hbin.
    split; [reflexivity|]. split.
    + apply sample_loop_length in Hbin. by rewrite length_replicate in Hbin.
    + intros -> H1.
      rewrite (sample_loop_strict_last _ _ _ _ _ _ _ _ Hbin) by lia.
      apply lookup_replicate. split; [reflexivity | lia].
  - intros x H2 Hx Hnz. unfold histogram_bins. rewrite Hmod.
    destruct (Z.to_nat nbins) as [|[|k]] eqn:Hk; [lia | lia |].
    cbn [sample_loop]. unfold rd. rewrite Hx, bind_Done, Hnz.
    reflexivity.
Qed.

(** X13.  A histogram call that counted into [bin], on a live session with
    an open pipe and counters below [INT_MAX], [1 <= nbins <= INT_MAX]
    edges at least, room in the registry, a temporary file created under
    [name], writes accepted in full, lines whose length fits an
    [unsigned int], and a command line (built with the style [boxes])
    that holds no conversion specification and fits, with its line feed,
    the buffers of [GP_CMD_SIZE] bytes: the style is set to [boxes] before
    the series is built, so the command sent ends in the new style; the
    staged file holds the [nbins] lines [edge count]; one command is sent
    and counted. *)
Theorem X13_histogram_plot st (ord raw bin : list double) (nbins overflow : Z)
    (title : option string) (w : world) (c : gnuplot_ctrl)
    (name local_cmd : string) (f0 : gmap string string) :
  GP_MAX_TMP_FILES ≤ INT_MAX →
  plot_ctrl w = Live c → p_open (gnucmd c) = true →
  1 ≤ nbins ≤ INT_MAX → (Z.to_nat nbins ≤ length ord)%nat →
  histogram_bins (Some ord) (Some raw) nbins overflow = Done (Some bin) →
  0 ≤ ntmp c < GP_MAX_TMP_FILES - 1 →
  mkstemp st (fs w) = Some (name, f0) →
  (∀ i line, write_ret st i line = Z.of_nat (String.length line)) →
  short_lines (xy_lines (take (Z.to_nat nbins) ord) bin) →
  vsprintf0 (series_line (set_pstyle c "boxes") name title)
    = Some local_cmd →
  (String.length (series_line (set_pstyle c "boxes") name title)
   < GP_CMD_SIZE)%nat →
  (String.length local_cmd + 1 < GP_CMD_SIZE)%nat →
  nplots c < INT_MAX →
  ∃ w' c',
    gnuplot_plot_histogram st (Some ord) (Some raw) nbins overflow title w
      = Done w' ∧
    plot_ctrl w' = Live c' ∧
    pstyle c' = "boxes" ∧
    fs w' = <[name := lines_of (xy_lines (take (Z.to_nat nbins) ord) bin)]>
              (fs w) ∧
    length (xy_lines (take (Z.to_nat nbins) ord) bin) = Z.to_nat nbins ∧
    registry c' = registry c ++ [name] ∧
    nplots c' = nplots c + 1 ∧
    p_sent (gnucmd c') = p_sent (gnucmd c) ++ [local_cmd +:+ LF] ∧
    (∃ rest, series_line (set_pstyle c "boxes") name title
             = rest +:+ " with boxes").
Proof.
  intros Hmax Hc Ho Hn Hord Hbins Hcap Hmk Hwr Hshort Hfmt Hfit Hcmd Hnp.
  assert (nbins mod UINT_MOD = nbins) as Hmod
    by (apply Z.mod_small; unfold UINT_MOD, INT_MAX in *; lia).
  assert (length bin = Z.to_nat nbins) as Hlen.
  { rewrite (histogram_bins_length _ _ _ _ _ Hbins), Hmod. reflexivity. }
  assert (take (Z.to_nat nbins) bin = bin) as Htake
    by (apply take_ge; lia).
  unfold gnuplot_plot_histogram. rewrite Hbins, bind_Done.
  rewrite (setstyle_live _ _ _ Hc).
  rewrite (bool_decide_eq_false_2 ("boxes" ∉ styles))
    by (intros Hnot; exact (Hnot boxes_is_style)).
  rewrite bind_Done, Hmod.
  assert (int_of_uint nbins = nbins) as ->.
  { unfold int_of_uint. rewrite (proj2 (Z.leb_le _ _)) by lia. reflexivity. }
  rewrite (gnuplot_plot_xy_complete st ord bin nbins title _
             (set_pstyle c "boxes") name local_cmd f0);
    try assumption; try reflexivity; try lia;
    [|rewrite Htake; exact Hshort].
  rewrite Htake.
  eexists _, _. split; [reflexivity|]. split; [reflexivity|]. simpl.
  split; [reflexivity|]. split; [reflexivity|]. split.
  { unfold xy_lines. rewrite length_zip_with, length_take. lia. }
  split; [apply (registry_staged (set_pstyle c "boxes") name); simpl; lia|].
  split; [reflexivity|]. split; [reflexivity|].
  unfold series_line. destruct title as [t|]; simpl.
  - exists (plot_verb (set_pstyle c "boxes") +:+ " " +:+ DQ +:+ name +:+ DQ
            +:+ " title " +:+ DQ +:+ t +:+ DQ).
    rewrite !append_assoc. reflexivity.
  - exists (plot_verb (set_pstyle c "boxes") +:+ " " +:+ DQ +:+ name +:+ DQ).
    rewrite !append_assoc. reflexivity.
Qed.

(** ** Style and registry in the reachable states *)

Lemma session_inv_keep (w w' : world) (c c' : gnuplot_ctrl) :
  session_inv w → plot_ctrl w = Live c → plot_ctrl w' = Live c' →
  (pstyle c ∈ styles → pstyle c' ∈ styles) →
  ntmp c' = ntmp c → registry c' = registry c →
  (∀ key, is_Some (fs w !! key) → is_Some (fs w' !! key)) →
  session_inv w'.
Proof.
  intros Hw Hc Hc' Hst Hnt Hreg Hfs c0 H0.
  rewrite Hc' in H0. injection H0 as <-.
  destruct (Hw c Hc) as (Hs & Hn & Hnd & Hin).
  rewrite Hnt, Hreg. repeat split; auto.
Qed.

Lemma session_inv_same (w w' : world) :
  plot_ctrl w' = plot_ctrl w → fs w' = fs w →
  session_inv w → session_inv w'.
Proof. unfold session_inv. intros -> ->. auto. Qed.

Lemma session_inv_stage (w w' : world) (c c' : gnuplot_ctrl) (name : string) :
  session_inv w → plot_ctrl w = Live c → plot_ctrl w' = Live c' →
  pstyle c' = pstyle c → ntmp c' = ntmp c + 1 →
  registry c' = registry c ++ [name] →
  fs w !! name = None → is_Some (fs w' !! name) →
  (∀ key, is_Some (fs w !! key) → is_Some (fs w' !! key)) →
  session_inv w'.
Proof.
  intros Hw Hc Hc' Hst Hnt Hreg Hfree Hname Hfs c0 H0.
  rewrite Hc' in H0. injection H0 as <-.
  destruct (Hw c Hc) as (Hs & Hn & Hnd & Hin).
  rewrite Hst, Hnt, Hreg. split; [exact Hs|]. split; [lia|]. split.
  - apply NoDup_app. split; [exact Hnd|]. split; [|apply NoDup_singleton].
    intros x Hx Hx'. apply list_elem_of_singleton in Hx'. subst x.
    destruct (Hin name Hx) as [v Hv]. congruence.
  - intros x Hx. apply elem_of_app in Hx as [Hx|Hx]; [auto|].
    apply list_elem_of_singleton in Hx. subst x. exact Hname.
Qed.

Lemma session_inv_empty (w' : world) :
  (∀ c', plot_ctrl w' = Live c' → ntmp c' = 0 ∧ pstyle c' ∈ styles) →
  session_inv w'.
Proof.
  intros H c Hc. destruct (H c Hc) as [Hn Hs].
  unfold registry. rewrite Hn. simpl.
  split; [exact Hs|]. split; [lia|]. split; [apply NoDup_nil_2|].
  intros name Hin. by apply elem_of_nil in Hin.
Qed.

Lemma os_write_keeps st i (line name key : string)
    (f : gmap string string) :
  is_Some (f !! key) → is_Some ((os_write st i line name f).2 !! key).
Proof.
  intros Hk. destruct (decide (key = name)) as [->|Hne].
  - by apply os_write_same.
  - by rewrite os_write_other.
Qed.

Lemma write_x_keeps st (name : string) (d : list double) (k i : nat)
    (f f' : gmap string string) (key : string) :
  write_x st name d k i f = Done f' →
  is_Some (f !! key) → is_Some (f' !! key).
Proof.
  revert i f. induction k as [|k IH]; intros i f H Hk.
  - injection H as <-. exact Hk.
  - cbn [write_x] in H. bind_step H as v Hv.
    apply (IH _ _ H). by apply os_write_keeps.
Qed.

Lemma write_xy_keeps st (name : string) (x y : list double) (k i : nat)
    (f f' : gmap string string) (r : option string) (key : string) :
  write_xy st name x y k i f = Done (r, f') →
  is_Some (f !! key) → is_Some (f' !! key).
Proof.
  revert i f. induction k as [|k IH]; intros i f H Hk.
  - injection H as <- <-. exact Hk.
  - cbn [write_xy] in H. bind_step H as xv Hx. bind_step H as yv Hy.
    pose proof (os_write_keeps st i (fmt_g xv +:+ " " +:+ fmt_g yv +:+ LF)
                  name key f Hk) as Hk'.
    destruct (os_write st i (fmt_g xv +:+ " " +:+ fmt_g yv +:+ LF) name f)
      as [r0 f1]. simpl in Hk'.
    destruct (r0 mod UINT_MOD =? _).
    + exact (IH _ _ H Hk').
    + injection H as <- <-. exact Hk'.
Qed.

Lemma gnuplot_setstyle_styles s (w w' : world) :
  gnuplot_setstyle s w = Done w' →
  ∃ c v, plot_ctrl w = Live c ∧ plot_ctrl w' = Live (set_pstyle c v) ∧
         fs w' = fs w ∧ v ∈ styles.
Proof.
  destruct s as [s|]; [|discriminate].
  destruct (plot_ctrl w) as [|c|] eqn:Hc.
  - unfold gnuplot_setstyle, this_ctrl. simpl. rewrite Hc.
    case_match; discriminate.
  - rewrite (setstyle_live s w c Hc).
    case_bool_decide as Hs; intros [= <-]; exists c.
    + exists "points". repeat split.
      unfold styles. rewrite !elem_of_cons. tauto.
    + exists s. repeat split.
      destruct (decide (s ∈ styles)) as [Hin|Hout]; [exact Hin|].
      contradiction.
  - unfold gnuplot_setstyle, this_ctrl. simpl. rewrite Hc.
    case_match; discriminate.
Qed.

(** The handle [gnuplot_init] returns is null or a fresh structure. *)
Lemma gnuplot_init_handle env (w w' : world) (h : handle) :
  gnuplot_init env w = Done (h, w') →
  fs w' = fs w ∧
  (h = Null ∨
   ∃ c, h = Live c ∧ ntmp c = 0 ∧ nplots c = 0 ∧
        gnucmd c = Pipe true []).
Proof.
  unfold gnuplot_init. intros H. bind_step H as [r w1] Hloc.
  apply locate_frame in Hloc as (_ & Hfs & _ & _).
  assert (fs w1 = fs w) as Hfs'.
  { rewrite Hfs. destruct (env_DISPLAY env); reflexivity. }
  destruct r; [injection H as <- <-; auto|].
  destruct (popen_ok env); injection H as <- <-; [|auto].
  split; [exact Hfs'|]. right. eexists. split; [reflexivity|]. auto.
Qed.

Lemma sinv_cmd cmd (w w' : world) :
  gnuplot_cmd cmd w = Done w' → session_inv w → session_inv w'.
Proof.
  intros H Hw. apply gnuplot_cmd_Done in H as (c & t & Hc & _ & _ & ->).
  apply (session_inv_keep w _ c (after_cmd c t)); auto.
Qed.

Lemma sinv_label (p : string → string) l (w w' : world) :
  (t ← percent_s l; cmd ← sprintf GP_CMD_SIZE (p t); gnuplot_cmd cmd w)
    = Done w' →
  session_inv w → session_inv w'.
Proof.
  destruct l as [t|]; [|discriminate]. simpl. intros H.
  bind_step H as cmd Hcmd. exact (sinv_cmd _ _ _ H).
Qed.

Lemma sinv_setstyle s (w w' : world) :
  gnuplot_setstyle s w = Done w' → session_inv w → session_inv w'.
Proof.
  intros H Hw.
  apply gnuplot_setstyle_styles in H as (c & v & Hc & Hc' & Hfs & Hv).
  apply (session_inv_keep w _ c (set_pstyle c v)); auto.
  intros key. by rewrite Hfs.
Qed.

Lemma sinv_resetplot (w w' : world) :
  gnuplot_resetplot w = Done w' → session_inv w → session_inv w'.
Proof.
  intros H Hw. unfold gnuplot_resetplot in H. bind_step H as c Hc.
  apply this_ctrl_Done in Hc. injection H as <-.
  apply session_inv_empty. simpl. intros c' [= <-]. simpl.
  split; [reflexivity|]. exact (proj1 (Hw c Hc)).
Qed.

Lemma sinv_staged st (w : world) (c : gnuplot_ctrl) (name : string)
    (f0 f : gmap string string) :
  session_inv w → plot_ctrl w = Live c →
  mkstemp st (fs w) = Some (name, f0) →
  (∀ key, is_Some (f0 !! key) → is_Some (f !! key)) →
  session_inv (with_ctrl (with_fs w f) (Live (staged c name))).
Proof.
  intros Hw Hc Hmk Hkeep.
  destruct (mkstemp_Some _ _ _ _ Hmk) as [Hfree ->].
  apply (session_inv_stage w _ c (staged c name) name); auto.
  - apply registry_staged. exact (proj1 (proj2 (Hw c Hc))).
  - simpl. apply Hkeep. rewrite lookup_insert_eq. eauto.
  - simpl. intros key Hk. apply Hkeep.
    destruct (decide (key = name)) as [->|Hne].
    + rewrite lookup_insert_eq. eauto.
    + by rewrite lookup_insert_ne by congruence.
Qed.

Lemma sinv_plot_x st d n title (w w' : world) :
  gnuplot_plot_x st d n title w = Done w' → session_inv w → session_inv w'.
Proof.
  intros H Hw. apply gnuplot_plot_x_Done in H
    as [-> | [[msg ->] | (c & dv & name & f0 & f & t & Hc & _ & _ & _ & _
                          & Hmk & Hwr & _ & _ & _ & ->)]]; auto.
  assert (session_inv (with_ctrl (with_fs w f) (Live (staged c name))))
    as Hst.
  { apply (sinv_staged st w c name f0 f Hw Hc Hmk).
    intros key. exact (write_x_keeps _ _ _ _ _ _ _ key Hwr). }
  apply (session_inv_keep _ _ (staged c name)
           (plotted (staged c name) t) Hst); auto.
Qed.

Lemma sinv_plot_xy st x y n title (w w' : world) :
  gnuplot_plot_xy st x y n title w = Done w' → session_inv w → session_inv w'.
Proof.
  unfold gnuplot_plot_xy. intros H Hw.
  destruct (plot_ctrl w) as [|c|] eqn:Hc; destruct x as [xv|];
    destruct y as [yv|];
    try (injection H as <-; exact Hw);
    destruct (n <? 1) eqn:Hn;
    try (injection H as <-; exact Hw);
    unfold this_ctrl in H; rewrite Hc in H; [|discriminate].
  simpl in H.
  destruct (ntmp c =? GP_MAX_TMP_FILES - 1).
  { injection H as <-. exact Hw. }
  destruct (mkstemp st (fs w)) as [[name f0]|] eqn:Hmk.
  2:{ injection H as <-. exact Hw. }
  unfold incr_int in H. destruct (ntmp c <? INT_MAX); [|discriminate].
  simpl in H.
  destruct (write_xy st name xv yv (Z.to_nat n) 0 f0) as [[short f]|] eqn:Hwr;
    [|discriminate].
  simpl in H.
  assert (session_inv (with_ctrl (with_fs w f) (Live (staged c name))))
    as Hst.
  { apply (sinv_staged st w c name f0 f Hw Hc Hmk).
    intros key. exact (write_xy_keeps _ _ _ _ _ _ _ _ _ key Hwr). }
  destruct short as [line|].
  { injection H as <-. exact Hst. }
  bind_step H as line Hline. apply sprintf_Done in Hline as [-> _].
  apply send_and_count_Done in H.
  destruct H as (c1 & t & Hc1 & _ & _ & _ & ->).
  apply (session_inv_keep _ _ c1 (plotted c1 t) Hst); auto.
Qed.

Lemma sinv_plot_slope a b title (w w' : world) :
  gnuplot_plot_slope a b title w = Done w' → session_inv w → session_inv w'.
Proof.
  intros H Hw. apply gnuplot_plot_slope_Done in H
    as (c & t & rest & lc & Hc & _ & _ & _ & _ & ->).
  apply (session_inv_keep w _ c (plotted c lc)); auto.
Qed.

Lemma sinv_plot_equation e title (w w' : world) :
  gnuplot_plot_equation e title w = Done w' →
  session_inv w → session_inv w'.
Proof.
  intros H Hw. apply gnuplot_plot_equation_Done in H
    as (c & rest & lc & Hc & _ & _ & _ & ->).
  apply (session_inv_keep w _ c (plotted c lc)); auto.
Qed.

Lemma sinv_close r (w w' : world) :
  gnuplot_close r w = Done w' → session_inv w → session_inv w'.
Proof.
  intros H Hw. unfold gnuplot_close in H. bind_step H as c Hc.
  apply this_ctrl_Done in Hc.
  destruct (p_open (gnucmd c)); [|discriminate].
  destruct (r =? -1); injection H as <-.
  - apply (session_inv_keep w _ c
             (set_gnucmd c (Pipe false (p_sent (gnucmd c))))); auto.
  - intros c' Hc'. discriminate.
Qed.

Lemma sinv_plot_histogram st o r nb ov title (w w' : world) :
  gnuplot_plot_histogram st o r nb ov title w = Done w' →
  session_inv w → session_inv w'.
Proof.
  unfold gnuplot_plot_histogram. intros H Hw. bind_step H as bins Hb.
  destruct bins as [bin|]; [|injection H as <-; exact Hw].
  bind_step H as w1 H1. eapply sinv_plot_xy; [exact H|].
  eapply sinv_setstyle; eauto.
Qed.

(** A session right after [gnuplot_init] and its first [gnuplot_setstyle]. *)
Lemma sinv_init_setstyle env s (w w1 w' : world) (h : handle) :
  gnuplot_init env w = Done (h, w1) →
  gnuplot_setstyle s (with_ctrl w1 h) = Done w' →
  session_inv w'.
Proof.
  intros Hi Hs. apply gnuplot_init_handle in Hi as [_ Hh].
  apply gnuplot_setstyle_styles in Hs as (c & v & Hc & Hc' & _ & Hv).
  simpl in Hc. apply session_inv_empty. intros c' Hl.
  rewrite Hc' in Hl. injection Hl as <-. simpl. split; [|exact Hv].
  destruct Hh as [->|(c0 & -> & Hn & _)]; [discriminate|].
  injection Hc as <-. exact Hn.
Qed.

Lemma sinv_new env (w w' : world) : GnuPlot env w = Done w' → session_inv w'.
Proof.
  unfold GnuPlot. intros H. bind_step H as [h w1] Hi.
  exact (sinv_init_setstyle env _ w w1 w' h Hi H).
Qed.

Lemma sinv_plot_once env st r t s lx ly x y n (w w' : world) :
  gnuplot_plot_once env st r t s lx ly x y n w = Done w' →
  session_inv w → session_inv w'.
Proof.
  unfold gnuplot_plot_once. intros H Hw.
  destruct x as [xv|]; [|injection H as <-; exact Hw].
  destruct (n <? 1); [injection H as <-; exact Hw|].
  bind_step H as [h w1] Hi.
  destruct h as [|c|];
    [injection H as <-; intros c Hc; discriminate | |];
    bind_step H as w2 H2; bind_step H as w3 H3; bind_step H as w4 H4;
    bind_step H as w5 H5; (eapply sinv_close; [exact H|]);
    (apply (session_inv_same w5); [reflexivity | reflexivity |]);
    (assert (session_inv w4) as Hw4
       by (eapply (sinv_label (λ l, "set ylabel " +:+ DQ +:+ l +:+ DQ));
           [exact H4|];
           eapply (sinv_label (λ l, "set xlabel " +:+ DQ +:+ l +:+ DQ));
           [exact H3|];
           exact (sinv_init_setstyle env _ w w1 w2 _ Hi H2)));
    destruct y; eauto using sinv_plot_xy, sinv_plot_x.
Qed.

Lemma sinv_exec k (w w' : world) :
  exec k w = Done w' → session_inv w → session_inv w'.
Proof.
  destruct k; simpl.
  - apply sinv_cmd.
  - apply sinv_setstyle.
  - apply (sinv_label (λ t, "set title '" +:+ t +:+ "'")).
  - apply (sinv_label (λ l, "set xlabel " +:+ DQ +:+ l +:+ DQ)).
  - apply (sinv_label (λ l, "set ylabel " +:+ DQ +:+ l +:+ DQ)).
  - apply sinv_resetplot.
  - apply sinv_plot_x.
  - apply sinv_plot_xy.
  - apply sinv_plot_once.
  - apply sinv_plot_slope.
  - apply sinv_plot_equation.
  - apply sinv_plot_histogram.
  - apply sinv_close.
Qed.

(** X14.  In every state a session reaches (from the constructor, by calls
    that return) in which the handle is live: the style is one of the ten
    of the enumeration, so no plot command carries another one; the names
    in the registry are pairwise distinct; and each of them names a file
    that exists, so that the [remove] of [gnuplot_resetplot] and
    [gnuplot_close] finds its file. *)
Theorem X14_reachable_style_and_registry (w : world) (c : gnuplot_ctrl) :
  reachable w → plot_ctrl w = Live c →
  pstyle c ∈ styles ∧ NoDup (registry c) ∧
  (∀ name, name ∈ registry c → is_Some (fs w !! name)).
Proof.
  intros Hr Hc.
  assert (session_inv w) as Hw.
  { clear Hc. induction Hr as [env w0 w H | k w w' _ IH H].
    - eapply sinv_new; exact H.
    - eapply sinv_exec; eauto. }
  destruct (Hw c Hc) as (Hs & _ & Hnd & Hin). auto.
Qed.

(** ** One-shot plots and the destructor *)

Lemma write_x_other st (name : string) (d : list double) (k i : nat)
    (f f' : gmap string string) (key : string) :
  write_x st name d k i f = Done f' → key ≠ name → f' !! key = f !! key.
Proof.
  revert i f. induction k as [|k IH]; intros i f H Hk.
  - injection H as <-. reflexivity.
  - cbn [write_x] in H. bind_step H as v Hv.
    rewrite (IH _ _ H Hk). by apply os_write_other.
Qed.

Lemma write_xy_other st (name : string) (x y : list double) (k i : nat)
    (f f' : gmap string string) (r : option string) (key : string) :
  write_xy st name x y k i f = Done (r, f') → key ≠ name →
  f' !! key = f !! key.
Proof.
  revert i f. induction k as [|k IH]; intros i f H Hk.
  - injection H as <- <-. reflexivity.
  - cbn [write_xy] in H. bind_step H as xv Hx. bind_step H as yv Hy.
    pose proof (os_write_other st i (fmt_g xv +:+ " " +:+ fmt_g yv +:+ LF)
                  name key f Hk) as Hk'.
    destruct (os_write st i (fmt_g xv +:+ " " +:+ fmt_g yv +:+ LF) name f)
      as [r0 f1]. simpl in Hk'.
    destruct (r0 mod UINT_MOD =? _).
    + rewrite (IH _ _ H Hk). exact Hk'.
    + injection H as <- <-. exact Hk'.
Qed.

(** Removing the registered files after a staging step gives the files
    that removing them before the step gives. *)
Lemma remove_all_staged st (w : world) (c : gnuplot_ctrl) (name : string)
    (f0 f : gmap string string) :
  0 ≤ ntmp c → mkstemp st (fs w) = Some (name, f0) →
  (∀ key, key ≠ name → f !! key = f0 !! key) →
  remove_all (registry (staged c name)) f = remove_all (registry c) (fs w).
Proof.
  intros Hn Hmk Hother.
  destruct (mkstemp_Some _ _ _ _ Hmk) as [Hfree ->].
  rewrite (registry_staged c name Hn). apply map_eq. intros key.
  rewrite !lookup_remove_all.
  destruct (decide (key ∈ registry c)) as [Hin|Hout].
  - rewrite decide_True by (apply elem_of_app; auto). reflexivity.
  - destruct (decide (key = name)) as [->|Hne].
    + rewrite decide_True
        by (apply elem_of_app; right; apply list_elem_of_singleton;
            reflexivity).
      by rewrite Hfree.
    + rewrite decide_False.
      * rewrite (Hother key Hne). by rewrite lookup_insert_ne by congruence.
      * rewrite elem_of_app, list_elem_of_singleton. tauto.
Qed.

(** Whatever a series builder staged is in the registry: cleaning up after
    it gives the files that cleaning up before it gives. *)
Lemma plot_x_cleanup st d n title (w w' : world) (c : gnuplot_ctrl) :
  plot_ctrl w = Live c → 0 ≤ ntmp c →
  gnuplot_plot_x st d n title w = Done w' →
  ∃ c', plot_ctrl w' = Live c' ∧
        (p_open (gnucmd c) = false → p_open (gnucmd c') = false) ∧
        remove_all (registry c') (fs w') = remove_all (registry c) (fs w).
Proof.
  intros Hc Hn H. apply gnuplot_plot_x_Done in H
    as [-> | [[msg ->] | (c0 & dv & name & f0 & f & t & Hc0 & _ & _ & _ & _
                          & Hmk & Hwr & _ & Ho & _ & ->)]]; eauto.
  assert (c0 = c) as -> by congruence.
  eexists. split; [reflexivity|]. split; [congruence|].
  apply (remove_all_staged st w c name f0 f Hn Hmk).
  intros key. exact (write_x_other _ _ _ _ _ _ _ key Hwr).
Qed.

Lemma plot_xy_cleanup st x y n title (w w' : world) (c : gnuplot_ctrl) :
  plot_ctrl w = Live c → 0 ≤ ntmp c →
  gnuplot_plot_xy st x y n title w = Done w' →
  ∃ c', plot_ctrl w' = Live c' ∧
        (p_open (gnucmd c) = false → p_open (gnucmd c') = false) ∧
        remove_all (registry c') (fs w') = remove_all (registry c) (fs w).
Proof.
  unfold gnuplot_plot_xy. intros Hc Hnt H. rewrite Hc in H.
  destruct x as [xv|]; destruct y as [yv|];
    try (injection H as <-; eauto);
    destruct (n <? 1) eqn:Hn;
    try (injection H as <-; eauto);
    unfold this_ctrl in H; rewrite Hc in H.
  simpl in H.
  destruct (ntmp c =? GP_MAX_TMP_FILES - 1).
  { injection H as <-. eauto. }
  destruct (mkstemp st (fs w)) as [[name f0]|] eqn:Hmk.
  2:{ injection H as <-. eauto. }
  unfold incr_int in H. destruct (ntmp c <? INT_MAX); [|discriminate].
  simpl in H.
  destruct (write_xy st name xv yv (Z.to_nat n) 0 f0) as [[short f]|] eqn:Hwr;
    [|discriminate].
  simpl in H.
  assert (remove_all (registry (staged c name)) f
          = remove_all (registry c) (fs w)) as Hrm.
  { apply (remove_all_staged st w c name f0 f Hnt Hmk).
    intros key. exact (write_xy_other _ _ _ _ _ _ _ _ _ key Hwr). }
  destruct short as [line|].
  { injection H as <-. eexists. split; [reflexivity|]. auto. }
  bind_step H as line Hline. apply sprintf_Done in Hline as [-> _].
  apply send_and_count_Done in H.
  destruct H as (c1 & t & Hc1 & _ & Ho & _ & ->).
  simpl in Hc1. injection Hc1 as <-.
  eexists. split; [reflexivity|]. split; [|exact Hrm].
  simpl in Ho. congruence.
Qed.

(** The locator does not look at the session handle. *)
Lemma locate_with_ctrl env pname (w : world) (h : handle) :
  gnuplot_get_program_path env pname (with_ctrl w h) =
    ('(r, w1) ← gnuplot_get_program_path env pname w;
     Done (r, with_ctrl w1 h)).
Proof.
  unfold gnuplot_get_program_path. cbn [path_buf with_ctrl].
  destruct (strcpy_at (path_buf w) 0 ("./" +:+ pname)) as [b1|]; simpl;
    [|reflexivity].
  destruct (cstring b1) as [s1|]; simpl; [|reflexivity].
  destruct (access_X env (text s1)).
  { destruct (strcpy_at b1 0 "."); reflexivity. }
  destruct (store b1 0 nul) as [b2|]; simpl; [|reflexivity].
  destruct (env_PATH env) as [path|].
  - destruct (try_dirs env pname (path_segments EmptyString path) b2)
      as [b3|]; simpl; [|reflexivity].
    destruct (load b3 0) as [c0|]; simpl; [|reflexivity].
    destruct (decide (c0 = nul)); [reflexivity|].
    destruct (cstring b3) as [s3|]; simpl; [|reflexivity].
    destruct (strip_name b3 (length s3 - 1)); reflexivity.
  - simpl. destruct (load b2 0) as [c0|]; simpl; [|reflexivity].
    destruct (decide (c0 = nul)); [reflexivity|].
    destruct (cstring b2) as [s3|]; simpl; [|reflexivity].
    destruct (strip_name b2 (length s3 - 1)); reflexivity.
Qed.

Lemma init_with_ctrl env (w : world) (h : handle) :
  gnuplot_init env (with_ctrl w h) =
    ('(h', w1) ← gnuplot_init env w; Done (h', with_ctrl w1 h)).
Proof.
  unfold gnuplot_init.
  assert (∀ v : world,
            gnuplot_get_program_path env "gnuplot" (with_ctrl v h) =
            ('(r, w1) ← gnuplot_get_program_path env "gnuplot" v;
             Done (r, with_ctrl w1 h))) as Hloc
    by (intros v; apply locate_with_ctrl).
  destruct (env_DISPLAY env).
  - rewrite Hloc.
    destruct (gnuplot_get_program_path env "gnuplot" w) as [[r w1]|];
      [|reflexivity].
    simpl. destruct r; [reflexivity|]. destruct (popen_ok env); reflexivity.
  - change (fprintf_stderr ("cannot find DISPLAY variable: is it set?" +:+ LF)
              (with_ctrl w h))
      with (with_ctrl
              (fprintf_stderr
                 ("cannot find DISPLAY variable: is it set?" +:+ LF) w) h).
    rewrite Hloc.
    destruct (gnuplot_get_program_path env "gnuplot" _) as [[r w1]|];
      [|reflexivity].
    simpl. destruct r; [reflexivity|]. destruct (popen_ok env); reflexivity.
Qed.

(** A session that [gnuplot_close] has returned from cannot be closed
    again. *)
Lemma gnuplot_close_twice (r r' : Z) (w w' : world) :
  gnuplot_close r w = Done w' → ∃ k, gnuplot_close r' w' = Fault k.
Proof.
  unfold gnuplot_close at 1. intros H. bind_step H as c Hc.
  destruct (p_open (gnucmd c)); [|discriminate].
  destruct (r =? -1); injection H as <-; unfold gnuplot_close, this_ctrl;
    simpl; eauto.
Qed.

(** X15.  [gnuplot_plot_once], called with an array and [n >= 1], does not
    use the session the object holds: it overwrites the handle without
    closing that session, so its result is the same whatever the handle
    was.  When it returns, the handle is null (no gnuplot found), dangling
    (session closed and freed) or points to a session whose pipe is
    closed, and the [gnuplot_close] of the destructor cannot run on any of
    them.  When it has closed its session, the temporary file it staged is
    removed again and the files are those it started with, those of the
    dropped session included. *)
Theorem X15_plot_once_drops_session env st (pclose_ret : Z)
    (title style label_x label_y : option string) (xv : list double)
    (y : option (list double)) (n : Z) (w : world) :
  1 ≤ n →
  (∀ h, gnuplot_plot_once env st pclose_ret title style label_x label_y
          (Some xv) y n (with_ctrl w h)
        = gnuplot_plot_once env st pclose_ret title style label_x label_y
            (Some xv) y n w) ∧
  (∀ w', gnuplot_plot_once env st pclose_ret title style label_x label_y
           (Some xv) y n w = Done w' →
         (∀ r, ∃ k, GnuPlot_destructor r w' = Fault k) ∧
         (plot_ctrl w' = Freed → fs w' = fs w)).
Proof.
  intros Hn. apply Z.ltb_ge in Hn. split.
  - intros h. unfold gnuplot_plot_once. rewrite Hn, init_with_ctrl.
    destruct (gnuplot_init env w) as [[h' w1]|]; reflexivity.
  - intros w' H. unfold gnuplot_plot_once in H. rewrite Hn in H.
    bind_step H as [h w1] Hi.
    apply gnuplot_init_handle in Hi as [Hfs Hh].
    destruct Hh as [->|(c0 & -> & Hnt & _)].
    { injection H as <-. split; [|discriminate].
      intros r. exists NullDeref. reflexivity. }
    bind_step H as w2 H2. bind_step H as w3 H3. bind_step H as w4 H4.
    bind_step H as w5 H5.
    split; [intros r; exact (gnuplot_close_twice _ r _ _ H)|].
    apply gnuplot_setstyle_styles in H2 as (c2 & v & Hc2 & Hc2' & Hfs2 & _).
    simpl in Hc2. injection Hc2 as <-. simpl in Hfs2.
    bind_step H3 as lx Hlx. bind_step H3 as cmd3 Hcmd3.
    apply gnuplot_cmd_Done in H3 as (c3 & t3 & Hc3 & _ & _ & ->).
    bind_step H4 as ly Hly. bind_step H4 as cmd4 Hcmd4.
    apply gnuplot_cmd_Done in H4 as (c4 & t4 & Hc4 & _ & _ & ->).
    simpl in Hc4. injection Hc4 as <-.
    rewrite Hc2' in Hc3. injection Hc3 as <-.
    assert (∃ c5, plot_ctrl w5 = Live c5 ∧
                  remove_all (registry c5) (fs w5) = fs w) as (c5 & Hc5 & Hrm).
    { assert (∃ c5, plot_ctrl w5 = Live c5 ∧
                (p_open (gnucmd (after_cmd (after_cmd (set_pstyle c0 v) t3) t4))
                 = false → p_open (gnucmd c5) = false) ∧
                remove_all (registry c5) (fs w5)
                = remove_all
                    (registry (after_cmd (after_cmd (set_pstyle c0 v) t3) t4))
                    (fs w2)) as (c5 & Hc5 & _ & Hrm).
      { assert (0 ≤ ntmp (after_cmd (after_cmd (set_pstyle c0 v) t3) t4))
          as Hnt' by (simpl; lia).
        destruct y as [yv|].
        - apply plot_xy_cleanup
            with (c := after_cmd (after_cmd (set_pstyle c0 v) t3) t4) in H5;
            [exact H5 | reflexivity | exact Hnt'].
        - apply plot_x_cleanup
            with (c := after_cmd (after_cmd (set_pstyle c0 v) t3) t4) in H5;
            [exact H5 | reflexivity | exact Hnt']. }
      exists c5. split; [exact Hc5|]. rewrite Hrm.
      unfold registry. simpl. rewrite Hnt. simpl. congruence. }
    intros Hfreed. unfold gnuplot_close, this_ctrl in H. simpl in H.
    rewrite Hc5 in H. simpl in H.
    destruct (p_open (gnucmd c5)); [|discriminate].
    destruct (pclose_ret =? -1); injection H as <-; [discriminate|].
    simpl. exact Hrm.
Qed.

(** ** The locator as a function of the environment *)

Lemma store_mid (pre : list ascii) (o : ascii) (old : list ascii)
    (c : ascii) :
  store (pre ++ o :: old) (length pre) c = Done (pre ++ c :: old).
Proof.
  unfold store. rewrite decide_True by (rewrite length_app; simpl; lia).
  rewrite insert_app_r_alt by lia. rewrite Nat.sub_diag. reflexivity.
Qed.

Lemma store_bytes_over (bs pre old : list ascii) :
  (length bs ≤ length old)%nat →
  store_bytes (pre ++ old) (length pre) bs
    = Done (pre ++ bs ++ drop (length bs) old).
Proof.
  revert pre old. induction bs as [|b bs IH]; intros pre old Hlen.
  - reflexivity.
  - destruct old as [|o old]; [simpl in Hlen; lia|].
    cbn [store_bytes]. rewrite store_mid, bind_Done.
    replace (S (length pre)) with (length (pre ++ [b]))
      by (rewrite length_app; simpl; lia).
    rewrite (cons_middle b pre old), app_assoc.
    rewrite IH by (simpl in Hlen; lia).
    rewrite <- app_assoc. reflexivity.
Qed.

Lemma strcpy_at_mid (pre old : list ascii) (s : string) :
  (S (String.length s) ≤ length old)%nat →
  strcpy_at (pre ++ old) (length pre) s
    = Done (pre ++ chars s ++ nul :: drop (S (String.length s)) old).
Proof.
  intros Hlen. unfold strcpy_at.
  rewrite store_bytes_over
    by (rewrite length_app, chars_length; simpl; lia).
  rewrite length_app, chars_length, Nat.add_1_r, <- app_assoc. reflexivity.
Qed.

Lemma cstring_app (l rest : list ascii) :
  nul ∉ l → cstring (l ++ nul :: rest) = Done l.
Proof.
  induction l as [|c l IH]; intros Hn.
  - reflexivity.
  - apply not_elem_of_cons in Hn as [Hc Hl]. cbn [app cstring].
    rewrite decide_False by congruence. rewrite (IH Hl). reflexivity.
Qed.

Lemma cstring_dir (d pn rest : list ascii) :
  nul ∉ d → nul ∉ pn →
  cstring (d ++ "/"%char :: pn ++ nul :: rest) = Done (d ++ "/"%char :: pn).
Proof.
  intros Hd Hp.
  replace (d ++ "/"%char :: pn ++ nul :: rest)
    with ((d ++ "/"%char :: pn) ++ nul :: rest)
    by (rewrite <- app_assoc; reflexivity).
  apply cstring_app. rewrite elem_of_app, elem_of_cons.
  intros [?|[?|?]]; auto. discriminate.
Qed.

Lemma chars_app (a b : string) : chars (a +:+ b) = chars a ++ chars b.
Proof.
  induction a as [|c a IH]; [reflexivity|].
  change (c :: chars (a +:+ b) = c :: chars a ++ chars b). by rewrite IH.
Qed.

Lemma text_chars (s : string) : text (chars s) = s.
Proof. apply string_of_list_ascii_of_string. Qed.

Lemma dir_of_nonempty (seg : string) :
  dir_of seg ≠ EmptyString ∧
  (String.length (dir_of seg) ≤ S (String.length seg))%nat ∧
  (nul ∉ chars seg → nul ∉ chars (dir_of seg)).
Proof.
  destruct seg as [|c seg]; simpl.
  - split; [discriminate|]. split; [lia|]. intros _.
    rewrite not_elem_of_cons. split; [discriminate | apply not_elem_of_nil].
  - split; [discriminate|]. split; [lia | auto].
Qed.

(** The segments of PATH are made of its characters. *)
Lemma path_segments_bound (path cur seg : string) :
  seg ∈ path_segments cur path →
  (String.length seg ≤ String.length cur + String.length path)%nat ∧
  (nul ∉ chars cur → nul ∉ chars path → nul ∉ chars seg).
Proof.
  revert cur. induction path as [|c path IH]; intros cur Hin.
  - simpl in Hin. destruct cur as [|a cur].
    + by apply elem_of_nil in Hin.
    + apply list_elem_of_singleton in Hin. subst seg. split; [lia | auto].
  - simpl in Hin. destruct (Ascii.eqb c ":").
    + apply elem_of_cons in Hin as [->|Hin]; [split; [lia | auto]|].
      destruct (IH _ Hin) as [Hl Hn]. split; [simpl in *; lia|].
      intros _ Hp. apply Hn; [apply not_elem_of_nil|].
      simpl in Hp. apply not_elem_of_cons in Hp. tauto.
    + destruct (IH _ Hin) as [Hl Hn]. split.
      * rewrite <- !chars_length in *. rewrite chars_app in Hl.
        rewrite length_app in Hl. simpl in *. lia.
      * intros Hc Hp. simpl in Hp. apply not_elem_of_cons in Hp as [Hc' Hp].
        apply Hn; [|exact Hp]. rewrite chars_app. simpl.
        rewrite elem_of_app, list_elem_of_singleton. intros [?|?]; auto.
Qed.

(** One directory tried: the buffer holds [dir/pname]. *)
Lemma try_dirs_cons env (pname seg : string) (rest : list string)
    (buf : list ascii) :
  nul ∉ chars seg → nul ∉ chars pname →
  (String.length (dir_of seg) + String.length pname + 2 ≤ length buf)%nat →
  ∃ tail,
    length (chars (dir_of seg) ++ "/"%char :: chars pname ++ nul :: tail)
      = length buf ∧
    try_dirs env pname (seg :: rest) buf =
      if access_X env (dir_of seg +:+ "/" +:+ pname)
      then Done (chars (dir_of seg) ++ "/"%char :: chars pname ++ nul :: tail)
      else try_dirs env pname rest
             (nul :: drop 1 (chars (dir_of seg) ++ "/"%char :: chars pname
                             ++ nul :: tail)).
Proof.
  intros Hseg Hpn Hlen.
  assert (∃ b1 tail1,
            store_bytes buf 0 (chars seg) = Done b1 ∧
            (if decide (String.length seg = 0)%nat
             then buf ← store b1 0 "."%char; Done (buf, 1%nat)
             else Done (b1, String.length seg))
            = Done (chars (dir_of seg) ++ tail1, String.length (dir_of seg)) ∧
            length (chars (dir_of seg) ++ tail1) = length buf)
    as (b1 & tail1 & Hfirst & Hsecond & Hlen1).
  { destruct seg as [|a seg].
    - destruct buf as [|o old]; [simpl in Hlen; lia|].
      exists (o :: old), old. repeat split.
    - simpl dir_of in Hlen.
      exists (chars (String a seg)
              ++ drop (length (chars (String a seg))) buf),
             (drop (length (chars (String a seg))) buf).
      split; [|split; [reflexivity|]].
      + apply (store_bytes_over (chars (String a seg)) [] buf).
        rewrite chars_length. lia.
      + rewrite length_app, length_drop, chars_length. simpl dir_of.
        rewrite chars_length. lia. }
  destruct (dir_of_nonempty seg) as (_ & Hdl & Hdn).
  specialize (Hdn Hseg).
  set (d := dir_of seg) in *.
  assert (String.length d + String.length pname + 2 ≤ length (chars d ++ tail1))%nat
    as Hroom by lia.
  rewrite length_app, chars_length in Hroom.
  destruct tail1 as [|o tail2]; [simpl in Hroom; lia|].
  simpl in Hroom.
  exists (drop (S (String.length pname)) tail2).
  assert (length (chars d ++ "/"%char :: chars pname ++ nul
                    :: drop (S (String.length pname)) tail2)
          = length buf) as Hlen2.
  { rewrite <- Hlen1. rewrite !length_app. simpl. rewrite !length_app. simpl.
    rewrite length_drop, !chars_length. lia. }
  split; [exact Hlen2|].
  cbn [try_dirs]. rewrite Hfirst, bind_Done, Hsecond, bind_Done.
  cbv beta iota.
  rewrite <- (chars_length d) at 1. rewrite store_mid, bind_Done.
  replace (S (String.length d)) with (length (chars d ++ ["/"%char]))
    by (rewrite length_app, chars_length; simpl; lia).
  rewrite (cons_middle "/"%char (chars d) tail2), app_assoc.
  rewrite strcpy_at_mid by lia. rewrite bind_Done.
  rewrite <- !app_assoc. simpl app.
  rewrite (cstring_dir _ _ _ Hdn Hpn), bind_Done.
  replace (text (chars d ++ "/"%char :: chars pname))
    with (d +:+ "/" +:+ pname).
  2:{ rewrite <- (text_chars (d +:+ "/" +:+ pname)), !chars_app.
      reflexivity. }
  destruct (access_X env (d +:+ "/" +:+ pname)); [reflexivity|].
  destruct (chars d) as [|c0 cs] eqn:Hcd.
  { destruct (dir_of_nonempty seg) as (Hne & _). fold d in Hne.
    destruct d; [contradiction | discriminate]. }
  change ((c0 :: cs) ++ "/"%char :: chars pname ++ nul
          :: drop (S (String.length pname)) tail2)
    with ([] ++ c0 :: (cs ++ "/"%char :: chars pname ++ nul
                       :: drop (S (String.length pname)) tail2)).
  rewrite (store_mid [] c0 _ nul), bind_Done. reflexivity.
Qed.

Lemma try_dirs_which env (pname : string) (segs : list string)
    (buf : list ascii) :
  nul ∉ chars pname →
  (∀ seg, seg ∈ tried env pname segs →
          (nul ∉ chars seg) ∧
          (String.length (dir_of seg) + String.length pname + 2
           ≤ length buf)%nat) →
  buf !! 0%nat = Some nul →
  ∃ buf', try_dirs env pname segs buf = Done buf' ∧
    match first_hit env pname segs with
    | Some d => d ≠ EmptyString ∧ (nul ∉ chars d) ∧
                ∃ tail, buf' = chars d ++ "/"%char :: chars pname
                                 ++ nul :: tail
    | None => buf' !! 0%nat = Some nul
    end.
Proof.
  intros Hpn. revert buf.
  induction segs as [|seg rest IH]; intros buf Hsegs H0.
  - exists buf. auto.
  - destruct (Hsegs seg) as [Hseg Hlen];
      [cbn [tried]; apply elem_of_cons; auto|].
    destruct (try_dirs_cons env pname seg rest buf Hseg Hpn Hlen)
      as (tail & Hl & Hrun).
    rewrite Hrun. cbn [first_hit].
    destruct (access_X env (dir_of seg +:+ "/" +:+ pname)) eqn:Hacc.
    + eexists. split; [reflexivity|].
      destruct (dir_of_nonempty seg) as (Hne & _ & Hn). eauto.
    + apply IH; [|reflexivity].
      intros s Hs. destruct (Hsegs s) as [Hs1 Hs2];
        [cbn [tried]; rewrite Hacc; apply elem_of_cons; auto|].
      split; [exact Hs1|].
      assert (length (nul :: drop 1 (chars (dir_of seg) ++ "/"%char
                                     :: chars pname ++ nul :: tail))
              = length buf) as ->; [|exact Hs2].
      simpl. rewrite length_drop, Hl. lia.
Qed.

(** The loop that cuts the program name off: everything from the last
    ['/'] on becomes NUL. *)
Lemma strip_name_dir (pre pn tail : list ascii) :
  "/"%char ∉ pn →
  strip_name (pre ++ "/"%char :: pn ++ tail) (length pre + length pn)
    = Done (pre ++ nul :: replicate (length pn) nul ++ tail).
Proof.
  revert tail. induction pn as [|c pn IH] using rev_ind; intros tail Hn.
  - simpl. rewrite Nat.add_0_r, strip_name_eq. unfold load, rd.
    rewrite list_lookup_middle by reflexivity. simpl. apply store_mid.
  - apply not_elem_of_app in Hn as [Hn Hc].
    apply not_elem_of_cons in Hc as [Hc _].
    rewrite length_app. simpl length.
    replace (length pre + (length pn + 1))%nat
      with (S (length pre + length pn)) by lia.
    cbn [strip_name]. unfold load, rd.
    assert (pre ++ "/"%char :: (pn ++ [c]) ++ tail
            = (pre ++ "/"%char :: pn) ++ c :: tail) as Hshape
      by (rewrite <- !app_assoc; reflexivity).
    assert (S (length pre + length pn) = length (pre ++ "/"%char :: pn))
      as Hidx by (rewrite length_app; simpl; lia).
    rewrite Hshape, Hidx.
    rewrite list_lookup_middle by reflexivity. simpl.
    rewrite decide_False by congruence.
    rewrite store_mid, bind_Done.
    rewrite <- app_assoc. simpl app.
    rewrite (IH (nul :: tail) Hn).
    rewrite Nat.add_1_r. rewrite replicate_S_end, <- app_assoc.
    reflexivity.
Qed.

(** X16.  [gnuplot_get_program_path] computes the function [which].  For a
    program name without NUL and without ['/'] and a buffer that holds
    [./pname] and every name [dir/pname] that is tried, each with its NUL
    (the directories tried are the segments of PATH up to the first hit;
    none of them holds a NUL): the text behind the pointer returned is
    ["."] when [./pname] is executable; otherwise the directory of the
    first segment of PATH, in order, under which [pname] is executable,
    an empty segment counting as ["."]; and the null pointer when there is
    none or PATH is not set. *)
Theorem X16_locator_is_which env (pname : string) (w : world) :
  nul ∉ chars pname → "/"%char ∉ chars pname →
  (String.length pname + 3 ≤ length (path_buf w))%nat →
  (∀ path seg,
      env_PATH env = Some path →
      access_X env ("./" +:+ pname) = false →
      seg ∈ tried env pname (path_segments EmptyString path) →
      (nul ∉ chars seg) ∧
      (String.length (dir_of seg) + String.length pname + 2
       ≤ length (path_buf w))%nat) →
  returned env pname w = Done (which env pname).
Proof.
  intros Hpn Hslash Hroom Hpath.
  unfold returned, gnuplot_get_program_path, which.
  assert (String.length ("./" +:+ pname) = S (S (String.length pname)))
    as Hl1 by reflexivity.
  assert (strcpy_at (path_buf w) 0 ("./" +:+ pname)
          = Done (chars ("./" +:+ pname) ++ nul
                  :: drop (S (String.length ("./" +:+ pname))) (path_buf w)))
    as H1.
  { apply (strcpy_at_mid [] (path_buf w) ("./" +:+ pname)).
    rewrite Hl1. lia. }
  rewrite H1, bind_Done. clear H1.
  rewrite cstring_app.
  2:{ change (chars ("./" +:+ pname))
        with ("."%char :: "/"%char :: chars pname).
      rewrite !not_elem_of_cons. repeat split; auto; discriminate. }
  rewrite bind_Done, text_chars.
  destruct (access_X env ("./" +:+ pname)) eqn:Hcwd.
  { set (b1 := chars ("./" +:+ pname) ++ nul
                 :: drop (S (String.length ("./" +:+ pname))) (path_buf w)).
    assert (strcpy_at b1 0 "."
            = Done (chars "." ++ nul :: drop (S (String.length ".")) b1))
      as H2.
    { apply (strcpy_at_mid [] b1 "."). unfold b1.
      rewrite length_app, chars_length. simpl. lia. }
    rewrite H2, bind_Done. reflexivity. }
  change (chars ("./" +:+ pname)) with ("."%char :: "/"%char :: chars pname).
  set (tail0 := drop (S (String.length ("./" +:+ pname))) (path_buf w)).
  assert (length ("."%char :: "/"%char :: chars pname ++ nul :: tail0)
          = length (path_buf w)) as Hlen0.
  { unfold tail0. simpl. rewrite length_app. simpl.
    rewrite length_drop, chars_length.
    change (EmptyString +:+ pname) with pname. lia. }
  simpl app. unfold store at 1. simpl length.
  rewrite decide_True by lia. rewrite bind_Done.
  simpl (<[0%nat := nul]> _).
  destruct (env_PATH env) as [path|] eqn:HP.
  2:{ reflexivity. }
  destruct (try_dirs_which env pname (path_segments EmptyString path)
              (nul :: "/"%char :: chars pname ++ nul :: tail0) Hpn)
    as (buf' & Hrun & Hres).
  { intros seg Hin.
    destruct (Hpath path seg eq_refl eq_refl Hin) as [Hn Hl].
    split; [exact Hn|]. simpl in Hlen0. simpl. lia. }
  { reflexivity. }
  rewrite Hrun, !bind_Done. cbv beta iota.
  destruct (first_hit env pname (path_segments EmptyString path)) as [d|].
  - destruct Hres as (Hne & Hdn & tail & ->).
    destruct (chars d) as [|c0 cs] eqn:Hcd.
    { destruct d; [contradiction | discriminate]. }
    unfold load, rd. simpl.
    apply not_elem_of_cons in Hdn as [Hc0 Hcs].
    rewrite decide_False by congruence.
    rewrite decide_False by congruence.
    rewrite (cstring_dir _ _ _ Hcs Hpn). simpl.
    rewrite length_app. simpl length. rewrite Nat.sub_0_r.
    replace (length cs + S (length (chars pname)))%nat
      with (length (c0 :: cs) + length (chars pname))%nat by (simpl; lia).
    change (c0 :: cs ++ "/"%char :: chars pname ++ nul :: tail)
      with ((c0 :: cs) ++ "/"%char :: chars pname ++ nul :: tail).
    rewrite (strip_name_dir (c0 :: cs) (chars pname) (nul :: tail) Hslash).
    rewrite !bind_Done. cbn [pointee path_buf with_buf].
    rewrite cstring_app
      by (rewrite not_elem_of_cons; split; [exact Hc0 | exact Hcs]).
    rewrite bind_Done, <- Hcd, text_chars. reflexivity.
  - unfold load, rd. rewrite Hres. reflexivity.
Qed.

(** ** The segments of PATH *)

Lemma path_segments_plain (s cur : string) :
  ":"%char ∉ chars s →
  path_segments cur s
    = match cur +:+ s with EmptyString => [] | t => [t] end.
Proof.
  revert cur. induction s as [|c s IH]; intros cur Hs.
  - rewrite append_empty_r. destruct cur; reflexivity.
  - simpl in Hs. apply not_elem_of_cons in Hs as [Hc Hs].
    cbn [path_segments].
    rewrite (proj2 (Ascii.eqb_neq c ":")) by congruence.
    rewrite (IH _ Hs), append_assoc. reflexivity.
Qed.

Lemma path_segments_colon (s cur rest : string) :
  ":"%char ∉ chars s →
  path_segments cur (s +:+ ":" +:+ rest)
    = (cur +:+ s) :: path_segments EmptyString rest.
Proof.
  revert cur. induction s as [|c s IH]; intros cur Hs.
  - rewrite append_empty_r. reflexivity.
  - simpl in Hs. apply not_elem_of_cons in Hs as [Hc Hs].
    change (String c s +:+ ":" +:+ rest)
      with (String c (s +:+ ":" +:+ rest)).
    cbn [path_segments].
    rewrite (proj2 (Ascii.eqb_neq c ":")) by congruence.
    rewrite (IH _ Hs), append_assoc. reflexivity.
Qed.

(** X17.  How the two loops over PATH cut it into directories: every
    segment that a colon ends is tried, an empty one included (it stands
    for the current directory); what follows the last colon is tried when
    it is not empty, so a colon at the end of PATH adds no directory. *)
Theorem X17_path_split (segs : list string) (last : string) :
  (∀ s, s ∈ segs → ":"%char ∉ chars s) → ":"%char ∉ chars last →
  path_segments EmptyString (colon_joined segs last)
    = segs ++ match last with EmptyString => [] | _ => [last] end.
Proof.
  intros Hsegs Hlast. induction segs as [|s segs IH].
  - simpl. rewrite (path_segments_plain last EmptyString Hlast).
    destruct last; reflexivity.
  - cbn [colon_joined foldr].
    rewrite path_segments_colon by (apply Hsegs; apply elem_of_cons; auto).
    fold (colon_joined segs last).
    rewrite IH by (intros t Ht; apply Hsegs; apply elem_of_cons; auto).
    reflexivity.
Qed.

(** ** The constructor *)

(** X18.  The constructor calls [gnuplot_setstyle] on whatever
    [gnuplot_init] returned.  When that is the null pointer (no gnuplot in
    the current directory or PATH, or [popen] failed) the constructor
    dereferences it.  Otherwise it leaves a live session with an open pipe
    to which nothing was sent, both counters at zero, an empty registry
    and the style [points], whatever the memory [malloc] returned held;
    [gnuplot_setstyle] prints no warning and no file is touched. *)
Theorem X18_constructor env (w w1 : world) (h : handle) :
  gnuplot_init env w = Done (h, w1) →
  (h = Null → GnuPlot env w = Fault NullDeref) ∧
  (h ≠ Null →
   ∃ w' c, GnuPlot env w = Done w' ∧ plot_ctrl w' = Live c ∧
           gnucmd c = Pipe true [] ∧ nplots c = 0 ∧ ntmp c = 0 ∧
           registry c = [] ∧ pstyle c = "points" ∧
           stderr w' = stderr w1 ∧ fs w' = fs w).
Proof.
  intros Hi. unfold GnuPlot. rewrite Hi, bind_Done. cbv beta iota.
  apply gnuplot_init_handle in Hi as [Hfs Hh]. split.
  - intros ->. reflexivity.
  - intros Hnn. destruct Hh as [->|(c & -> & Hnt & Hnp & Hp)];
      [contradiction|].
    rewrite (setstyle_live "points" (with_ctrl w1 (Live c)) c eq_refl).
    rewrite (bool_decide_eq_false_2 ("points" ∉ styles)).
    2:{ intros Hnot. apply Hnot. unfold styles. rewrite !elem_of_cons.
        tauto. }
    eexists _, _. split; [reflexivity|]. split; [reflexivity|]. simpl.
    unfold registry. simpl. rewrite Hnt. repeat split; auto.
Qed.

End Program.

(* ================================================================== *)
(** * Closed examples *)

Lemma session0_new : GnuPlot env_sample w_boot = Done session0.
Proof. vm_compute. reflexivity. Qed.

Lemma session0_reachable : reachable fmt_mant_exp "/tmp" 64 session0.
Proof. exact (reach_new _ _ _ env_sample w_boot session0 session0_new). Qed.

(** The claim of C1 as it stands fails on its own example: the sample -1
    is counted once in each of the three passes of the inner loop, and the
    fifth sample is not read, so the counts are [4,1,1,0]. *)
Lemma C1_counterexample :
  histogram_bins (Some edges0123) (Some samples5) 4 1
    = Done (Some (d_of_Z <$> [4; 1; 1; 0])) ∧
  histogram_bins (Some edges0123) (Some samples5) 4 1
    ≠ Done (Some (d_of_Z <$> [2; 1; 1; 0])).
Proof. split; [vm_compute; reflexivity | vm_compute; discriminate]. Qed.

Lemma C1_clamping_policy_witness :
  1 ≠ 0 ∧ ascending edges0123 = true ∧
  length (replicate 4 d_zero) = length edges0123 ∧
  strictly_inside edges0123 (d_dyadic 3 (-1)) = true ∧
  ∃ j v, replicate 4 d_zero !! j = Some v ∧
         hit edges0123 (d_dyadic 3 (-1)) j = true ∧
         bin_sample 1 (Some edges0123) (length edges0123) (d_dyadic 3 (-1))
                    (replicate 4 d_zero)
         = Done (<[j := d_incr v]> (replicate 4 d_zero)).
Proof.
  assert (1 ≠ 0) as H1 by lia.
  split; [exact H1|]. split; [reflexivity|]. split; [reflexivity|].
  split; [reflexivity|].
  apply (C1_clamping_policy 1 edges0123 (replicate 4 d_zero)
           (d_dyadic 3 (-1)) H1 eq_refl eq_refl).
  reflexivity.
Defined.

Lemma C2_close_after_failed_pclose_witness :
  plot_ctrl session0 = Live ctrl0 ∧ p_open (gnucmd ctrl0) = true ∧
  ∃ w' c', gnuplot_close (-1) session0 = Done w' ∧
           fs w' = fs session0 ∧
           plot_ctrl w' = Live c' ∧ plot_ctrl w' ≠ Freed ∧
           registry c' = registry ctrl0 ∧ ntmp c' = ntmp ctrl0.
Proof.
  split; [reflexivity|]. split; [reflexivity|].
  exact (proj1 (C2_close_after_failed_pclose session0 ctrl0 eq_refl eq_refl)).
Defined.

Lemma C3_registry_below_capacity_witness :
  1 ≤ 64 ∧
  (0 ≤ ntmp ctrl0 < 64 ∧ Z.of_nat (length (registry ctrl0)) < 64) ∧
  ∃ w', gnuplot_plot_x fmt_mant_exp "/tmp" 64 staging_ok
                       (Some edges0123) 4 None
                       (with_ctrl session0 (Live (set_ntmp ctrl0 63)))
        = Done w' ∧
        plot_ctrl w' = Live (set_ntmp ctrl0 63) ∧ fs w' = ∅.
Proof.
  assert (1 ≤ 64) as Hmax by lia.
  destruct (C3_registry_below_capacity fmt_mant_exp "/tmp" 64 Hmax)
    as (Hinv & Hx & _).
  split; [exact Hmax|]. split.
  - exact (Hinv session0 ctrl0 session0_reachable eq_refl).
  - destruct (Hx staging_ok (Some edges0123) 4 None
                 (with_ctrl session0 (Live (set_ntmp ctrl0 63)))
                 (set_ntmp ctrl0 63) eq_refl eq_refl)
      as (w' & Hrun & Hc & Hf & _).
    exists w'. split; [exact Hrun|]. split; [exact Hc | exact Hf].
Defined.

Lemma C4_overlay_counter_witness :
  1 ≤ 64 ∧
  (nplots ctrl0 = 0 ↔ plot_verb ctrl0 = "plot") ∧
  (∃ w' c',
      exec fmt_mant_exp "/tmp" 64 (CallPlotEquation (Some "sin(x)") None)
           session0 = Done w' ∧
      plot_ctrl w' = Live c' ∧
      nplots c' = nplots ctrl0 + 1 ∧
      ∃ rest, p_sent (gnucmd c') =
                p_sent (gnucmd ctrl0) ++ [plot_verb ctrl0 +:+ rest]) ∧
  (∃ w' c',
      exec fmt_mant_exp "/tmp" 64
           (CallPlotX staging_ok (Some points014) 3 None) session0
        = Done w' ∧
      plot_ctrl w' = Live c' ∧
      nplots c' = nplots ctrl0 + 1 ∧
      ∃ rest, p_sent (gnucmd c') =
                p_sent (gnucmd ctrl0) ++ [plot_verb ctrl0 +:+ rest]) ∧
  ∃ w1 c1, gnuplot_resetplot session0 = Done w1 ∧
           plot_ctrl w1 = Live c1 ∧ nplots c1 = 0 ∧ ntmp c1 = 0 ∧
           registry c1 = [] ∧
           ∃ w2 c2,
             exec fmt_mant_exp "/tmp" 64
                  (CallPlotSlope (d_of_Z 2) (d_of_Z 1) (Some "line")) w1
               = Done w2 ∧
             plot_ctrl w2 = Live c2 ∧ nplots c2 = 1 ∧
             ∃ rest, p_sent (gnucmd c2) =
                       p_sent (gnucmd ctrl0) ++ ["plot" +:+ rest].
Proof.
  assert (1 ≤ 64) as Hmax by lia.
  destruct (C4_overlay_counter fmt_mant_exp "/tmp" 64 Hmax)
    as (Hverb & Hstep & _ & Hreset).
  assert (plot_ctrl session0 = Live ctrl0) as Hc0 by reflexivity.
  split; [exact Hmax|]. split; [|split; [|split]].
  - exact (Hverb session0 ctrl0 session0_reachable Hc0).
  - assert (∃ w', exec fmt_mant_exp "/tmp" 64
                       (CallPlotEquation (Some "sin(x)") None) session0
                  = Done w') as [w' Hrun]
      by (eexists; vm_compute; reflexivity).
    assert (is_plot_call (CallPlotEquation (Some "sin(x)") None) = true)
      as Hk by reflexivity.
    destruct (Hstep _ session0 w' ctrl0 Hk Hc0 Hrun) as (c' & Hc & H).
    exists w', c'. split; [exact Hrun|]. split; [exact Hc | exact H].
  - assert (∃ w', exec fmt_mant_exp "/tmp" 64
                       (CallPlotX staging_ok (Some points014) 3 None)
                       session0
                  = Done w') as [w' Hrun]
      by (eexists; vm_compute; reflexivity).
    assert (is_plot_call (CallPlotX staging_ok (Some points014) 3 None)
            = true) as Hk by reflexivity.
    assert (plot_refused fmt_mant_exp "/tmp" 64
              (CallPlotX staging_ok (Some points014) 3 None)
              (ntmp ctrl0) (fs session0) = false) as Hgo
      by (vm_compute; reflexivity).
    destruct (Hstep _ session0 w' ctrl0 Hk Hc0 Hrun) as (c' & Hc & H).
    rewrite Hgo in H.
    exists w', c'. split; [exact Hrun|]. split; [exact Hc | exact H].
  - destruct (Hreset session0 ctrl0 Hc0)
      as (w1 & c1 & Hrun & Hc & Hn & Ht & Hr & _ & Hnext).
    exists w1, c1. repeat (split; [assumption|]).
    injection Hrun as <-.
    assert (∃ w2, exec fmt_mant_exp "/tmp" 64
                       (CallPlotSlope (d_of_Z 2) (d_of_Z 1) (Some "line"))
                       (with_ctrl session0
                          (Live (set_ntmp (set_nplots ctrl0 0) 0)))
                  = Done w2) as [w2 Hrun2]
      by (eexists; vm_compute; reflexivity).
    assert (is_plot_call (CallPlotSlope (d_of_Z 2) (d_of_Z 1) (Some "line"))
            = true) as Hk by reflexivity.
    destruct (Hnext _ w2 Hk Hrun2 eq_refl) as (c2 & Hc2 & Hn2 & Hs2).
    exists w2, c2. split; [exact Hrun2|]. split; [exact Hc2|].
    split; [exact Hn2 | exact Hs2].
Defined.

Lemma C5_setstyle_total_witness :
  plot_ctrl session0 = Live ctrl0 ∧
  ∃ w', gnuplot_setstyle (Some "dashes") session0 = Done w' ∧
        plot_ctrl w' = Live (set_pstyle ctrl0 "points").
Proof.
  split; [reflexivity|].
  destruct (C5_setstyle_total "dashes" session0 ctrl0 eq_refl)
    as (w' & Hrun & Hc & _).
  exists w'. split; [exact Hrun | exact Hc].
Defined.

Lemma C6_slope_null_title_witness :
  plot_ctrl session0 = Live ctrl0 ∧
  gnuplot_plot_slope fmt_mant_exp (d_of_Z 1) d_zero None session0
    = Fault NullString.
Proof.
  split; [reflexivity|].
  exact (proj1 (C6_slope_null_title fmt_mant_exp (d_of_Z 1) d_zero
                  session0 ctrl0 eq_refl)).
Defined.

Lemma C7_strict_policy_witness :
  ascending edges0123 = true ∧
  length (replicate 4 d_zero) = length edges0123 ∧
  in_range edges0123 (d_of_Z (-1)) = false ∧
  bin_sample 0 (Some edges0123) (length edges0123) (d_of_Z (-1))
             (replicate 4 d_zero)
    = Done (replicate 4 d_zero).
Proof.
  split; [reflexivity|]. split; [reflexivity|]. split; [reflexivity|].
  apply (C7_strict_policy edges0123 (replicate 4 d_zero) (d_of_Z (-1))
           eq_refl eq_refl).
  reflexivity.
Defined.

(** The claim of C8 as it stands fails when a write falls short:
    [gnuplot_plot_x] does not look at what [write] returns, so with three
    samples, room in the registry and [mkstemp] succeeding, the call
    registers the file, sends the command and counts it, while the file
    holds two lines, not three. *)
Lemma C8_counterexample :
  3 = Z.of_nat (length points014) ∧
  0 ≤ ntmp ctrl0 < 64 - 1 ∧
  mkstemp "/tmp" staging_short (fs session0)
    = Some (tmp_name, {[tmp_name := EmptyString]}) ∧
  ∃ w' c',
    gnuplot_plot_x fmt_mant_exp "/tmp" 64 staging_short
                   (Some points014) 3 None session0 = Done w' ∧
    plot_ctrl w' = Live c' ∧
    registry c' = [tmp_name] ∧ nplots c' = nplots ctrl0 + 1 ∧
    p_sent (gnucmd c') = [series_line ctrl0 tmp_name None +:+ LF] ∧
    fs w' !! tmp_name
      = Some (lines_of (fmt_mant_exp <$> [d_of_Z 0; d_of_Z 4])) ∧
    fs w' !! tmp_name ≠ Some (lines_of (fmt_mant_exp <$> points014)).
Proof.
  split; [reflexivity|]. split; [simpl; lia|]. split; [reflexivity|].
  eexists _, _. split; [vm_compute; reflexivity|].
  split; [reflexivity|]. split; [vm_compute; reflexivity|].
  split; [reflexivity|]. split; [vm_compute; reflexivity|].
  split; [vm_compute; reflexivity|].
  vm_compute. discriminate.
Qed.

Lemma C8_plot_x_stages_one_file_witness :
  64 ≤ INT_MAX ∧
  plot_ctrl session0 = Live ctrl0 ∧ p_open (gnucmd ctrl0) = true ∧
  4 = Z.of_nat (length (d_of_Z <$> [0; 1; 4; 9])) ∧ 1 ≤ 4 ∧
  0 ≤ ntmp ctrl0 < 64 - 1 ∧
  mkstemp "/tmp" staging_ok (fs session0)
    = Some ("/tmp/gnuplot-i-a1B2c3",
            {["/tmp/gnuplot-i-a1B2c3" := EmptyString]}) ∧
  (∀ i line, write_ret staging_ok i line = Z.of_nat (String.length line)) ∧
  vsprintf0 (series_line ctrl0 "/tmp/gnuplot-i-a1B2c3" (Some "parabola"))
    = Some (series_line ctrl0 "/tmp/gnuplot-i-a1B2c3" (Some "parabola")) ∧
  (String.length
     (series_line ctrl0 "/tmp/gnuplot-i-a1B2c3" (Some "parabola"))
   < GP_CMD_SIZE)%nat ∧
  (String.length
     (series_line ctrl0 "/tmp/gnuplot-i-a1B2c3" (Some "parabola")) + 1
   < GP_CMD_SIZE)%nat ∧
  nplots ctrl0 < INT_MAX ∧
  ∃ w' c',
    gnuplot_plot_x fmt_mant_exp "/tmp" 64 staging_ok
                   (Some (d_of_Z <$> [0; 1; 4; 9])) 4 (Some "parabola")
                   session0 = Done w' ∧
    plot_ctrl w' = Live c' ∧
    fs w' = {["/tmp/gnuplot-i-a1B2c3" :=
                lines_of (fmt_mant_exp <$> (d_of_Z <$> [0; 1; 4; 9]))]} ∧
    registry c' = ["/tmp/gnuplot-i-a1B2c3"] ∧
    nplots c' = 1.
Proof.
  assert (64 ≤ INT_MAX) as Hmax by (unfold INT_MAX; lia).
  assert (1 ≤ 4) as Hn by lia.
  assert (0 ≤ ntmp ctrl0 < 64 - 1) as Hcap by (simpl; lia).
  assert (nplots ctrl0 < INT_MAX) as Hnp by (unfold INT_MAX; simpl; lia).
  assert (∀ i line,
            write_ret staging_ok i line = Z.of_nat (String.length line))
    as Hwr by (intros; reflexivity).
  assert (4 = Z.of_nat (length (d_of_Z <$> [0; 1; 4; 9]))) as Hlen
    by reflexivity.
  assert (mkstemp "/tmp" staging_ok (fs session0)
          = Some ("/tmp/gnuplot-i-a1B2c3",
                  {["/tmp/gnuplot-i-a1B2c3" := EmptyString]})) as Hmk
    by reflexivity.
  assert (vsprintf0
            (series_line ctrl0 "/tmp/gnuplot-i-a1B2c3" (Some "parabola"))
          = Some (series_line ctrl0 "/tmp/gnuplot-i-a1B2c3"
                              (Some "parabola"))) as Hfmt
    by reflexivity.
  assert (String.length
            (series_line ctrl0 "/tmp/gnuplot-i-a1B2c3" (Some "parabola"))
          < GP_CMD_SIZE)%nat as Hfit
    by (apply Nat.ltb_lt; vm_compute; reflexivity).
  assert (String.length
            (series_line ctrl0 "/tmp/gnuplot-i-a1B2c3" (Some "parabola")) + 1
          < GP_CMD_SIZE)%nat as Hcmd
    by (apply Nat.ltb_lt; vm_compute; reflexivity).
  repeat (split; [first [assumption | reflexivity]|]).
  destruct (C8_plot_x_stages_one_file fmt_mant_exp "/tmp" 64 staging_ok
              (d_of_Z <$> [0; 1; 4; 9]) 4 (Some "parabola") session0 ctrl0
              "/tmp/gnuplot-i-a1B2c3"
              (series_line ctrl0 "/tmp/gnuplot-i-a1B2c3" (Some "parabola"))
              {["/tmp/gnuplot-i-a1B2c3" := EmptyString]}
              Hmax eq_refl eq_refl Hlen Hn Hcap Hmk Hwr Hfmt Hfit Hcmd Hnp)
    as (w' & c' & Hrun & Hc & _ & Hfs & _ & Hreg & _ & Hnpl & _).
  exists w', c'. split; [exact Hrun|]. split; [exact Hc|].
  split; [exact Hfs|]. split; [exact Hreg | exact Hnpl].
Defined.



(** The claim of C10 as it stands fails: a call leaves its result in the
    static buffer, which is therefore not what it was before the call, and
    a later call for another name changes the text behind the pointer the
    earlier call returned (here from "/bin" to the empty string). *)
Lemma C10_counterexample :
  ∃ w1 w2,
    gnuplot_get_program_path env_bin "ls" w_boot = Done (BUF, w1) ∧
    pointee BUF w1 = Done (Some "/bin") ∧
    path_buf w1 ≠ path_buf w_boot ∧
    gnuplot_get_program_path env_bin "cat" w1 = Done (NULL, w2) ∧
    pointee BUF w2 = Done (Some EmptyString).
Proof.
  eexists _, _. split; [vm_compute; reflexivity|].
  split; [vm_compute; reflexivity|]. split; [vm_compute; discriminate|].
  split; vm_compute; reflexivity.
Qed.

Lemma C10_locator_static_buffer_witness :
  gnuplot_get_program_path env_sample "gnuplot" w_boot
    = Done (BUF, with_buf w_boot (path_buf session0)) ∧
  ∃ w2, gnuplot_get_program_path env_sample "gnuplot"
                                 (with_buf w_boot (path_buf session0))
        = Done (BUF, w2) ∧
        pointee BUF w2 = pointee BUF (with_buf w_boot (path_buf session0)).
Proof.
  assert (gnuplot_get_program_path env_sample "gnuplot" w_boot
          = Done (BUF, with_buf w_boot (path_buf session0))) as H
    by (vm_compute; reflexivity).
  split; [exact H|].
  exact (proj1 (proj2 (C10_locator_static_buffer env_sample "gnuplot" w_boot
                         (with_buf w_boot (path_buf session0)) BUF H))).
Defined.

(** ** Closed examples of the further properties *)

Lemma X1_cmd_text_witness :
  plot_ctrl session0 = Live ctrl0 ∧ p_open (gnucmd ctrl0) = true ∧
  percent_free "set grid" = true ∧ percent_free "set title '100" = true ∧
  percent_free "'" = true ∧
  gnuplot_cmd "set grid" session0
    = Done (with_ctrl session0 (Live (after_cmd ctrl0 "set grid"))) ∧
  gnuplot_cmd "set title '100%%'" session0
    = Done (with_ctrl session0 (Live (after_cmd ctrl0 "set title '100%'"))) ∧
  gnuplot_cmd "set title '100%'" session0 = Fault BadFormat.
Proof.
  assert (plot_ctrl session0 = Live ctrl0) as Hc by reflexivity.
  assert (p_open (gnucmd ctrl0) = true) as Ho by reflexivity.
  assert (percent_free "set grid" = true) as Hp by reflexivity.
  assert (percent_free "set title '100" = true) as Ht by reflexivity.
  assert (percent_free "'" = true) as He by reflexivity.
  assert (String.length "set grid" + 1 < GP_CMD_SIZE)%nat as Hl1
    by (apply Nat.ltb_lt; reflexivity).
  assert (String.length "set title '100" + String.length "'" + 2
          < GP_CMD_SIZE)%nat as Hl2
    by (apply Nat.ltb_lt; reflexivity).
  assert (String.length "set title '100" ≤ GP_CMD_SIZE)%nat as Hl3
    by (apply Nat.leb_le; reflexivity).
  assert ("'"%char ≠ "%"%char) as Hq by discriminate.
  repeat (split; [assumption|]).
  split; [|split].
  - exact (proj1 (X1_cmd_text session0 ctrl0 "set grid" "'" Hc Ho Hp He)
                 Hl1).
  - exact (proj1 (proj2 (proj2 (X1_cmd_text session0 ctrl0 "set title '100"
                                  "'" Hc Ho Ht He))) Hl2).
  - exact (proj2 (proj2 (proj2 (proj2 (X1_cmd_text session0 ctrl0
                                         "set title '100" "'" Hc Ho Ht He)))
                   Hl3) "'"%char EmptyString Hq).
Defined.

Lemma X2_labels_witness :
  plot_ctrl session0 = Live ctrl0 ∧ p_open (gnucmd ctrl0) = true ∧
  percent_free "time" = true ∧
  gnuplot_set_title (Some "time") session0
    = Done (with_ctrl session0
              (Live (after_cmd ctrl0 "set title 'time'"))) ∧
  gnuplot_set_xlabel (Some "time") session0
    = Done (with_ctrl session0
              (Live (after_cmd ctrl0 ("set xlabel " +:+ DQ +:+ "time"
                                      +:+ DQ)))) ∧
  gnuplot_set_title None session0 = Fault NullString.
Proof.
  assert (plot_ctrl session0 = Live ctrl0) as Hc by reflexivity.
  assert (p_open (gnucmd ctrl0) = true) as Ho by reflexivity.
  assert (percent_free "time" = true) as Hp by reflexivity.
  assert (String.length "time" + 13 < GP_CMD_SIZE)%nat as Hl1
    by (apply Nat.ltb_lt; reflexivity).
  assert (String.length "time" + 14 < GP_CMD_SIZE)%nat as Hl2
    by (apply Nat.ltb_lt; reflexivity).
  repeat (split; [assumption|]).
  destruct (X2_labels session0 ctrl0 "time" Hc Ho Hp)
    as (Ht & Hx & _ & _ & Hn & _).
  split; [exact (Ht Hl1)|]. split; [exact (proj1 (Hx Hl2)) | exact Hn].
Defined.

Lemma X3_resetplot_removes_registry_witness :
  plot_ctrl session0 = Live ctrl0 ∧
  ∃ w' c', gnuplot_resetplot session0 = Done w' ∧ plot_ctrl w' = Live c' ∧
           registry c' = [] ∧ nplots c' = 0.
Proof.
  assert (plot_ctrl session0 = Live ctrl0) as Hc by reflexivity.
  split; [exact Hc|].
  destruct (X3_resetplot_removes_registry session0 ctrl0 Hc)
    as (w' & c' & Hrun & Hc' & _ & Hreg & Hn & _).
  exists w', c'. auto.
Defined.

Lemma X4_close_then_use_witness :
  plot_ctrl session0 = Live ctrl0 ∧ p_open (gnucmd ctrl0) = true ∧ 0 ≠ -1 ∧
  ∃ w', gnuplot_close 0 session0 = Done w' ∧ plot_ctrl w' = Freed ∧
        gnuplot_resetplot w' = Fault UseAfterFree ∧
        gnuplot_close 0 w' = Fault UseAfterFree ∧
        gnuplot_cmd "set grid" w' = Fault UseAfterFree ∧
        gnuplot_plot_equation (Some "sin(x)") (Some "sine") w'
          = Fault UseAfterFree.
Proof.
  assert (plot_ctrl session0 = Live ctrl0) as Hc by reflexivity.
  assert (p_open (gnucmd ctrl0) = true) as Ho by reflexivity.
  assert (0 ≠ -1) as Hr by lia.
  assert (percent_free "set grid" = true) as Hp by reflexivity.
  assert (String.length "set grid" + 1 < GP_CMD_SIZE)%nat as Hl
    by (apply Nat.ltb_lt; reflexivity).
  assert (String.length "sine" < GP_TITLE_SIZE)%nat as Ht
    by (apply Nat.ltb_lt; reflexivity).
  repeat (split; [assumption|]).
  destruct (X4_close_then_use fmt_mant_exp "/tmp" 64 0 session0 ctrl0
              Hc Ho Hr)
    as (w' & Hrun & Hf & _ & Hcmd & _ & Hreset & Hclose & _ & Heq & _).
  exists w'. split; [exact Hrun|]. split; [exact Hf|].
  split; [exact Hreset|]. split; [exact (Hclose 0)|].
  split; [exact (Hcmd "set grid" Hp Hl)|].
  exact (Heq (Some "sin(x)") (Some "sine") Ht).
Defined.

Lemma X5_plot_xy_stages_points_witness :
  64 ≤ INT_MAX ∧
  plot_ctrl session0 = Live ctrl0 ∧ p_open (gnucmd ctrl0) = true ∧
  1 ≤ 3 ∧ (Z.to_nat 3 ≤ length points012)%nat ∧
  (Z.to_nat 3 ≤ length points014)%nat ∧
  0 ≤ ntmp ctrl0 < 64 - 1 ∧
  mkstemp "/tmp" staging_ok (fs session0)
    = Some (tmp_name, {[tmp_name := EmptyString]}) ∧
  (∀ i line, write_ret staging_ok i line = Z.of_nat (String.length line)) ∧
  short_lines (xy_lines fmt_mant_exp (take (Z.to_nat 3) points012)
                        (take (Z.to_nat 3) points014)) ∧
  vsprintf0 (series_line ctrl0 tmp_name None)
    = Some (series_line ctrl0 tmp_name None) ∧
  (String.length (series_line ctrl0 tmp_name None) < GP_CMD_SIZE)%nat ∧
  (String.length (series_line ctrl0 tmp_name None) + 1 < GP_CMD_SIZE)%nat ∧
  nplots ctrl0 < INT_MAX ∧
  ∃ w' c',
    gnuplot_plot_xy fmt_mant_exp "/tmp" 64 staging_ok
                    (Some points012) (Some points014) 3 None session0
      = Done w' ∧
    plot_ctrl w' = Live c' ∧
    fs w' = {[tmp_name := lines_of (xy_lines fmt_mant_exp points012
                                             points014)]} ∧
    registry c' = [tmp_name] ∧ nplots c' = 1.
Proof.
  assert (64 ≤ INT_MAX) as Hmax by (unfold INT_MAX; lia).
  assert (plot_ctrl session0 = Live ctrl0) as Hc by reflexivity.
  assert (p_open (gnucmd ctrl0) = true) as Ho by reflexivity.
  assert (1 ≤ 3) as Hn by lia.
  assert (Z.to_nat 3 ≤ length points012)%nat as Hx by (simpl; lia).
  assert (Z.to_nat 3 ≤ length points014)%nat as Hy by (simpl; lia).
  assert (0 ≤ ntmp ctrl0 < 64 - 1) as Hcap by (simpl; lia).
  assert (mkstemp "/tmp" staging_ok (fs session0)
          = Some (tmp_name, {[tmp_name := EmptyString]})) as Hmk
    by reflexivity.
  assert (∀ i line,
            write_ret staging_ok i line = Z.of_nat (String.length line))
    as Hwr by (intros; reflexivity).
  assert (short_lines (xy_lines fmt_mant_exp (take (Z.to_nat 3) points012)
                                (take (Z.to_nat 3) points014))) as Hshort
    by (repeat constructor).
  assert (vsprintf0 (series_line ctrl0 tmp_name None)
          = Some (series_line ctrl0 tmp_name None)) as Hfmt by reflexivity.
  assert (String.length (series_line ctrl0 tmp_name None)
          < GP_CMD_SIZE)%nat as Hfit
    by (apply Nat.ltb_lt; vm_compute; reflexivity).
  assert (String.length (series_line ctrl0 tmp_name None) + 1
          < GP_CMD_SIZE)%nat as Hcmd
    by (apply Nat.ltb_lt; vm_compute; reflexivity).
  assert (nplots ctrl0 < INT_MAX) as Hnp by (unfold INT_MAX; simpl; lia).
  repeat (split; [assumption|]).
  destruct (X5_plot_xy_stages_points fmt_mant_exp "/tmp" 64 staging_ok
              points012 points014 3 None session0 ctrl0 tmp_name
              (series_line ctrl0 tmp_name None) {[tmp_name := EmptyString]}
              Hmax Hc Ho Hn Hx Hy Hcap Hmk Hwr Hshort Hfmt Hfit Hcmd Hnp)
    as (w' & c' & Hrun & Hc' & _ & Hfs & _ & Hreg & _ & Hnpl & _).
  exists w', c'. split; [exact Hrun|]. split; [exact Hc'|].
  split; [exact Hfs|]. split; [exact Hreg | exact Hnpl].
Defined.

Lemma X6_plot_xy_short_write_witness :
  64 ≤ INT_MAX ∧ plot_ctrl session0 = Live ctrl0 ∧
  0 ≤ ntmp ctrl0 < 64 - 1 ∧
  mkstemp "/tmp" staging_short (fs session0)
    = Some (tmp_name, {[tmp_name := EmptyString]}) ∧
  (1 < Z.to_nat 3)%nat ∧
  points012 !! 1%nat = Some (d_of_Z 1) ∧
  points014 !! 1%nat = Some (d_of_Z 1) ∧
  (∀ m line, (m < 1)%nat →
             write_ret staging_short m line
             = Z.of_nat (String.length line)) ∧
  short_lines (xy_lines fmt_mant_exp (take 1 points012) (take 1 points014)) ∧
  (write_ret staging_short 1
     (fmt_mant_exp (d_of_Z 1) +:+ " " +:+ fmt_mant_exp (d_of_Z 1) +:+ LF))
     mod UINT_MOD
    ≠ Z.of_nat (String.length (fmt_mant_exp (d_of_Z 1) +:+ " "
                               +:+ fmt_mant_exp (d_of_Z 1) +:+ LF)) ∧
  ∃ w' c',
    gnuplot_plot_xy fmt_mant_exp "/tmp" 64 staging_short
                    (Some points012) (Some points014) 3 None session0
      = Done w' ∧
    plot_ctrl w' = Live c' ∧
    registry c' = [tmp_name] ∧ nplots c' = 0 ∧ gnucmd c' = gnucmd ctrl0.
Proof.
  assert (64 ≤ INT_MAX) as Hmax by (unfold INT_MAX; lia).
  assert (plot_ctrl session0 = Live ctrl0) as Hc by reflexivity.
  assert (0 ≤ ntmp ctrl0 < 64 - 1) as Hcap by (simpl; lia).
  assert (mkstemp "/tmp" staging_short (fs session0)
          = Some (tmp_name, {[tmp_name := EmptyString]})) as Hmk
    by reflexivity.
  assert (1 < Z.to_nat 3)%nat as Hj by (simpl; lia).
  assert (points012 !! 1%nat = Some (d_of_Z 1)) as Ha by reflexivity.
  assert (points014 !! 1%nat = Some (d_of_Z 1)) as Hb by reflexivity.
  assert (∀ m line, (m < 1)%nat →
                    write_ret staging_short m line
                    = Z.of_nat (String.length line)) as Hwr.
  { intros m line Hm. destruct m as [|m]; [reflexivity | lia]. }
  assert (short_lines (xy_lines fmt_mant_exp (take 1 points012)
                                (take 1 points014))) as Hshort
    by (repeat constructor).
  assert ((write_ret staging_short 1
             (fmt_mant_exp (d_of_Z 1) +:+ " " +:+ fmt_mant_exp (d_of_Z 1)
              +:+ LF)) mod UINT_MOD
          ≠ Z.of_nat (String.length (fmt_mant_exp (d_of_Z 1) +:+ " "
                                     +:+ fmt_mant_exp (d_of_Z 1) +:+ LF)))
    as Hbad by (vm_compute; discriminate).
  repeat (split; [assumption|]).
  destruct (X6_plot_xy_short_write fmt_mant_exp "/tmp" 64 staging_short
              points012 points014 3 1 (d_of_Z 1) (d_of_Z 1) None session0
              ctrl0 tmp_name {[tmp_name := EmptyString]}
              Hmax Hc Hcap Hmk Hj Ha Hb Hwr Hshort Hbad)
    as (w' & c' & Hrun & Hc' & _ & _ & Hreg & _ & Hnpl & Hcmd & _).
  exists w', c'. split; [exact Hrun|]. split; [exact Hc'|].
  split; [exact Hreg|]. split; [exact Hnpl | exact Hcmd].
Defined.

Lemma X7_plot_x_ignores_write_results_witness :
  64 ≤ INT_MAX ∧
  plot_ctrl session0 = Live ctrl0 ∧ p_open (gnucmd ctrl0) = true ∧
  1 ≤ 3 ∧ (Z.to_nat 3 ≤ length points014)%nat ∧
  0 ≤ ntmp ctrl0 < 64 - 1 ∧
  mkstemp "/tmp" staging_short (fs session0)
    = Some (tmp_name, {[tmp_name := EmptyString]}) ∧
  vsprintf0 (series_line ctrl0 tmp_name None)
    = Some (series_line ctrl0 tmp_name None) ∧
  (String.length (series_line ctrl0 tmp_name None) < GP_CMD_SIZE)%nat ∧
  (String.length (series_line ctrl0 tmp_name None) + 1 < GP_CMD_SIZE)%nat ∧
  nplots ctrl0 < INT_MAX ∧
  ∃ w' c',
    gnuplot_plot_x fmt_mant_exp "/tmp" 64 staging_short
                   (Some points014) 3 None session0 = Done w' ∧
    plot_ctrl w' = Live c' ∧ nplots c' = 1 ∧
    p_sent (gnucmd c') = [series_line ctrl0 tmp_name None +:+ LF].
Proof.
  assert (64 ≤ INT_MAX) as Hmax by (unfold INT_MAX; lia).
  assert (plot_ctrl session0 = Live ctrl0) as Hc by reflexivity.
  assert (p_open (gnucmd ctrl0) = true) as Ho by reflexivity.
  assert (1 ≤ 3) as Hn by lia.
  assert (Z.to_nat 3 ≤ length points014)%nat as Hx by (simpl; lia).
  assert (0 ≤ ntmp ctrl0 < 64 - 1) as Hcap by (simpl; lia).
  assert (mkstemp "/tmp" staging_short (fs session0)
          = Some (tmp_name, {[tmp_name := EmptyString]})) as Hmk
    by reflexivity.
  assert (vsprintf0 (series_line ctrl0 tmp_name None)
          = Some (series_line ctrl0 tmp_name None)) as Hfmt by reflexivity.
  assert (String.length (series_line ctrl0 tmp_name None)
          < GP_CMD_SIZE)%nat as Hfit
    by (apply Nat.ltb_lt; vm_compute; reflexivity).
  assert (String.length (series_line ctrl0 tmp_name None) + 1
          < GP_CMD_SIZE)%nat as Hcmd
    by (apply Nat.ltb_lt; vm_compute; reflexivity).
  assert (nplots ctrl0 < INT_MAX) as Hnp by (unfold INT_MAX; simpl; lia).
  repeat (split; [assumption|]).
  destruct (X7_plot_x_ignores_write_results fmt_mant_exp "/tmp" 64
              staging_short points014 3 None session0 ctrl0 tmp_name
              (series_line ctrl0 tmp_name None) {[tmp_name := EmptyString]}
              Hmax Hc Ho Hn Hx Hcap Hmk Hfmt Hfit Hcmd Hnp)
    as (w' & c' & Hrun & Hc' & _ & _ & _ & _ & Hnpl & Hsent & _).
  exists w', c'. split; [exact Hrun|]. split; [exact Hc'|].
  split; [exact Hnpl | exact Hsent].
Defined.

Lemma X9_equation_command_witness :
  plot_ctrl session0 = Live ctrl0 ∧ p_open (gnucmd ctrl0) = true ∧
  nplots ctrl0 < INT_MAX ∧
  percent_free "sin(x)" = true ∧ percent_free "sine" = true ∧
  percent_free (pstyle ctrl0) = true ∧
  gnuplot_plot_equation (Some "sin(x)") (Some "sine") session0
    = Done (with_ctrl session0
              (Live (plotted ctrl0 (equation_line ctrl0 "sin(x)" "sine")))) ∧
  gnuplot_plot_equation (Some "sin(x)") (Some ("sine" +:+ "%")) session0
    = Fault BadFormat ∧
  gnuplot_plot_equation (Some "sin(x)")
      (Some "a title of eighty characters or more does not fit the title buffer of the builder")
      session0
    = Fault OutOfBounds.
Proof.
  assert (plot_ctrl session0 = Live ctrl0) as Hc by reflexivity.
  assert (p_open (gnucmd ctrl0) = true) as Ho by reflexivity.
  assert (nplots ctrl0 < INT_MAX) as Hnp by (unfold INT_MAX; simpl; lia).
  assert (percent_free "sin(x)" = true) as He by reflexivity.
  assert (percent_free "sine" = true) as Ht by reflexivity.
  assert (percent_free (pstyle ctrl0) = true) as Hs by reflexivity.
  assert (String.length "sine" < GP_TITLE_SIZE)%nat as Hl1
    by (apply Nat.ltb_lt; reflexivity).
  assert (String.length (equation_line ctrl0 "sin(x)" "sine") + 1
          < GP_CMD_SIZE)%nat as Hl2
    by (apply Nat.ltb_lt; vm_compute; reflexivity).
  assert (String.length ("sine" +:+ "%") < GP_TITLE_SIZE)%nat as Hl3
    by (apply Nat.ltb_lt; vm_compute; reflexivity).
  assert (String.length (equation_line ctrl0 "sin(x)" ("sine" +:+ "%"))
          < GP_CMD_SIZE)%nat as Hl4
    by (apply Nat.ltb_lt; vm_compute; reflexivity).
  assert (GP_TITLE_SIZE ≤ String.length
            "a title of eighty characters or more does not fit the title buffer of the builder")%nat
    as Hl5 by (apply Nat.leb_le; vm_compute; reflexivity).
  repeat (split; [assumption|]).
  destruct (X9_equation_command session0 ctrl0 "sin(x)" "sine"
              Hc Ho Hnp He Ht Hs) as (Hplain & _ & Hbad & _ & Hover & _).
  split; [exact (Hplain Hl1 Hl2)|]. split; [exact (Hbad Hl3 Hl4)|].
  exact (Hover (Some "sin(x)") _ Hl5).
Defined.

Lemma X10_slope_command_witness :
  plot_ctrl session0 = Live ctrl0 ∧ p_open (gnucmd ctrl0) = true ∧
  nplots ctrl0 < INT_MAX ∧
  percent_free (fmt_mant_exp (d_of_Z 2)) = true ∧
  percent_free (fmt_mant_exp (d_of_Z 1)) = true ∧
  percent_free "line" = true ∧ percent_free (pstyle ctrl0) = true ∧
  (∃ w' c',
    gnuplot_plot_slope fmt_mant_exp (d_of_Z 2) (d_of_Z 1) (Some "line")
                       session0 = Done w' ∧
    plot_ctrl w' = Live c' ∧ nplots c' = 1 ∧ fs w' = fs session0 ∧
    p_sent (gnucmd c')
      = [slope_line fmt_mant_exp ctrl0 (d_of_Z 2) (d_of_Z 1) "line"
         +:+ LF]) ∧
  gnuplot_plot_slope fmt_mant_exp (d_of_Z 2) (d_of_Z 1)
      (Some "a title of eighty characters or more does not fit the title buffer of the builder")
      session0
    = Fault OutOfBounds.
Proof.
  assert (plot_ctrl session0 = Live ctrl0) as Hc by reflexivity.
  assert (p_open (gnucmd ctrl0) = true) as Ho by reflexivity.
  assert (nplots ctrl0 < INT_MAX) as Hnp by (unfold INT_MAX; simpl; lia).
  assert (percent_free (fmt_mant_exp (d_of_Z 2)) = true) as Ha
    by (vm_compute; reflexivity).
  assert (percent_free (fmt_mant_exp (d_of_Z 1)) = true) as Hb
    by (vm_compute; reflexivity).
  assert (percent_free "line" = true) as Ht by reflexivity.
  assert (percent_free (pstyle ctrl0) = true) as Hs by reflexivity.
  assert (String.length "line" < GP_TITLE_SIZE)%nat as Hl1
    by (apply Nat.ltb_lt; reflexivity).
  assert (String.length
            (slope_line fmt_mant_exp ctrl0 (d_of_Z 2) (d_of_Z 1) "line") + 1
          < GP_CMD_SIZE)%nat as Hl2
    by (apply Nat.ltb_lt; vm_compute; reflexivity).
  assert (GP_TITLE_SIZE ≤ String.length
            "a title of eighty characters or more does not fit the title buffer of the builder")%nat
    as Hl3 by (apply Nat.leb_le; vm_compute; reflexivity).
  repeat (split; [assumption|]).
  destruct (X10_slope_command fmt_mant_exp (d_of_Z 2) (d_of_Z 1) "line"
              session0 ctrl0 Hc Ho Hnp Ha Hb Ht Hs)
    as (Hfits & Hover & _).
  split.
  - destruct (Hfits Hl1 Hl2) as (w' & c' & Hrun & Hc' & Hsent & Hnpl & Hfs & _).
    exists w', c'. split; [exact Hrun|]. split; [exact Hc'|].
    split; [exact Hnpl|]. split; [exact Hfs | exact Hsent].
  - exact (Hover (d_of_Z 2) (d_of_Z 1) _ Hl3).
Defined.

Lemma X11_clamped_sample_counted_per_interval_witness :
  1 ≠ 0 ∧ at_or_below edges0123 (d_of_Z (-1)) = true ∧
  replicate 4 d_zero !! 0%nat = Some d_zero ∧
  bin_sample 1 (Some edges0123) (length edges0123) (d_of_Z (-1))
             (replicate 4 d_zero)
    = Done (<[0%nat := Nat.iter (length edges0123 - 1) d_incr d_zero]>
              (replicate 4 d_zero)).
Proof.
  assert (1 ≠ 0) as Hov by lia.
  assert (at_or_below edges0123 (d_of_Z (-1)) = true) as Hlow
    by (vm_compute; reflexivity).
  assert (replicate 4 d_zero !! 0%nat = Some d_zero) as Hv by reflexivity.
  repeat (split; [assumption|]).
  exact (proj1 (X11_clamped_sample_counted_per_interval 1 edges0123
                  (replicate 4 d_zero) (d_of_Z (-1)) d_zero Hov) Hlow Hv).
Defined.

Lemma X12_histogram_counters_witness :
  0 ≤ 4 < UINT_MOD ∧ (Z.to_nat 4 ≤ length edges0123)%nat ∧
  (Z.to_nat 4 ≤ length samples5)%nat ∧
  ∃ bin, histogram_bins (Some edges0123) (Some samples5) 4 0
         = Done (Some bin) ∧
         length bin = Z.to_nat 4 ∧
         bin !! (Z.to_nat 4 - 1)%nat = Some d_zero.
Proof.
  assert (0 ≤ 4 < UINT_MOD) as Hn by (unfold UINT_MOD; lia).
  assert (Z.to_nat 4 ≤ length edges0123)%nat as Ho by (simpl; lia).
  assert (Z.to_nat 4 ≤ length samples5)%nat as Hr by (simpl; lia).
  assert (1 ≤ 4) as H1 by lia.
  repeat (split; [assumption|]).
  destruct (proj1 (X12_histogram_counters 0 edges0123 samples5 4 Hn Ho Hr))
    as (bin & Hrun & Hlen & Hlast).
  exists bin. split; [exact Hrun|]. split; [exact Hlen|].
  exact (Hlast eq_refl H1).
Defined.

Lemma X13_histogram_plot_witness :
  64 ≤ INT_MAX ∧
  plot_ctrl session0 = Live ctrl0 ∧ p_open (gnucmd ctrl0) = true ∧
  1 ≤ 4 ≤ INT_MAX ∧ (Z.to_nat 4 ≤ length edges0123)%nat ∧
  histogram_bins (Some edges0123) (Some samples5) 4 0
    = Done (Some (d_of_Z <$> [1; 1; 1; 0])) ∧
  0 ≤ ntmp ctrl0 < 64 - 1 ∧
  mkstemp "/tmp" staging_ok (fs session0)
    = Some (tmp_name, {[tmp_name := EmptyString]}) ∧
  (∀ i line, write_ret staging_ok i line = Z.of_nat (String.length line)) ∧
  short_lines (xy_lines fmt_mant_exp (take (Z.to_nat 4) edges0123)
                        (d_of_Z <$> [1; 1; 1; 0])) ∧
  vsprintf0 (series_line (set_pstyle ctrl0 "boxes") tmp_name None)
    = Some (series_line (set_pstyle ctrl0 "boxes") tmp_name None) ∧
  (String.length (series_line (set_pstyle ctrl0 "boxes") tmp_name None)
   < GP_CMD_SIZE)%nat ∧
  (String.length (series_line (set_pstyle ctrl0 "boxes") tmp_name None) + 1
   < GP_CMD_SIZE)%nat ∧
  nplots ctrl0 < INT_MAX ∧
  ∃ w' c',
    gnuplot_plot_histogram fmt_mant_exp "/tmp" 64 staging_ok
                           (Some edges0123) (Some samples5) 4 0 None session0
      = Done w' ∧
    plot_ctrl w' = Live c' ∧ pstyle c' = "boxes" ∧ nplots c' = 1 ∧
    registry c' = [tmp_name].
Proof.
  assert (64 ≤ INT_MAX) as Hmax by (unfold INT_MAX; lia).
  assert (plot_ctrl session0 = Live ctrl0) as Hc by reflexivity.
  assert (p_open (gnucmd ctrl0) = true) as Ho by reflexivity.
  assert (1 ≤ 4 ≤ INT_MAX) as Hn by (unfold INT_MAX; lia).
  assert (Z.to_nat 4 ≤ length edges0123)%nat as Hord by (simpl; lia).
  assert (histogram_bins (Some edges0123) (Some samples5) 4 0
          = Done (Some (d_of_Z <$> [1; 1; 1; 0]))) as Hbins
    by (vm_compute; reflexivity).
  assert (0 ≤ ntmp ctrl0 < 64 - 1) as Hcap by (simpl; lia).
  assert (mkstemp "/tmp" staging_ok (fs session0)
          = Some (tmp_name, {[tmp_name := EmptyString]})) as Hmk
    by reflexivity.
  assert (∀ i line,
            write_ret staging_ok i line = Z.of_nat (String.length line))
    as Hwr by (intros; reflexivity).
  assert (short_lines (xy_lines fmt_mant_exp (take (Z.to_nat 4) edges0123)
                                (d_of_Z <$> [1; 1; 1; 0]))) as Hshort
    by (repeat constructor).
  assert (vsprintf0 (series_line (set_pstyle ctrl0 "boxes") tmp_name None)
          = Some (series_line (set_pstyle ctrl0 "boxes") tmp_name None))
    as Hfmt by reflexivity.
  assert (String.length
            (series_line (set_pstyle ctrl0 "boxes") tmp_name None)
          < GP_CMD_SIZE)%nat as Hfit
    by (apply Nat.ltb_lt; vm_compute; reflexivity).
  assert (String.length
            (series_line (set_pstyle ctrl0 "boxes") tmp_name None) + 1
          < GP_CMD_SIZE)%nat as Hcmd
    by (apply Nat.ltb_lt; vm_compute; reflexivity).
  assert (nplots ctrl0 < INT_MAX) as Hnp by (unfold INT_MAX; simpl; lia).
  repeat (split; [assumption|]).
  destruct (X13_histogram_plot fmt_mant_exp "/tmp" 64 staging_ok
              edges0123 samples5 (d_of_Z <$> [1; 1; 1; 0]) 4 0 None
              session0 ctrl0 tmp_name
              (series_line (set_pstyle ctrl0 "boxes") tmp_name None)
              {[tmp_name := EmptyString]}
              Hmax Hc Ho Hn Hord Hbins Hcap Hmk Hwr Hshort Hfmt Hfit Hcmd Hnp)
    as (w' & c' & Hrun & Hc' & Hst & _ & _ & Hreg & Hnpl & _).
  exists w', c'. split; [exact Hrun|]. split; [exact Hc'|].
  split; [exact Hst|]. split; [exact Hnpl | exact Hreg].
Defined.

Lemma X14_reachable_style_and_registry_witness :
  reachable fmt_mant_exp "/tmp" 64 session0 ∧
  plot_ctrl session0 = Live ctrl0 ∧
  pstyle ctrl0 ∈ styles ∧ NoDup (registry ctrl0).
Proof.
  assert (plot_ctrl session0 = Live ctrl0) as Hc by reflexivity.
  split; [exact session0_reachable|]. split; [exact Hc|].
  destruct (X14_reachable_style_and_registry fmt_mant_exp "/tmp" 64
              session0 ctrl0 session0_reachable Hc) as (Hs & Hn & _).
  split; [exact Hs | exact Hn].
Defined.

Lemma X15_plot_once_drops_session_witness :
  1 ≤ 3 ∧
  gnuplot_plot_once fmt_mant_exp "/tmp" 64 env_sample staging_ok 0
                    None None None None (Some points014) None 3
                    (with_ctrl w_boot (Live ctrl0))
    = gnuplot_plot_once fmt_mant_exp "/tmp" 64 env_sample staging_ok 0
                        None None None None (Some points014) None 3 w_boot.
Proof.
  assert (1 ≤ 3) as Hn by lia.
  split; [exact Hn|].
  exact (proj1 (X15_plot_once_drops_session fmt_mant_exp "/tmp" 64
                  env_sample staging_ok 0 None None None None points014
                  None 3 w_boot Hn) (Live ctrl0)).
Defined.

Lemma X16_locator_is_which_witness :
  (nul ∉ chars "gnuplot") ∧ ("/"%char ∉ chars "gnuplot") ∧
  (String.length "gnuplot" + 3 ≤ length (path_buf w_boot))%nat ∧
  (∀ path seg,
      env_PATH env_sample = Some path →
      access_X env_sample ("./" +:+ "gnuplot") = false →
      seg ∈ tried env_sample "gnuplot" (path_segments EmptyString path) →
      (nul ∉ chars seg) ∧
      (String.length (dir_of seg) + String.length "gnuplot" + 2
       ≤ length (path_buf w_boot))%nat) ∧
  returned env_sample "gnuplot" w_boot = Done (which env_sample "gnuplot") ∧
  which env_sample "gnuplot" = Some "/usr/bin".
Proof.
  assert (nul ∉ chars "gnuplot") as Hn
    by (apply (bool_decide_unpack _); vm_compute; exact I).
  assert ("/"%char ∉ chars "gnuplot") as Hs
    by (apply (bool_decide_unpack _); vm_compute; exact I).
  assert (length (path_buf w_boot) = 4096%nat) as Hlen
    by apply length_replicate.
  assert (String.length "gnuplot" + 3 ≤ length (path_buf w_boot))%nat
    as Hroom by (rewrite Hlen; simpl; lia).
  assert (∀ path seg,
            env_PATH env_sample = Some path →
            access_X env_sample ("./" +:+ "gnuplot") = false →
            seg ∈ tried env_sample "gnuplot"
                        (path_segments EmptyString path) →
            (nul ∉ chars seg) ∧
            (String.length (dir_of seg) + String.length "gnuplot" + 2
             ≤ length (path_buf w_boot))%nat) as Hpath.
  { intros path seg [= <-] _ Hin.
    assert (tried env_sample "gnuplot"
                  (path_segments EmptyString "/bin:/usr/bin")
            = ["/bin"; "/usr/bin"]) as E by (vm_compute; reflexivity).
    rewrite E in Hin. clear E.
    apply elem_of_cons in Hin as [->|Hin];
      [|apply list_elem_of_singleton in Hin; subst seg].
    - split; [apply (bool_decide_unpack _); vm_compute; exact I|].
      rewrite Hlen. simpl. lia.
    - split; [apply (bool_decide_unpack _); vm_compute; exact I|].
      rewrite Hlen. simpl. lia. }
  repeat (split; [assumption|]).
  split; [|reflexivity].
  exact (X16_locator_is_which env_sample "gnuplot" w_boot Hn Hs Hroom Hpath).
Defined.

Lemma X17_path_split_witness :
  (∀ s, s ∈ [EmptyString; "/bin"] → ":"%char ∉ chars s) ∧
  (":"%char ∉ chars "/usr/bin") ∧
  path_segments EmptyString ":/bin:/usr/bin"
    = [EmptyString; "/bin"; "/usr/bin"].
Proof.
  assert (∀ s, s ∈ [EmptyString; "/bin"] → ":"%char ∉ chars s) as Hsegs.
  { intros s Hin. apply elem_of_cons in Hin as [->|Hin];
      [apply not_elem_of_nil|].
    apply list_elem_of_singleton in Hin. subst s.
    apply (bool_decide_unpack _). vm_compute. exact I. }
  assert (":"%char ∉ chars "/usr/bin") as Hlast
    by (apply (bool_decide_unpack _); vm_compute; exact I).
  split; [exact Hsegs|]. split; [exact Hlast|].
  exact (X17_path_split [EmptyString; "/bin"] "/usr/bin" Hsegs Hlast).
Defined.

Lemma X18_constructor_witness :
  gnuplot_init env_sample w_boot
    = Done (Live ctrl_init, with_buf w_boot (path_buf session0)) ∧
  ∃ w' c, GnuPlot env_sample w_boot = Done w' ∧ plot_ctrl w' = Live c ∧
          pstyle c = "points" ∧ registry c = [].
Proof.
  assert (gnuplot_init env_sample w_boot
          = Done (Live ctrl_init, with_buf w_boot (path_buf session0))) as Hi
    by (vm_compute; reflexivity).
  assert (Live ctrl_init ≠ Null) as Hnn by discriminate.
  split; [exact Hi|].
  destruct (proj2 (X18_constructor env_sample w_boot
                     (with_buf w_boot (path_buf session0)) (Live ctrl_init)
                     Hi) Hnn)
    as (w' & c & Hrun & Hc & _ & _ & _ & Hreg & Hst & _).
  exists w', c. split; [exact Hrun|]. split; [exact Hc|].
  split; [exact Hst | exact Hreg].
Defined.
